(** * rpcprotocol: HTTP framing and JSON-RPC envelopes

    A shallow embedding of [src/rpcprotocol.cpp] and the properties of
    its line parsers, header collector, body reader, response formatter
    and JSON-RPC envelope constructors. *)

From Stdlib Require Import ZArith Lia Ascii String List Bool.
From Stdlib Require Import Floats.SpecFloat.
From Equations Require Import Equations.
From stdpp Require Import base gmap strings list.

Local Open Scope Z_scope.

#[local] Arguments String.append !_ _ / : simpl nomatch.

(** ** Byte strings

    [std::string] is modelled by [string]; the functions below are the
    library calls the source makes on it. *)

Module Str.

Definition LF : ascii := "010"%char.
Definition NUL : ascii := "000"%char.

(** [s.empty()] *)
Definition empty (s : string) : bool :=
  match s with EmptyString => true | String _ _ => false end.

(** [s.size()] as a [size_t]. *)
Definition size (s : string) : Z := Z.of_nat (String.length s).

(** [s.substr(0, n)] *)
Fixpoint take (n : nat) (s : string) : string :=
  match n, s with
  | S n', String c s' => String c (take n' s')
  | _, _ => EmptyString
  end.

(** [s.substr(n)] for [n <= s.size()] *)
Fixpoint drop (n : nat) (s : string) : string :=
  match n, s with
  | S n', String _ s' => drop n' s'
  | _, _ => s
  end.

(** [s.find(c)]: position of the first [c], [None] for [npos]. *)
Fixpoint find (c : ascii) (s : string) : option nat :=
  match s with
  | EmptyString => None
  | String a s' =>
      if Ascii.eqb a c then Some O
      else match find c s' with Some i => Some (S i) | None => None end
  end.

(** Membership of a byte, as a boolean. *)
Fixpoint mem (c : ascii) (s : string) : bool :=
  match s with
  | EmptyString => false
  | String a s' => Ascii.eqb a c || mem c s'
  end.

(** [std::isspace] in the classic locale: HT, LF, VT, FF, CR and space. *)
Definition isspace (c : ascii) : bool :=
  let n := N_of_ascii c in ((9 <=? n) && (n <=? 13) || (n =? 32))%N.

(** [std::isdigit] *)
Definition isdigit (c : ascii) : bool :=
  let n := N_of_ascii c in ((48 <=? n) && (n <=? 57))%N.

(** [std::tolower] in the classic locale. *)
Definition tolower (c : ascii) : ascii :=
  let n := N_of_ascii c in
  if ((65 <=? n) && (n <=? 90))%N then ascii_of_N (n + 32) else c.

(** [boost::to_lower] *)
Fixpoint to_lower (s : string) : string :=
  match s with
  | EmptyString => EmptyString
  | String c s' => String (tolower c) (to_lower s')
  end.

Fixpoint trim_left (s : string) : string :=
  match s with
  | EmptyString => EmptyString
  | String c s' => if isspace c then trim_left s' else s
  end.

Fixpoint trim_right (s : string) : string :=
  match s with
  | EmptyString => EmptyString
  | String c s' =>
      let r := trim_right s' in
      if isspace c && empty r then EmptyString else String c r
  end.

(** [boost::trim]: the trailing blanks are erased first, then the
    leading ones. *)
Definition trim (s : string) : string := trim_left (trim_right s).

(** [boost::split(v, s, boost::is_any_of(sep))] with the default
    [token_compress_off]: adjacent separators give empty tokens and the
    result always has at least one token. *)
Fixpoint split (sep : ascii) (s : string) : list string :=
  match s with
  | EmptyString => [EmptyString]
  | String c s' =>
      if Ascii.eqb c sep then EmptyString :: split sep s'
      else match split sep s' with
           | w :: ws => String c w :: ws
           | [] => [String c EmptyString]
           end
  end.

(** [s.c_str()] as seen by the C library: the bytes before the first
    NUL. *)
Fixpoint c_str (s : string) : string :=
  match s with
  | EmptyString => EmptyString
  | String c s' => if Ascii.eqb c NUL then EmptyString else String c (c_str s')
  end.

Fixpoint is_prefix (p s : string) : bool :=
  match p, s with
  | EmptyString, _ => true
  | String a p', String b s' => Ascii.eqb a b && is_prefix p' s'
  | String _ _, EmptyString => false
  end.

(** [strstr(hay, needle)]: the suffix of [hay] that starts at the first
    occurrence of [needle], [None] for [NULL]. *)
Fixpoint strstr (hay needle : string) : option string :=
  if is_prefix needle hay then Some hay
  else match hay with
       | EmptyString => None
       | String _ hay' => strstr hay' needle
       end.

(** The digits at the head of [s], folded into [acc] in base ten. *)
Fixpoint digits (acc : Z) (s : string) : Z :=
  match s with
  | String c s' =>
      if isdigit c then digits (acc * 10 + (Z.of_N (N_of_ascii c) - 48)) s'
      else acc
  | EmptyString => acc
  end.

Definition starts_with_digit (s : string) : bool :=
  match s with String c _ => isdigit c | EmptyString => false end.

(** The integer a string starts with, after blanks and an optional sign;
    [None] when no digit follows. *)
Definition scan_int (s : string) : option Z :=
  match trim_left s with
  | String "-" s' => if starts_with_digit s' then Some (- digits 0 s') else None
  | String "+" s' => if starts_with_digit s' then Some (digits 0 s') else None
  | s' => if starts_with_digit s' then Some (digits 0 s') else None
  end.

Definition LONG_MAX : Z := 2 ^ 63 - 1.
Definition LONG_MIN : Z := - 2 ^ 63.

(** [strtol(s, NULL, 10)] on an LP64 platform: the value saturates at
    the bounds of [long], and is 0 when there is nothing to convert. *)
Definition strtol (s : string) : Z :=
  match scan_int s with
  | Some v => Z.max LONG_MIN (Z.min LONG_MAX v)
  | None => 0
  end.

(** Conversion of a [long] to [int]: the low 32 bits, signed. *)
Definition int_of_long (v : Z) : Z := (v + 2 ^ 31) mod 2 ^ 32 - 2 ^ 31.

(** [atoi(s)], that is [(int) strtol(s, NULL, 10)]. *)
Definition atoi (s : string) : Z := int_of_long (strtol s).

(** Conversion of a non-negative value to decimal text, as [operator<<]
    and [%u] print it.  [fuel] bounds the number of digits. *)
Fixpoint decimal_digits (fuel : nat) (n : Z) (acc : string) : string :=
  match fuel with
  | O => acc
  | S fuel' =>
      let acc' := String (ascii_of_N (Z.to_N (48 + n mod 10))) acc in
      if n <? 10 then acc' else decimal_digits fuel' (n / 10) acc'
  end.

Definition decimal (n : Z) : string :=
  decimal_digits (S (Z.to_nat (Z.log2 n))) n EmptyString.

End Str.

(** ** Input streams

    A [std::basic_istream<char>] is the bytes still to come together with
    its [eofbit] and [failbit].  [read_log] records the size asked of each
    [read] call, most recent first. *)

Record istream : Type := mkIstream {
  rdbuf : string;
  eofbit : bool;
  failbit : bool;
  read_log : list Z
}.

(** A stream over the bytes [s], in the good state. *)
Definition istream_of (s : string) : istream := mkIstream s false false [].

Definition good (st : istream) : bool := negb (eofbit st) && negb (failbit st).

(** [!stream] *)
Definition operator_not (st : istream) : bool := failbit st.

(** The text before the first line feed and the text after it. *)
Fixpoint break_line (s : string) : option (string * string) :=
  match s with
  | EmptyString => None
  | String c s' =>
      if Ascii.eqb c Str.LF then Some (EmptyString, s')
      else match break_line s' with
           | Some (l, r) => Some (String c l, r)
           | None => None
           end
  end.

(** [std::getline(stream, str)] on a fresh [str].  A stream that is not
    good only gets its [failbit] set.  Otherwise the line feed is consumed
    and not stored; when the input ends first, [eofbit] is set, and
    [failbit] too if nothing was extracted. *)
Definition getline (st : istream) : string * istream :=
  if good st then
    match break_line (rdbuf st) with
    | Some (l, r) => (l, mkIstream r (eofbit st) (failbit st) (read_log st))
    | None =>
        (rdbuf st,
         mkIstream EmptyString true (Str.empty (rdbuf st)) (read_log st))
    end
  else (EmptyString, mkIstream (rdbuf st) (eofbit st) true (read_log st)).

(** [stream.read(buf, n)]: the bytes stored into [buf] and the stream
    afterwards.  Fewer than [n] bytes left sets [eofbit] and [failbit]. *)
Definition read (st : istream) (n : Z) : string * istream :=
  if good st then
    if Z.of_nat (String.length (rdbuf st)) <? n then
      (rdbuf st, mkIstream EmptyString true true (n :: read_log st))
    else
      (Str.take (Z.to_nat n) (rdbuf st),
       mkIstream (Str.drop (Z.to_nat n) (rdbuf st)) (eofbit st) (failbit st)
                 (n :: read_log st))
  else (EmptyString,
        mkIstream (rdbuf st) (eofbit st) true (n :: read_log st)).

(** ** Status codes *)

(** Modelled from the spec: the [HTTPStatusCode] enumeration of
    [rpcprotocol.h], which is not part of the sources at hand; the values
    are those of the status table. *)
Definition HTTP_OK : Z := 200.
Definition HTTP_BAD_REQUEST : Z := 400.
Definition HTTP_UNAUTHORIZED : Z := 401.
Definition HTTP_FORBIDDEN : Z := 403.
Definition HTTP_NOT_FOUND : Z := 404.
Definition HTTP_INTERNAL_SERVER_ERROR : Z := 500.

(** [const size_t POST_READ_SIZE = 256 * 1024] *)
Definition POST_READ_SIZE : Z := 256 * 1024.

(** [(size_t) n] for an [int] [n], with a 64-bit [size_t]. *)
Definition size_t_of_int (n : Z) : Z := n mod 2 ^ 64.

(** ** Header collection *)

(** [m[k] = v] on a [std::map]. *)
Definition map_assign (m : gmap string string) (k v : string) : gmap string string :=
  <[k := v]> m.

(** [m[k]] read as a value: a missing key is first inserted with the
    empty string. *)
Definition map_index (m : gmap string string) (k : string) : string * gmap string string :=
  match m !! k with
  | Some v => (v, m)
  | None => (EmptyString, <[k := EmptyString]> m)
  end.

(** The body of the loop of [ReadHTTPHeaders] for one non-empty line. *)
Definition header_line (str : string) (mapHeadersRet : gmap string string) (nLen : Z)
  : gmap string string * Z :=
  match Str.find ":" str with
  | Some nColon =>
      let strHeader := Str.to_lower (Str.trim (Str.take nColon str)) in
      let strValue := Str.trim (Str.drop (S nColon) str) in
      let mapHeadersRet := map_assign mapHeadersRet strHeader strValue in
      if String.eqb strHeader "content-length"
      then (mapHeadersRet, Str.atoi (Str.c_str strValue))
      else (mapHeadersRet, nLen)
  | None => (mapHeadersRet, nLen)
  end.

Definition inspect {A} (a : A) : {b : A | a = b} := exist _ a eq_refl.

Lemma getline_shrinks st str st' :
  getline st = (str, st') -> Str.empty str = false ->
  (String.length (rdbuf st') < String.length (rdbuf st))%nat.
Proof.
  unfold getline. destruct (good st).
  - destruct (break_line (rdbuf st)) as [[l r]|] eqn:E.
    + intros [= <- <-] _. simpl.
      revert l r E. induction (rdbuf st) as [|c s IH]; simpl; [discriminate|].
      intros l r. destruct (Ascii.eqb c Str.LF).
      * intros [= <- <-]. lia.
      * destruct (break_line s) as [[l' r']|]; [|discriminate].
        intros [= <- <-]. specialize (IH _ _ eq_refl). lia.
    + intros [= <- <-]. simpl. destruct (rdbuf st); simpl; [discriminate|lia].
  - intros [= <- <-]. discriminate.
Qed.

(** The [while (true)] loop of [ReadHTTPHeaders]: lines are read until an
    empty one, which also is what a stream that has ended yields. *)
Equations ReadHTTPHeaders_loop (stream : istream) (mapHeadersRet : gmap string string)
  (nLen : Z) : Z * gmap string string * istream
  by wf (String.length (rdbuf stream)) lt :=
  ReadHTTPHeaders_loop stream mapHeadersRet nLen with inspect (getline stream) := {
    | exist _ (str, stream') Hget with inspect (Str.empty str) := {
      | exist _ true _ => (nLen, mapHeadersRet, stream')
      | exist _ false Hne =>
          ReadHTTPHeaders_loop stream'
            (fst (header_line str mapHeadersRet nLen))
            (snd (header_line str mapHeadersRet nLen)) } }.
Next Obligation.
  intros. eapply getline_shrinks; eauto.
Qed.

(** [ReadHTTPHeaders]: the declared length, the map and the stream. *)
Definition ReadHTTPHeaders (stream : istream) (mapHeadersRet : gmap string string)
  : Z * gmap string string * istream :=
  ReadHTTPHeaders_loop stream mapHeadersRet 0.

(** ** Message assembly *)

(** [v.resize(n)] on a [vector<char>]: new bytes are zero. *)
Fixpoint resize (n : nat) (v : string) : string :=
  match n with
  | O => EmptyString
  | S n' =>
      match v with
      | String c v' => String c (resize n' v')
      | EmptyString => String Str.NUL (resize n' EmptyString)
      end
  end.

(** The bytes [chunk] stored at [&v[ptr]]. *)
Definition store (v : string) (ptr : nat) (chunk : string) : string :=
  Str.take ptr v +:+ chunk +:+ Str.drop (ptr + String.length chunk) v.

(** The [while (ptr < (size_t)nLen)] loop of [ReadHTTPMessage].  [None]
    is the early return taken when a read leaves the stream failed.  The
    [size_t] arithmetic is written without wrap-around: [ptr] stays
    between 0 and [nLen]. *)
Equations read_loop (stream : istream) (vch : string) (ptr nLen : Z)
  : option string * istream
  by wf (Z.to_nat (size_t_of_int nLen - ptr)) lt :=
  read_loop stream vch ptr nLen with inspect (ptr <? size_t_of_int nLen) := {
    | exist _ false _ => (Some vch, stream)
    | exist _ true Hlt =>
        let bytes_to_read := Z.min (size_t_of_int nLen - ptr) POST_READ_SIZE in
        let vch := resize (Z.to_nat (ptr + bytes_to_read)) vch in
        let rd := read stream bytes_to_read in
        let vch := store vch (Z.to_nat ptr) (fst rd) in
        if operator_not (snd rd) then (None, snd rd)
        else read_loop (snd rd) vch (ptr + bytes_to_read) nLen }.
Next Obligation.
  intros. simpl in Hlt. apply Z.ltb_lt in Hlt.
  subst bytes_to_read. unfold POST_READ_SIZE. lia.
Qed.

(** [ReadHTTPMessage]: the status returned, then the two output
    parameters and the stream as the call leaves them. *)
Definition ReadHTTPMessage (stream : istream) (mapHeadersRet : gmap string string)
  (strMessageRet : string) (nProto : Z) (max_size : Z)
  : Z * gmap string string * string * istream :=
  let mapHeadersRet : gmap string string := ∅ in
  let strMessageRet := EmptyString in
  let '(nLen, mapHeadersRet, stream) := ReadHTTPHeaders stream mapHeadersRet in
  if (nLen <? 0) || (max_size <? size_t_of_int nLen)
  then (HTTP_INTERNAL_SERVER_ERROR, mapHeadersRet, strMessageRet, stream)
  else
    let body :=
      if 0 <? nLen then read_loop stream EmptyString 0 nLen
      else (Some strMessageRet, stream) in
    match body with
    | (None, stream) =>
        (HTTP_INTERNAL_SERVER_ERROR, mapHeadersRet, strMessageRet, stream)
    | (Some strMessageRet, stream) =>
        let '(sConHdr, mapHeadersRet) := map_index mapHeadersRet "connection" in
        let mapHeadersRet :=
          if negb (String.eqb sConHdr "close") && negb (String.eqb sConHdr "keep-alive")
          then
            if 1 <=? nProto
            then map_assign mapHeadersRet "connection" "keep-alive"
            else map_assign mapHeadersRet "connection" "close"
          else mapHeadersRet in
        (HTTP_OK, mapHeadersRet, strMessageRet, stream)
    end.

(** ** Request and status lines *)

(** [ReadHTTPRequestLine]: the result, then [proto], [http_method] and
    [http_uri] as the call leaves them, and the stream. *)
Definition ReadHTTPRequestLine (stream : istream) (proto : Z)
  (http_method http_uri : string) : bool * Z * string * string * istream :=
  let '(str, stream) := getline stream in
  let vWords := Str.split " " str in
  if (length vWords <? 2)%nat
  then (false, proto, http_method, http_uri, stream)
  else
    let http_method := nth 0 vWords EmptyString in
    if negb (String.eqb http_method "GET") && negb (String.eqb http_method "POST")
    then (false, proto, http_method, http_uri, stream)
    else
      let http_uri := nth 1 vWords EmptyString in
      if (Str.size http_uri =? 0)
         || negb (match http_uri with String c _ => Ascii.eqb c "/" | EmptyString => false end)
      then (false, proto, http_method, http_uri, stream)
      else
        let strProto := EmptyString in
        let strProto := if (2 <? length vWords)%nat then nth 2 vWords EmptyString else strProto in
        let proto := 0 in
        let proto :=
          match Str.strstr (Str.c_str strProto) "HTTP/1." with
          | Some ver => Str.atoi (Str.drop 7 ver)
          | None => proto
          end in
        (true, proto, http_method, http_uri, stream).

(** [ReadHTTPStatus]: the status returned, [proto] as the call leaves it,
    and the stream. *)
Definition ReadHTTPStatus (stream : istream) (proto : Z) : Z * Z * istream :=
  let '(str, stream) := getline stream in
  let vWords := Str.split " " str in
  if (length vWords <? 2)%nat
  then (HTTP_INTERNAL_SERVER_ERROR, proto, stream)
  else
    let proto := 0 in
    let proto :=
      match Str.strstr (Str.c_str str) "HTTP/1." with
      | Some ver => Str.atoi (Str.drop 7 ver)
      | None => proto
      end in
    (Str.atoi (Str.c_str (nth 1 vWords EmptyString)), proto, stream).

(** ** Response formatting *)

(** What the formatter reads from its surroundings: the clock and the
    version string of the build. *)
Record Env : Type := mkEnv {
  clock : Z;
  version : string
}.

(** Modelled from the spec: [GetTime] of utiltime, which is not part of
    the sources at hand; the wall-clock time source, in seconds since the
    epoch. *)
Definition GetTime (env : Env) : Z := clock env.

(** Modelled from the spec: [FormatFullVersion] of clientversion, which is
    not part of the sources at hand; the version-string source. *)
Definition FormatFullVersion (env : Env) : string := version env.

Module DateTime.

Definition two_digits (n : Z) : string :=
  String (ascii_of_N (Z.to_N (48 + n / 10 mod 10)))
    (String (ascii_of_N (Z.to_N (48 + n mod 10))) EmptyString).

Definition day_name (d : Z) : string :=
  nth (Z.to_nat d) ["Sun"; "Mon"; "Tue"; "Wed"; "Thu"; "Fri"; "Sat"]%string EmptyString.

Definition month_name (m : Z) : string :=
  nth (Z.to_nat (m - 1))
    ["Jan"; "Feb"; "Mar"; "Apr"; "May"; "Jun";
     "Jul"; "Aug"; "Sep"; "Oct"; "Nov"; "Dec"]%string EmptyString.

(** Year, month and day of the Gregorian calendar for a count of days
    since 1970-01-01. *)
Definition civil_from_days (days : Z) : Z * Z * Z :=
  let z := days + 719468 in
  let era := z / 146097 in
  let doe := z - era * 146097 in
  let yoe := (doe - doe / 1460 + doe / 36524 - doe / 146096) / 365 in
  let doy := doe - (365 * yoe + yoe / 4 - yoe / 100) in
  let mp := (5 * doy + 2) / 153 in
  let d := doy - (153 * mp + 2) / 5 + 1 in
  let m := if mp <? 10 then mp + 3 else mp - 9 in
  let y := yoe + era * 400 + (if m <=? 2 then 1 else 0) in
  (y, m, d).

(** Modelled from the spec: [DateTimeStrFormat] of utiltime, which is
    not part of the sources at hand, at the one format [rfc1123Time]
    passes to it: the fixed human-readable timestamp
    ["%a, %d %b %Y %H:%M:%S +0000"] of a time in UTC. *)
Definition DateTimeStrFormat_rfc1123 (nTime : Z) : string :=
  let days := nTime / 86400 in
  let secs := nTime mod 86400 in
  let '(y, m, d) := civil_from_days days in
  day_name ((days + 4) mod 7) +:+ ", " +:+ two_digits d +:+ " "
    +:+ month_name m +:+ " " +:+ Str.decimal y +:+ " "
    +:+ two_digits (secs / 3600) +:+ ":" +:+ two_digits (secs / 60 mod 60)
    +:+ ":" +:+ two_digits (secs mod 60) +:+ " +0000".

End DateTime.

(** [rfc1123Time] *)
Definition rfc1123Time (env : Env) : string :=
  DateTime.DateTimeStrFormat_rfc1123 (GetTime env).

(** [httpStatusDescription] *)
Definition httpStatusDescription (nStatus : Z) : string :=
  if nStatus =? HTTP_OK then "OK"
  else if nStatus =? HTTP_BAD_REQUEST then "Bad Request"
  else if nStatus =? HTTP_FORBIDDEN then "Forbidden"
  else if nStatus =? HTTP_NOT_FOUND then "Not Found"
  else if nStatus =? HTTP_INTERNAL_SERVER_ERROR then "Internal Server Error"
  else "".

(** [%d] of an [int]. *)
Definition decimal_int (n : Z) : string :=
  if n <? 0 then "-" +:+ Str.decimal (- n) else Str.decimal n.

Definition nl : string := String Str.LF EmptyString.
#[global] Arguments nl : simpl never.
Definition dq : string := String (ascii_of_N 34) EmptyString.

(** [HTTPReplyHeader] *)
Definition HTTPReplyHeader (env : Env) (nStatus : Z) (keepalive : bool)
  (contentLength : Z) (contentType : string) : string :=
  "HTTP/1.1 " +:+ decimal_int nStatus +:+ " " +:+ httpStatusDescription nStatus +:+ nl
  +:+ "Date: " +:+ rfc1123Time env +:+ nl
  +:+ "Connection: " +:+ (if keepalive then "keep-alive" else "close") +:+ nl
  +:+ "Content-Length: " +:+ Str.decimal contentLength +:+ nl
  +:+ "Content-Type: " +:+ contentType +:+ nl
  +:+ "Server: nodex-json-rpc/" +:+ FormatFullVersion env +:+ nl
  +:+ nl.

(** [HTTPReply] *)
Definition HTTPReply (env : Env) (nStatus : Z) (strMsg : string)
  (keepalive headersOnly : bool) (contentType : string) : string :=
  if headersOnly then HTTPReplyHeader env nStatus keepalive 0 contentType
  else HTTPReplyHeader env nStatus keepalive (Str.size strMsg) contentType +:+ strMsg.

(** The HTML document of the 401 response. *)
Definition unauthorized_body : string :=
  "<!DOCTYPE HTML PUBLIC " +:+ dq +:+ "-//W3C//DTD HTML 4.01 Transitional//EN" +:+ dq +:+ nl
  +:+ dq +:+ "http://www.w3.org/TR/1999/REC-html401-19991224/loose.dtd" +:+ dq +:+ ">" +:+ nl
  +:+ "<HTML>" +:+ nl
  +:+ "<HEAD>" +:+ nl
  +:+ "<TITLE>Error</TITLE>" +:+ nl
  +:+ "<META HTTP-EQUIV='Content-Type' CONTENT='text/html; charset=ISO-8859-1'>" +:+ nl
  +:+ "</HEAD>" +:+ nl
  +:+ "<BODY><H1>401 Unauthorized.</H1></BODY>" +:+ nl
  +:+ "</HTML>" +:+ nl.

(** [HTTPError] *)
Definition HTTPError (env : Env) (nStatus : Z) (keepalive headersOnly : bool) : string :=
  if nStatus =? HTTP_UNAUTHORIZED then
    "HTTP/1.0 401 Authorization Required" +:+ nl
    +:+ "Date: " +:+ rfc1123Time env +:+ nl
    +:+ "Server: nodex-json-rpc/" +:+ FormatFullVersion env +:+ nl
    +:+ "WWW-Authenticate: Basic realm=" +:+ dq +:+ "jsonrpc" +:+ dq +:+ nl
    +:+ "Content-Type: text/html" +:+ nl
    +:+ "Content-Length: 296" +:+ nl
    +:+ nl
    +:+ unauthorized_body
  else
    HTTPReply env nStatus (httpStatusDescription nStatus) keepalive headersOnly "text/plain".

(** [HTTPPost]; [mapRequestHeaders] lists the entries of the map in the
    order of its keys, the order [BOOST_FOREACH] visits them in. *)
Definition HTTPPost (env : Env) (strMsg : string)
  (mapRequestHeaders : list (string * string)) : string :=
  "POST / HTTP/1.1" +:+ nl
  +:+ "User-Agent: nodex-json-rpc/" +:+ FormatFullVersion env +:+ nl
  +:+ "Host: 127.0.0.1" +:+ nl
  +:+ "Content-Type: application/json" +:+ nl
  +:+ "Content-Length: " +:+ Str.decimal (Str.size strMsg) +:+ nl
  +:+ "Connection: close" +:+ nl
  +:+ "Accept: application/json" +:+ nl
  +:+ fold_right (fun item s => item.1 +:+ ": " +:+ item.2 +:+ nl +:+ s)
        (nl +:+ strMsg) mapRequestHeaders.

(** ** JSON-RPC envelopes *)

(** Modelled from the spec: the JSON value of json_spirit, which is not
    part of the sources at hand; an opaque tagged value (null, boolean,
    number, string, array, object).  An object is the sequence of its
    pairs, in insertion order. *)
#[warnings="-register-all"] Inductive Value : Type :=
| obj_v (o : list (string * Value))
| array_v (a : list Value)
| str_v (s : string)
| bool_v (b : bool)
| int_v (i : Z)
| real_v (r : spec_float)
| null_v.

Inductive Value_type : Type :=
| obj_type | array_type | str_type | bool_type | int_type | real_type | null_type.

(** [v.type()] *)
Definition type (v : Value) : Value_type :=
  match v with
  | obj_v _ => obj_type
  | array_v _ => array_type
  | str_v _ => str_type
  | bool_v _ => bool_type
  | int_v _ => int_type
  | real_v _ => real_type
  | null_v => null_type
  end.

(** [Pair(name, value)] and [Object] *)
Definition Pair (name : string) (value : Value) : string * Value := (name, value).

Abbreviation Object := (list (string * Value)).

(** [o.push_back(p)] *)
Definition push_back (o : Object) (p : string * Value) : Object := o ++ [p].

(** The value of the first pair of [o] named [name]. *)
Fixpoint find_value (o : Object) (name : string) : option Value :=
  match o with
  | [] => None
  | (n, v) :: o' => if String.eqb n name then Some v else find_value o' name
  end.

Section Writer.

(** The text of a real number is left to the serialization
    collaborator. *)
Variable write_real : spec_float -> string.

Definition hex_digit (n : Z) : ascii :=
  ascii_of_N (Z.to_N (if n <? 10 then 48 + n else 55 + n)).

Definition write_char (c : ascii) : string :=
  let n := Z.of_N (N_of_ascii c) in
  if n =? 34 then "\" +:+ dq
  else if n =? 92 then "\\"
  else if n =? 8 then "\b"
  else if n =? 12 then "\f"
  else if n =? 10 then "\n"
  else if n =? 13 then "\r"
  else if n =? 9 then "\t"
  else if (n <? 32) || (126 <? n)
  then "\u00" +:+ String (hex_digit (n / 16)) (String (hex_digit (n mod 16)) EmptyString)
  else String c EmptyString.

Fixpoint write_chars (s : string) : string :=
  match s with
  | EmptyString => EmptyString
  | String c s' => write_char c +:+ write_chars s'
  end.

Definition write_str (s : string) : string := dq +:+ write_chars s +:+ dq.

(** Modelled from the spec: [write_string(value, false)] of json_spirit,
    which is not part of the sources at hand; the compact text of a
    value, pairs and elements in order and separated by commas. *)
Fixpoint write_string (v : Value) : string :=
  match v with
  | obj_v o =>
      let fix members (o : list (string * Value)) : string :=
        match o with
        | [] => EmptyString
        | [(n, x)] => write_str n +:+ ":" +:+ write_string x
        | (n, x) :: o' => write_str n +:+ ":" +:+ write_string x +:+ "," +:+ members o'
        end in
      "{" +:+ members o +:+ "}"
  | array_v a =>
      let fix elements (a : list Value) : string :=
        match a with
        | [] => EmptyString
        | [x] => write_string x
        | x :: a' => write_string x +:+ "," +:+ elements a'
        end in
      "[" +:+ elements a +:+ "]"
  | str_v s => write_str s
  | bool_v b => if b then "true" else "false"
  | int_v i => decimal_int i
  | real_v r => write_real r
  | null_v => "null"
  end.

(** [JSONRPCRequest] *)
Definition JSONRPCRequest (strMethod : string) (params : list Value) (id : Value)
  : string :=
  let request : Object := [] in
  let request := push_back request (Pair "method" (str_v strMethod)) in
  let request := push_back request (Pair "params" (array_v params)) in
  let request := push_back request (Pair "id" id) in
  write_string (obj_v request) +:+ nl.

End Writer.

(** [JSONRPCReplyObj] *)
Definition JSONRPCReplyObj (result error id : Value) : Object :=
  let reply : Object := [] in
  let reply :=
    match type error with
    | null_type => push_back reply (Pair "result" result)
    | _ => push_back reply (Pair "result" null_v)
    end in
  let reply := push_back reply (Pair "error" error) in
  let reply := push_back reply (Pair "id" id) in
  reply.

(** [JSONRPCError] *)
Definition JSONRPCError (code : Z) (message : string) : Object :=
  let error : Object := [] in
  let error := push_back error (Pair "code" (int_v code)) in
  let error := push_back error (Pair "message" (str_v message)) in
  error.


(** [JSONRPCReply] *)
Definition JSONRPCReply (write_real : spec_float -> string) (result error id : Value)
  : string :=
  let reply := JSONRPCReplyObj result error id in
  write_string write_real (obj_v reply) +:+ nl.

(** ** Vocabulary of the statements *)

(** The map the last lines of [ReadHTTPMessage] leave, as a function of
    the map the header collector returned; written apart so that
    statements can name it. *)
Definition normalize_connection (mapHeadersRet : gmap string string) (nProto : Z)
  : gmap string string :=
  let '(sConHdr, mapHeadersRet) := map_index mapHeadersRet "connection" in
  if negb (String.eqb sConHdr "close") && negb (String.eqb sConHdr "keep-alive")
  then
    if 1 <=? nProto
    then map_assign mapHeadersRet "connection" "keep-alive"
    else map_assign mapHeadersRet "connection" "close"
  else mapHeadersRet.

(** [needle] occurs in [hay]. *)
Definition contains (needle hay : string) : Prop :=
  exists pre post, hay = pre +:+ needle +:+ post.

(** Every byte of [s] satisfies [p]. *)
Fixpoint all_chars (p : ascii -> bool) (s : string) : bool :=
  match s with
  | EmptyString => true
  | String c s' => p c && all_chars p s'
  end.

(** Blanks that do not end a line. *)
Definition padding (s : string) : Prop :=
  all_chars Str.isspace s = true /\ Str.mem Str.LF s = false.

(** The text of a sequence of lines, each ended by a line feed. *)
Fixpoint lines_text (ls : list string) : string :=
  match ls with
  | [] => EmptyString
  | l :: ls' => l +:+ nl +:+ lines_text ls'
  end.

(** A request header that can be told from the framing: no colon in its
    name, no line feed in its name or value, and a name other than
    [content-length]. *)
Definition plain_header (item : string * string) : Prop :=
  Str.mem ":" item.1 = false /\ Str.mem Str.LF item.1 = false
  /\ Str.mem Str.LF item.2 = false
  /\ Str.to_lower (Str.trim item.1) <> "content-length".

(** All entries of a map are canonical: keys lowercase and trimmed,
    values trimmed. *)
Definition canonical_map (m : gmap string string) : Prop :=
  forall k v, m !! k = Some v ->
              Str.to_lower k = k /\ Str.trim k = k /\ Str.trim v = v.

(** The lines of a header block: none holds a line feed, none is empty. *)
Definition header_line_ok (l : string) : Prop :=
  Str.mem Str.LF l = false /\ Str.empty l = false.

(** The loop body applied to the lines in turn. *)
Definition header_lines (ls : list string) (m : gmap string string) (n : Z)
  : gmap string string * Z :=
  fold_left (fun acc l => header_line l acc.1 acc.2) ls (m, n).

(** A stream that has failed or ended, or has no byte left. *)
Definition exhausted (st : istream) : Prop :=
  good st = false \/ rdbuf st = EmptyString.

(** The text of an integer: an optional sign, then digits and nothing
    else. *)
Definition integer_text (s : string) : bool :=
  match s with
  | String "-" d => negb (Str.empty d) && all_chars Str.isdigit d
  | String "+" d => negb (Str.empty d) && all_chars Str.isdigit d
  | d => negb (Str.empty d) && all_chars Str.isdigit d
  end.

(** [needle] occurs in [hay] right after [pre], and nowhere before. *)
Definition first_occurrence (needle pre post hay : string) : Prop :=
  hay = pre +:+ needle +:+ post
  /\ forall pre' post', hay = pre' +:+ needle +:+ post' ->
                        (String.length pre <= String.length pre')%nat.

(** * Properties *)

(** ** Facts about byte strings *)

Lemma app_assoc_s (a b c : string) : (a +:+ b) +:+ c = a +:+ (b +:+ c).
Proof. induction a as [|x a IH]; simpl; [reflexivity | now rewrite IH]. Qed.

Lemma app_nil_r_s (a : string) : a +:+ EmptyString = a.
Proof. induction a as [|x a IH]; simpl; [reflexivity | now rewrite IH]. Qed.

Lemma length_app_s (a b : string) :
  String.length (a +:+ b) = (String.length a + String.length b)%nat.
Proof. induction a as [|x a IH]; simpl; [reflexivity | now rewrite IH]. Qed.

Lemma mem_app (c : ascii) (a b : string) :
  Str.mem c (a +:+ b) = Str.mem c a || Str.mem c b.
Proof.
  induction a as [|x a IH]; simpl; [reflexivity|].
  rewrite IH. now rewrite orb_assoc.
Qed.

Lemma break_line_app (l rest : string) :
  Str.mem Str.LF l = false ->
  break_line (l +:+ String Str.LF rest) = Some (l, rest).
Proof.
  induction l as [|c l IH]; simpl.
  - reflexivity.
  - intros H. apply orb_false_iff in H as [Hc Hl].
    rewrite Hc, (IH Hl). reflexivity.
Qed.

Lemma break_line_None (s : string) :
  Str.mem Str.LF s = false -> break_line s = None.
Proof.
  induction s as [|c s IH]; simpl; [reflexivity|].
  intros H. apply orb_false_iff in H as [Hc Hs].
  rewrite Hc, (IH Hs). reflexivity.
Qed.

Lemma break_line_Some (s l r : string) :
  break_line s = Some (l, r) ->
  s = l +:+ String Str.LF r /\ Str.mem Str.LF l = false.
Proof.
  revert l r. induction s as [|c s IH]; simpl; [discriminate|].
  intros l r. destruct (Ascii.eqb c Str.LF) eqn:E.
  - intros [= <- <-]. apply Ascii.eqb_eq in E. subst c. now split.
  - destruct (break_line s) as [[l' r']|]; [|discriminate].
    intros [= <- <-]. destruct (IH _ _ eq_refl) as [-> Hm].
    simpl. rewrite E. now split.
Qed.

(** ** Facts about streams *)

Lemma getline_line (st : istream) (l rest : string) :
  good st = true -> Str.mem Str.LF l = false ->
  rdbuf st = l +:+ String Str.LF rest ->
  getline st = (l, mkIstream rest (eofbit st) (failbit st) (read_log st)).
Proof.
  intros Hg Hl Hb. unfold getline. rewrite Hg, Hb, (break_line_app _ _ Hl).
  reflexivity.
Qed.

Lemma inspect_eq {A} (a b : A) (H : a = b) : inspect a = exist _ b H.
Proof. destruct H. reflexivity. Qed.

Lemma ReadHTTPHeaders_loop_step st m n :
  ReadHTTPHeaders_loop st m n =
  let rd := getline st in
  if Str.empty rd.1 then (n, m, rd.2)
  else ReadHTTPHeaders_loop rd.2 (header_line rd.1 m n).1 (header_line rd.1 m n).2.
Proof.
  funelim (ReadHTTPHeaders_loop st m n).
  - rewrite Hget. simpl. rewrite e. reflexivity.
  - rewrite Hget. simpl. rewrite Hne. reflexivity.
Qed.

Lemma read_loop_step st vch ptr nLen :
  read_loop st vch ptr nLen =
  if ptr <? size_t_of_int nLen then
    let bytes_to_read := Z.min (size_t_of_int nLen - ptr) POST_READ_SIZE in
    let rd := read st bytes_to_read in
    if operator_not rd.2 then (None, rd.2)
    else read_loop rd.2
           (store (resize (Z.to_nat (ptr + bytes_to_read)) vch) (Z.to_nat ptr) rd.1)
           (ptr + bytes_to_read) nLen
  else (Some vch, st).
Proof.
  destruct (ptr <? size_t_of_int nLen) eqn:E;
    rewrite read_loop_equation_1, (inspect_eq _ _ E); now simp read_loop.
Qed.

(** ** The JSON-RPC reply object *)

(** C6. In the object built by [JSONRPCReplyObj], the [result] member is
    null whenever the error passed is not null, whatever result was
    passed, and is the result passed when the error is null; the members
    are [result], [error], [id], in that order. *)
Theorem JSONRPCReplyObj_result_or_error (result error id : Value) :
  (type error <> null_type ->
   find_value (JSONRPCReplyObj result error id) "result" = Some null_v) /\
  (type error = null_type ->
   find_value (JSONRPCReplyObj result error id) "result" = Some result) /\
  (exists r, JSONRPCReplyObj result error id =
             [("result", r); ("error", error); ("id", id)]).
Proof.
  unfold JSONRPCReplyObj.
  destruct error; simpl; (split; [|split]); try congruence; try (intros _; reflexivity);
    eexists; reflexivity.
Qed.

Lemma JSONRPCReplyObj_result_or_error_witness :
  find_value (JSONRPCReplyObj (int_v 3) (str_v "failed") (int_v 1)) "result" = Some null_v
  /\ find_value (JSONRPCReplyObj (int_v 3) null_v (int_v 1)) "result" = Some (int_v 3).
Proof.
  split.
  - apply (proj1 (JSONRPCReplyObj_result_or_error (int_v 3) (str_v "failed") (int_v 1))).
    discriminate.
  - apply (proj1 (proj2 (JSONRPCReplyObj_result_or_error (int_v 3) null_v (int_v 1)))).
    reflexivity.
Defined.

(** ** Normalization of the connection header *)

Lemma ReadHTTPMessage_OK stream m0 msg0 nProto max_size status hdrs msg st' :
  ReadHTTPMessage stream m0 msg0 nProto max_size = (status, hdrs, msg, st') ->
  status = HTTP_OK ->
  hdrs = normalize_connection (ReadHTTPHeaders stream ∅).1.2 nProto.
Proof.
  unfold ReadHTTPMessage, normalize_connection.
  destruct (ReadHTTPHeaders stream ∅) as [[nLen m] st]. simpl.
  destruct ((nLen <? 0) || (max_size <? size_t_of_int nLen)).
  { intros [= <- <- <- <-]. discriminate. }
  destruct (if 0 <? nLen then _ else _) as [[body|] st2].
  2:{ intros [= <- <- <- <-]. discriminate. }
  destruct (map_index m "connection") as [v m'].
  intros [= <- <- <- <-] _. reflexivity.
Qed.

(** C9. When [ReadHTTPMessage] returns [HTTP_OK], the [connection] entry
    of the returned map is exactly ["close"] or exactly ["keep-alive"]. *)
Theorem ReadHTTPMessage_connection_exact stream m0 msg0 nProto max_size
  status (hdrs : gmap string string) msg st' :
  ReadHTTPMessage stream m0 msg0 nProto max_size = (status, hdrs, msg, st') ->
  status = HTTP_OK ->
  hdrs !! "connection" = Some "close" \/ hdrs !! "connection" = Some "keep-alive".
Proof.
  intros H Hok. rewrite (ReadHTTPMessage_OK _ _ _ _ _ _ _ _ _ H Hok).
  unfold normalize_connection, map_index, map_assign.
  destruct ((ReadHTTPHeaders stream ∅).1.2 !! "connection") as [v|] eqn:E; simpl.
  - destruct (String.eqb v "close") eqn:Ec; simpl.
    + apply String.eqb_eq in Ec. subst v. now left.
    + destruct (String.eqb v "keep-alive") eqn:Ek; simpl.
      * apply String.eqb_eq in Ek. subst v. now right.
      * destruct (1 <=? nProto); rewrite lookup_insert_eq; auto.
  - destruct (1 <=? nProto); rewrite lookup_insert_eq; auto.
Qed.

Lemma ReadHTTPMessage_connection_exact_witness :
  (ReadHTTPMessage (istream_of ("Connection: Close" +:+ nl +:+ nl)) ∅ "" 1 0).1.1.2
    !! "connection" = Some "close"
  \/ (ReadHTTPMessage (istream_of ("Connection: Close" +:+ nl +:+ nl)) ∅ "" 1 0).1.1.2
    !! "connection" = Some "keep-alive".
Proof.
  apply (ReadHTTPMessage_connection_exact
           (istream_of ("Connection: Close" +:+ nl +:+ nl)) ∅ "" 1 0 HTTP_OK _ ""
           (ReadHTTPMessage (istream_of ("Connection: Close" +:+ nl +:+ nl)) ∅ "" 1 0).2).
  - vm_compute. reflexivity.
  - reflexivity.
Defined.

(** C2, as amended. When [ReadHTTPMessage] returns [HTTP_OK], the value
    the header collector stored under [connection] (the empty string when
    there is none) is compared exactly, letter case included: ["close"]
    and ["keep-alive"] pass through unchanged, any other value is
    overwritten by ["keep-alive"] when the protocol version is at least 1
    and by ["close"] otherwise.  The other headers are left as collected. *)
Theorem ReadHTTPMessage_connection_normalized stream m0 msg0 nProto max_size
  status (hdrs : gmap string string) msg st' (v : string) :
  ReadHTTPMessage stream m0 msg0 nProto max_size = (status, hdrs, msg, st') ->
  status = HTTP_OK ->
  v = default EmptyString ((ReadHTTPHeaders stream ∅).1.2 !! "connection") ->
  (v = "close" \/ v = "keep-alive" -> hdrs !! "connection" = Some v) /\
  (v <> "close" -> v <> "keep-alive" -> 1 <= nProto ->
   hdrs !! "connection" = Some "keep-alive") /\
  (v <> "close" -> v <> "keep-alive" -> nProto < 1 ->
   hdrs !! "connection" = Some "close") /\
  (forall k, k <> "connection" -> hdrs !! k = (ReadHTTPHeaders stream ∅).1.2 !! k).
Proof.
  intros H Hok ->. rewrite (ReadHTTPMessage_OK _ _ _ _ _ _ _ _ _ H Hok).
  unfold normalize_connection, map_index, map_assign.
  set (m := (ReadHTTPHeaders stream ∅).1.2).
  assert (Hne : forall (k x y : string) (m1 : gmap string string),
             k <> "connection" ->
             <["connection" := x]> (<["connection" := y]> m1) !! k = m1 !! k).
  { intros k x y m1 Hk. now rewrite !lookup_insert_ne by congruence. }
  destruct (m !! "connection") as [v|] eqn:E; simpl.
  - destruct (String.eqb_spec v "close") as [->|Hc]; simpl.
    { repeat split; intros; try assumption; congruence. }
    destruct (String.eqb_spec v "keep-alive") as [->|Hk]; simpl.
    { repeat split; intros; try assumption; congruence. }
    destruct (Z.leb_spec 1 nProto); repeat split; intros;
      rewrite ?lookup_insert_eq, ?lookup_insert_ne by congruence;
      try reflexivity; try lia; intuition congruence.
  - destruct (Z.leb_spec 1 nProto); repeat split; intros;
      rewrite ?Hne by assumption;
      rewrite ?lookup_insert_eq; try reflexivity; try lia;
      intuition congruence.
Qed.

Lemma ReadHTTPMessage_connection_normalized_witness :
  (ReadHTTPMessage (istream_of ("Connection: Close" +:+ nl +:+ nl)) ∅ "" 1 0).1.1.2
    !! "connection" = Some "keep-alive".
Proof.
  refine (proj1 (proj2 (ReadHTTPMessage_connection_normalized
           (istream_of ("Connection: Close" +:+ nl +:+ nl)) ∅ "" 1 0 HTTP_OK _ ""
           (ReadHTTPMessage (istream_of ("Connection: Close" +:+ nl +:+ nl)) ∅ "" 1 0).2
           "Close" _ _ _)) _ _ _).
  - vm_compute. reflexivity.
  - reflexivity.
  - vm_compute. reflexivity.
  - discriminate.
  - discriminate.
  - lia.
Defined.

(** C2, as the spec words it, fails: the peer value ["Close"] matches
    ["close"] when letter case is ignored, and yet it does not pass
    through; with protocol version 1 it is overwritten by
    ["keep-alive"]. *)
Lemma connection_mixed_case_overwritten :
  (ReadHTTPHeaders (istream_of ("Connection: Close" +:+ nl +:+ nl)) ∅).1.2
    !! "connection" = Some "Close"
  /\ Str.to_lower "Close" = "close"
  /\ (ReadHTTPMessage (istream_of ("Connection: Close" +:+ nl +:+ nl)) ∅ "" 1 0).1.1.1
     = HTTP_OK
  /\ (ReadHTTPMessage (istream_of ("Connection: Close" +:+ nl +:+ nl)) ∅ "" 1 0).1.1.2
       !! "connection" = Some "keep-alive"
  /\ (ReadHTTPMessage (istream_of ("Connection: Close" +:+ nl +:+ nl)) ∅ "" 1 0).1.1.2
       !! "connection" <> Some "Close".
Proof.
  repeat split; try (vm_compute; reflexivity).
  vm_compute. discriminate.
Qed.

(** ** The status line *)

(** C10, as amended. With at least two tokens, [ReadHTTPStatus] returns
    [atoi] of the second token, which is 0 when that token does not start
    with an integer; with fewer than two tokens it returns
    [HTTP_INTERNAL_SERVER_ERROR].  That value is returned only when there
    are fewer than two tokens or the second token itself converts to it. *)
Theorem ReadHTTPStatus_second_token (stream : istream) (proto : Z) :
  ((2 <= length (Str.split " " (getline stream).1))%nat ->
   (ReadHTTPStatus stream proto).1.1 =
   Str.atoi (Str.c_str (nth 1 (Str.split " " (getline stream).1) EmptyString))) /\
  ((2 <= length (Str.split " " (getline stream).1))%nat ->
   Str.scan_int (Str.c_str (nth 1 (Str.split " " (getline stream).1) EmptyString)) = None ->
   (ReadHTTPStatus stream proto).1.1 = 0) /\
  ((length (Str.split " " (getline stream).1) < 2)%nat ->
   (ReadHTTPStatus stream proto).1.1 = HTTP_INTERNAL_SERVER_ERROR) /\
  ((ReadHTTPStatus stream proto).1.1 = HTTP_INTERNAL_SERVER_ERROR ->
   (length (Str.split " " (getline stream).1) < 2)%nat \/
   Str.atoi (Str.c_str (nth 1 (Str.split " " (getline stream).1) EmptyString))
   = HTTP_INTERNAL_SERVER_ERROR).
Proof.
  unfold ReadHTTPStatus. destruct (getline stream) as [str st]. simpl.
  destruct (Nat.ltb_spec (length (Str.split " " str)) 2) as [Hlt|Hge]; simpl.
  - repeat split; intros; try lia; auto.
  - repeat split; intros; try lia; auto.
    unfold Str.atoi, Str.strtol.
    match goal with H : Str.scan_int _ = None |- _ => rewrite H end.
    reflexivity.
Qed.

Lemma ReadHTTPStatus_second_token_witness :
  (ReadHTTPStatus (istream_of ("HTTP/1.1 abc" +:+ nl)) 7).1.1 = 0.
Proof.
  apply (proj1 (proj2 (ReadHTTPStatus_second_token (istream_of ("HTTP/1.1 abc" +:+ nl)) 7))).
  - vm_compute. lia.
  - vm_compute. reflexivity.
Defined.

(** C10, as the spec words it, fails: a status line of three tokens whose
    second one is [500] makes [ReadHTTPStatus] return
    [HTTP_INTERNAL_SERVER_ERROR]. *)
Lemma ReadHTTPStatus_sentinel_with_tokens :
  (ReadHTTPStatus (istream_of ("HTTP/1.1 500 Oops" +:+ nl)) 0).1.1
  = HTTP_INTERNAL_SERVER_ERROR
  /\ length (Str.split " " (getline (istream_of ("HTTP/1.1 500 Oops" +:+ nl))).1) = 3%nat
  /\ ~ (length (Str.split " " (getline (istream_of ("HTTP/1.1 500 Oops" +:+ nl))).1) < 2)%nat.
Proof.
  repeat split; try (vm_compute; reflexivity).
  vm_compute. lia.
Qed.

(** ** The unauthorized response *)

(** C1, as the spec words it, fails: two calls one second apart, with the
    same flags and the same build, return different bytes. *)
Lemma HTTPError_unauthorized_varies_with_clock :
  HTTPError (mkEnv 0 "v1.0.0") HTTP_UNAUTHORIZED false false <>
  HTTPError (mkEnv 1 "v1.0.0") HTTP_UNAUTHORIZED false false.
Proof. vm_compute. discriminate. Qed.

(** The HTML document is 287 bytes long; the header announces 296. *)
Example unauthorized_body_size : Str.size unauthorized_body = 287.
Proof. reflexivity. Qed.

Example rfc1123Time_epoch :
  rfc1123Time (mkEnv 0 "") = "Thu, 01 Jan 1970 00:00:00 +0000".
Proof. vm_compute. reflexivity. Qed.

Example rfc1123Time_leap_day :
  rfc1123Time (mkEnv 951868799 "") = "Tue, 29 Feb 2000 23:59:59 +0000".
Proof. vm_compute. reflexivity. Qed.

(** ** The request line *)

Lemma is_prefix_app (p s : string) :
  Str.is_prefix p s = true -> exists post, s = p +:+ post.
Proof.
  revert s. induction p as [|a p IH]; intros s; simpl.
  - intros _. now exists s.
  - destruct s as [|b s]; [discriminate|].
    intros H. apply andb_true_iff in H as [Hab Hp].
    apply Ascii.eqb_eq in Hab. subst b.
    destruct (IH _ Hp) as [post ->]. now exists post.
Qed.

Lemma strstr_at_head (hay needle : string) :
  Str.is_prefix needle hay = true -> Str.strstr hay needle = Some hay.
Proof. intros H. destruct hay; simpl; now rewrite H. Qed.

Lemma strstr_absent (hay needle : string) :
  ~ contains needle hay -> Str.strstr hay needle = None.
Proof.
  induction hay as [|c hay IH]; intros Hno; simpl.
  - destruct (Str.is_prefix needle EmptyString) eqn:E; [|reflexivity].
    exfalso. apply Hno. destruct (is_prefix_app _ _ E) as [post Hp].
    exists EmptyString, post. exact Hp.
  - destruct (Str.is_prefix needle (String c hay)) eqn:E.
    + exfalso. apply Hno. destruct (is_prefix_app _ _ E) as [post Hp].
      exists EmptyString, post. exact Hp.
    + apply IH. intros (pre & post & ->). apply Hno.
      now exists (String c pre), post.
Qed.

Lemma c_str_is_prefix (s : string) : exists rest, s = Str.c_str s +:+ rest.
Proof.
  induction s as [|c s [rest IH]]; simpl.
  - now exists EmptyString.
  - destruct (Ascii.eqb c Str.NUL).
    + now exists (String c s).
    + exists rest. simpl. now rewrite <- IH.
Qed.

Lemma contains_c_str (needle s : string) :
  contains needle (Str.c_str s) -> contains needle s.
Proof.
  intros (pre & post & H). destruct (c_str_is_prefix s) as [rest Hs].
  exists pre, (post +:+ rest). rewrite Hs, H.
  now rewrite !app_assoc_s.
Qed.

Lemma version_of_token (d : ascii) :
  Str.isdigit d = true ->
  match Str.strstr (Str.c_str ("HTTP/1." +:+ String d EmptyString)) "HTTP/1." with
  | Some ver => Str.atoi (Str.drop 7 ver)
  | None => 0
  end = Z.of_N (N_of_ascii d) - 48.
Proof.
  destruct d as [[] [] [] [] [] [] [] []]; intros H;
    try discriminate H; vm_compute; reflexivity.
Qed.

Ltac request_line_failure :=
  repeat match goal with |- _ /\ _ => split end;
  intros; try reflexivity; exfalso;
  first
    [ lia
    | congruence
    | match goal with H : exists _, _ = _ |- _ =>
        destruct H as [? H]; first [discriminate H | injection H; intros; congruence]
      end
    | intuition congruence ].

(** The outcome of [ReadHTTPRequestLine] in terms of the tokens of the
    line: the three ways to fail, and on success the two tokens handed
    back, with the version for a third token ["HTTP/1.X"] of one digit and
    for a line without the marker. *)
Lemma ReadHTTPRequestLine_tokens (stream : istream) (proto0 : Z) (method0 uri0 : string)
  (vWords : list string) (ok : bool) (proto : Z) (http_method http_uri : string)
  (stream' : istream) :
  vWords = Str.split " " (getline stream).1 ->
  ReadHTTPRequestLine stream proto0 method0 uri0
  = (ok, proto, http_method, http_uri, stream') ->
  ((length vWords < 2)%nat -> ok = false) /\
  (nth 0 vWords EmptyString <> "GET" -> nth 0 vWords EmptyString <> "POST" ->
   ok = false) /\
  (nth 1 vWords EmptyString = EmptyString -> ok = false) /\
  ((forall rest, nth 1 vWords EmptyString <> String "/" rest) -> ok = false) /\
  ((2 <= length vWords)%nat ->
   nth 0 vWords EmptyString = "GET" \/ nth 0 vWords EmptyString = "POST" ->
   (exists rest, nth 1 vWords EmptyString = String "/" rest) ->
   ok = true /\ http_method = nth 0 vWords EmptyString
   /\ http_uri = nth 1 vWords EmptyString
   /\ (forall d, (2 < length vWords)%nat ->
                 nth 2 vWords EmptyString = "HTTP/1." +:+ String d EmptyString ->
                 Str.isdigit d = true -> proto = Z.of_N (N_of_ascii d) - 48)
   /\ (length vWords = 2%nat \/ ~ contains "HTTP/1." (nth 2 vWords EmptyString) ->
       proto = 0)).
Proof.
  intros -> H. unfold ReadHTTPRequestLine in H.
  destruct (getline stream) as [str st]. simpl in *.
  set (vWords := Str.split " " str) in *.
  destruct (Nat.ltb_spec (length vWords) 2) as [Hlt|Hge].
  { injection H as <- <- <- <- <-. request_line_failure. }
  destruct (String.eqb_spec (nth 0 vWords EmptyString) "GET") as [Hget|Hget];
    destruct (String.eqb_spec (nth 0 vWords EmptyString) "POST") as [Hpost|Hpost];
    simpl in H.
  4:{ injection H as <- <- <- <- <-. request_line_failure. }
  all: destruct (nth 1 vWords EmptyString) as [|c uri] eqn:Euri; simpl in H.
  1,3,5: injection H as <- <- <- <- <-; request_line_failure.
  all: change (Str.size (String c uri) =? 0) with false in H; simpl in H.
  all: destruct (Ascii.eqb_spec c "/") as [->|Hc]; simpl in H.
  2,4,6: injection H as <- <- <- <- <-; request_line_failure.
  all: injection H as <- <- <- <- <-.
  all: split; [intros; lia|].
  all: split; [intros; congruence|].
  all: split; [intros; discriminate|].
  all: split; [intros Hall; exfalso; apply (Hall uri); reflexivity|].
  all: intros _ _ _.
  all: split; [reflexivity|split; [reflexivity|split; [reflexivity|split]]].
  1,3,5: intros d Hlen Htok Hd;
    apply Nat.ltb_lt in Hlen; rewrite Hlen, Htok;
    apply (version_of_token d Hd).
  all: intros [Hlen|Hno];
    [ rewrite Hlen; reflexivity
    | destruct (2 <? length vWords)%nat; [|reflexivity];
      rewrite strstr_absent; [reflexivity|];
      intros Hc; apply Hno; now apply contains_c_str ].
Qed.

Example ReadHTTPRequestLine_no_version :
  ReadHTTPRequestLine (istream_of ("GET /rest/tx" +:+ nl +:+ "Host: x")) 7 "" ""
  = (true, 0, "GET", "/rest/tx", istream_of "Host: x").
Proof. vm_compute. reflexivity. Qed.

Example ReadHTTPRequestLine_rejects_PUT :
  (ReadHTTPRequestLine (istream_of ("PUT / HTTP/1.1" +:+ nl)) 7 "" "").1.1.1.1 = false.
Proof. vm_compute. reflexivity. Qed.

Example ReadHTTPRequestLine_rejects_absolute_uri :
  (ReadHTTPRequestLine (istream_of ("GET http://host/ HTTP/1.1" +:+ nl)) 7 "" "").1.1.1.1
  = false.
Proof. vm_compute. reflexivity. Qed.

(** ** The header collector *)

Lemma isspace_tolower (c : ascii) : Str.isspace (Str.tolower c) = Str.isspace c.
Proof. destruct c as [[] [] [] [] [] [] [] []]; reflexivity. Qed.

Lemma tolower_eqb_colon (c : ascii) :
  Ascii.eqb (Str.tolower c) ":" = Ascii.eqb c ":".
Proof. destruct c as [[] [] [] [] [] [] [] []]; reflexivity. Qed.

Lemma tolower_eqb_LF (c : ascii) :
  Ascii.eqb (Str.tolower c) Str.LF = Ascii.eqb c Str.LF.
Proof. destruct c as [[] [] [] [] [] [] [] []]; reflexivity. Qed.

Lemma isspace_not_colon (c : ascii) :
  Str.isspace c = true -> Ascii.eqb c ":" = false.
Proof. destruct c as [[] [] [] [] [] [] [] []]; intros H; try discriminate H; reflexivity. Qed.

Lemma mem_colon_to_lower (s : string) :
  Str.mem ":" (Str.to_lower s) = Str.mem ":" s.
Proof.
  induction s as [|c s IH]; simpl; [reflexivity|].
  now rewrite tolower_eqb_colon, IH.
Qed.

Lemma mem_LF_to_lower (s : string) :
  Str.mem Str.LF (Str.to_lower s) = Str.mem Str.LF s.
Proof.
  induction s as [|c s IH]; simpl; [reflexivity|].
  now rewrite tolower_eqb_LF, IH.
Qed.

Lemma mem_colon_padding (s : string) :
  all_chars Str.isspace s = true -> Str.mem ":" s = false.
Proof.
  induction s as [|c s IH]; simpl; [reflexivity|].
  intros H. apply andb_true_iff in H as [Hc Hs].
  now rewrite (isspace_not_colon c Hc), (IH Hs).
Qed.

Lemma empty_to_lower (s : string) : Str.empty (Str.to_lower s) = Str.empty s.
Proof. now destruct s. Qed.

Lemma trim_left_to_lower (s : string) :
  Str.trim_left (Str.to_lower s) = Str.to_lower (Str.trim_left s).
Proof.
  induction s as [|c s IH]; simpl; [reflexivity|].
  rewrite isspace_tolower. now destruct (Str.isspace c).
Qed.

Lemma trim_right_to_lower (s : string) :
  Str.trim_right (Str.to_lower s) = Str.to_lower (Str.trim_right s).
Proof.
  induction s as [|c s IH]; simpl; [reflexivity|].
  rewrite isspace_tolower, IH, empty_to_lower.
  now destruct (Str.isspace c && Str.empty (Str.trim_right s)).
Qed.

Lemma trim_to_lower (s : string) :
  Str.trim (Str.to_lower s) = Str.to_lower (Str.trim s).
Proof. unfold Str.trim. now rewrite trim_right_to_lower, trim_left_to_lower. Qed.

Lemma trim_left_padding (ws s : string) :
  all_chars Str.isspace ws = true -> Str.trim_left (ws +:+ s) = Str.trim_left s.
Proof.
  induction ws as [|c ws IH]; simpl; [reflexivity|].
  intros H. apply andb_true_iff in H as [Hc Hs]. now rewrite Hc, IH.
Qed.

Lemma trim_right_all_padding (ws : string) :
  all_chars Str.isspace ws = true -> Str.trim_right ws = EmptyString.
Proof.
  induction ws as [|c ws IH]; simpl; [reflexivity|].
  intros H. apply andb_true_iff in H as [Hc Hs]. now rewrite Hc, IH.
Qed.

Lemma trim_right_padding (s ws : string) :
  all_chars Str.isspace ws = true -> Str.trim_right (s +:+ ws) = Str.trim_right s.
Proof.
  intros H. induction s as [|c s IH]; simpl.
  - now apply trim_right_all_padding.
  - now rewrite IH.
Qed.

Lemma trim_left_trim_right_padding (ws s : string) :
  all_chars Str.isspace ws = true ->
  Str.trim_left (Str.trim_right (ws +:+ s)) = Str.trim_left (Str.trim_right s).
Proof.
  induction ws as [|c ws IH]; simpl; [reflexivity|].
  intros H. apply andb_true_iff in H as [Hc Hs]. rewrite Hc. simpl.
  destruct (Str.empty (Str.trim_right (ws +:+ s))) eqn:E.
  - rewrite <- (IH Hs). destruct (Str.trim_right (ws +:+ s)); [reflexivity|discriminate].
  - simpl. rewrite Hc. now apply IH.
Qed.

(** Blanks around a name are trimmed away. *)
Lemma trim_padding (ws1 s ws2 : string) :
  all_chars Str.isspace ws1 = true -> all_chars Str.isspace ws2 = true ->
  Str.trim (ws1 +:+ s +:+ ws2) = Str.trim s.
Proof.
  intros H1 H2. unfold Str.trim.
  now rewrite trim_left_trim_right_padding, trim_right_padding.
Qed.

Lemma find_app (c : ascii) (a b : string) :
  Str.mem c a = false -> Str.find c (a +:+ String c b) = Some (String.length a).
Proof.
  induction a as [|x a IH]; simpl.
  - now rewrite Ascii.eqb_refl.
  - intros H. apply orb_false_iff in H as [Hx Ha]. now rewrite Hx, (IH Ha).
Qed.

Lemma take_app (a b : string) : Str.take (String.length a) (a +:+ b) = a.
Proof. induction a as [|x a IH]; simpl; [now destruct b | now rewrite IH]. Qed.

Lemma drop_app (a b : string) : Str.drop (String.length a) (a +:+ b) = b.
Proof. induction a as [|x a IH]; simpl; [now destruct b | exact IH]. Qed.

Lemma drop_S_app (a b : string) (c : ascii) :
  Str.drop (S (String.length a)) (a +:+ String c b) = b.
Proof. induction a as [|x a IH]; simpl; [reflexivity | exact IH]. Qed.

(** What [header_line] does with a line [name: value]. *)
Lemma header_line_colon (name value : string) (m : gmap string string) (n : Z) :
  Str.mem ":" name = false ->
  header_line (name +:+ String ":" value) m n =
  (<[Str.to_lower (Str.trim name) := Str.trim value]> m,
   if String.eqb (Str.to_lower (Str.trim name)) "content-length"
   then Str.atoi (Str.c_str (Str.trim value)) else n).
Proof.
  intros H. unfold header_line, map_assign. rewrite (find_app _ _ _ H).
  rewrite take_app, drop_S_app.
  now destruct (String.eqb _ _).
Qed.

(** One turn of the header loop on a stream that starts with a complete
    line. *)
Lemma ReadHTTPHeaders_loop_line (st : istream) (l rest : string)
  (m : gmap string string) (n : Z) :
  good st = true -> Str.mem Str.LF l = false ->
  rdbuf st = l +:+ nl +:+ rest ->
  ReadHTTPHeaders_loop st m n =
  if Str.empty l
  then (n, m, mkIstream rest (eofbit st) (failbit st) (read_log st))
  else ReadHTTPHeaders_loop (mkIstream rest (eofbit st) (failbit st) (read_log st))
         (header_line l m n).1 (header_line l m n).2.
Proof.
  intros Hg Hl Hb. rewrite ReadHTTPHeaders_loop_step.
  rewrite (getline_line st l rest Hg Hl Hb). reflexivity.
Qed.

Lemma ReadHTTPHeaders_loop_line_of (l rest : string) (m : gmap string string) (n : Z) :
  Str.mem Str.LF l = false ->
  ReadHTTPHeaders_loop (istream_of (l +:+ nl +:+ rest)) m n =
  if Str.empty l then (n, m, istream_of rest)
  else ReadHTTPHeaders_loop (istream_of rest)
         (header_line l m n).1 (header_line l m n).2.
Proof.
  intros Hl.
  now rewrite (ReadHTTPHeaders_loop_line (istream_of (l +:+ nl +:+ rest)) l rest).
Qed.

(** A property of the declared length and the map that every line
    preserves holds when the loop ends. *)
Lemma ReadHTTPHeaders_loop_invariant (P : gmap string string -> Z -> Prop) :
  (forall str m n, P m n -> P (header_line str m n).1 (header_line str m n).2) ->
  forall st m n, P m n ->
  P (ReadHTTPHeaders_loop st m n).1.2 (ReadHTTPHeaders_loop st m n).1.1.
Proof.
  intros Hstep st.
  remember (String.length (rdbuf st)) as k eqn:Hk.
  revert st Hk. induction k as [k IH] using lt_wf_ind.
  intros st Hk m n HP. rewrite ReadHTTPHeaders_loop_step.
  destruct (getline st) as [str st'] eqn:Hget. simpl.
  destruct (Str.empty str) eqn:He; [exact HP|].
  apply (IH (String.length (rdbuf st'))); auto.
  subst k. eapply getline_shrinks; eauto.
Qed.

Lemma int_of_long_range (v : Z) : - 2 ^ 31 <= Str.int_of_long v < 2 ^ 31.
Proof.
  unfold Str.int_of_long.
  pose proof (Z.mod_pos_bound (v + 2 ^ 31) (2 ^ 32) ltac:(lia)). lia.
Qed.

Lemma atoi_range (s : string) : - 2 ^ 31 <= Str.atoi s < 2 ^ 31.
Proof. apply int_of_long_range. Qed.

Lemma atoi_unparsable (s : string) : Str.scan_int s = None -> Str.atoi s = 0.
Proof. unfold Str.atoi, Str.strtol. now intros ->. Qed.

(** The declared length is an [int]. *)
Lemma ReadHTTPHeaders_range (st : istream) (m : gmap string string) :
  - 2 ^ 31 <= (ReadHTTPHeaders st m).1.1 < 2 ^ 31.
Proof.
  unfold ReadHTTPHeaders.
  apply (ReadHTTPHeaders_loop_invariant (fun _ n => - 2 ^ 31 <= n < 2 ^ 31)); [|lia].
  intros str m' n Hn. unfold header_line.
  destruct (Str.find ":" str); [|exact Hn].
  destruct (String.eqb _ _); [apply atoi_range | exact Hn].
Qed.

(** The declared length is 0, or the conversion of the value the map holds
    under [content-length]. *)
Lemma ReadHTTPHeaders_declared (st : istream) (m : gmap string string) :
  (ReadHTTPHeaders st m).1.1 = 0 \/
  exists v, (ReadHTTPHeaders st m).1.2 !! "content-length" = Some v
            /\ (ReadHTTPHeaders st m).1.1 = Str.atoi (Str.c_str v).
Proof.
  unfold ReadHTTPHeaders.
  apply (ReadHTTPHeaders_loop_invariant
           (fun (m : gmap string string) n =>
              n = 0 \/ exists v, m !! "content-length" = Some v
                                 /\ n = Str.atoi (Str.c_str v))); [|now left].
  intros str m' n Hn. unfold header_line, map_assign.
  destruct (Str.find ":" str) as [i|]; [|exact Hn].
  destruct (String.eqb_spec (Str.to_lower (Str.trim (Str.take i str))) "content-length")
    as [->|Hne]; simpl.
  - right. eexists. split; [apply lookup_insert_eq | reflexivity].
  - destruct Hn as [->|(v & Hv & ->)]; [now left|].
    right. exists v. split; [|reflexivity].
    now rewrite lookup_insert_ne.
Qed.

Lemma header_line_variant (ws1 n1 ws2 ws3 n2 ws4 v : string)
  (m : gmap string string) (n : Z) :
  padding ws1 -> padding ws2 -> padding ws3 -> padding ws4 ->
  Str.to_lower n1 = Str.to_lower n2 -> Str.mem ":" n1 = false ->
  header_line ((ws1 +:+ n1 +:+ ws2) +:+ String ":" v) m n =
  header_line ((ws3 +:+ n2 +:+ ws4) +:+ String ":" v) m n.
Proof.
  intros [H1 _] [H2 _] [H3 _] [H4 _] Hn Hc.
  assert (Hc2 : Str.mem ":" n2 = false)
    by (now rewrite <- mem_colon_to_lower, <- Hn, mem_colon_to_lower).
  rewrite !header_line_colon
    by (rewrite !mem_app, ?Hc, ?Hc2, ?mem_colon_padding by assumption; reflexivity).
  rewrite !trim_padding by assumption.
  now rewrite <- !trim_to_lower, Hn.
Qed.

Lemma app_nil_l_s (a : string) : EmptyString +:+ a = a.
Proof. reflexivity. Qed.

Lemma lines_text_cons_app (l : string) (ls : list string) (x : string) :
  lines_text (l :: ls) +:+ x = l +:+ nl +:+ (lines_text ls +:+ x).
Proof. cbn [lines_text]. now rewrite !app_assoc_s. Qed.

Lemma ReadHTTPHeaders_loop_variant
  (pre : list string) (ws1 n1 ws2 ws3 n2 ws4 v post : string)
  (m0 : gmap string string) (n : Z) :
  Forall (fun l => Str.mem Str.LF l = false) pre ->
  padding ws1 -> padding ws2 -> padding ws3 -> padding ws4 ->
  Str.to_lower n1 = Str.to_lower n2 ->
  Str.mem ":" n1 = false -> Str.mem Str.LF n1 = false ->
  Str.mem Str.LF v = false ->
  (ReadHTTPHeaders_loop
     (istream_of (lines_text pre +:+ ((ws1 +:+ n1 +:+ ws2) +:+ String ":" v)
                  +:+ nl +:+ post)) m0 n).1
  = (ReadHTTPHeaders_loop
       (istream_of (lines_text pre +:+ ((ws3 +:+ n2 +:+ ws4) +:+ String ":" v)
                    +:+ nl +:+ post)) m0 n).1.
Proof.
  intros Hpre P1 P2 P3 P4 Hn Hc Hl Hv.
  assert (Hl2 : Str.mem Str.LF n2 = false)
    by (now rewrite <- mem_LF_to_lower, <- Hn, mem_LF_to_lower).
  revert m0 n.
  induction Hpre as [|l pre Hl0 Hpre IH]; intros m0 n.
  - cbn [lines_text]. rewrite !app_nil_l_s, !ReadHTTPHeaders_loop_line_of.
    2,3: destruct P1 as [_ Q1], P2 as [_ Q2], P3 as [_ Q3], P4 as [_ Q4];
      rewrite !mem_app; simpl;
      rewrite ?Hl, ?Hl2, ?Hv, ?Q1, ?Q2, ?Q3, ?Q4; reflexivity.
    rewrite (header_line_variant ws1 n1 ws2 ws3 n2 ws4 v) by assumption.
    assert (He : forall a, Str.empty (a +:+ String ":" v) = false)
      by (intros a; now destruct a).
    now rewrite !He.
  - rewrite !lines_text_cons_app, !ReadHTTPHeaders_loop_line_of by assumption.
    destruct (Str.empty l); [reflexivity|]. apply IH.
Qed.

Example ReadHTTPHeaders_padded_name :
  (ReadHTTPHeaders (istream_of ("  CONTENT-length : 10" +:+ nl +:+ nl +:+ "0123456789"))
     ∅).1.1 = 10.
Proof. vm_compute. reflexivity. Qed.

Example ReadHTTPHeaders_last_write_wins :
  (ReadHTTPHeaders
     (istream_of ("Content-Length: 10" +:+ nl +:+ "content-length: 4" +:+ nl +:+ nl))
     ∅).1.1 = 4.
Proof. vm_compute. reflexivity. Qed.

Example ReadHTTPHeaders_numeric_prefix :
  (ReadHTTPHeaders (istream_of ("Content-Length: 12abc" +:+ nl +:+ nl)) ∅).1.1 = 12.
Proof. vm_compute. reflexivity. Qed.

(** ** The body reader *)

Lemma length_take (n : nat) (s : string) :
  String.length (Str.take n s) = Nat.min n (String.length s).
Proof.
  revert s. induction n as [|n IH]; intros [|c s]; simpl; auto.
Qed.

Lemma length_drop (n : nat) (s : string) :
  String.length (Str.drop n s) = (String.length s - n)%nat.
Proof.
  revert s. induction n as [|n IH]; intros [|c s]; simpl; auto.
Qed.

Lemma drop_drop (a b : nat) (s : string) :
  Str.drop b (Str.drop a s) = Str.drop (a + b) s.
Proof.
  revert s. induction a as [|a IH]; intros s; simpl.
  - now destruct s.
  - destruct s as [|c s]; simpl; [now destruct b | apply IH].
Qed.

Lemma take_add (a b : nat) (s : string) :
  Str.take (a + b) s = Str.take a s +:+ Str.take b (Str.drop a s).
Proof.
  revert s. induction a as [|a IH]; intros s; simpl.
  - now destruct s.
  - destruct s as [|c s]; simpl; [now destruct b | now rewrite IH].
Qed.

Lemma take_0 (s : string) : Str.take 0 s = EmptyString.
Proof. now destruct s. Qed.

Lemma drop_0 (s : string) : Str.drop 0 s = s.
Proof. now destruct s. Qed.

Lemma length_resize (n : nat) (v : string) : String.length (resize n v) = n.
Proof.
  revert v. induction n as [|n IH]; intros v; simpl; [reflexivity|].
  destruct v; simpl; now rewrite IH.
Qed.

Lemma drop_all (s : string) : Str.drop (String.length s) s = EmptyString.
Proof. induction s as [|c s IH]; simpl; auto. Qed.

(** Growing a vector by the size of a chunk and storing the chunk at its
    old end appends the chunk. *)
Lemma store_resize (v chunk : string) :
  store (resize (String.length v + String.length chunk) v) (String.length v) chunk
  = v +:+ chunk.
Proof.
  unfold store. induction v as [|c v IH]; simpl.
  - rewrite <- (length_resize (String.length chunk) EmptyString) at 1.
    now rewrite drop_all, app_nil_r_s.
  - now rewrite IH.
Qed.

Lemma read_enough (st : istream) (n : Z) :
  good st = true -> 0 <= n <= Str.size (rdbuf st) ->
  read st n =
  (Str.take (Z.to_nat n) (rdbuf st),
   mkIstream (Str.drop (Z.to_nat n) (rdbuf st)) (eofbit st) (failbit st)
     (n :: read_log st)).
Proof.
  intros Hg Hn. unfold read, Str.size in *. rewrite Hg.
  destruct (Z.ltb_spec (Z.of_nat (String.length (rdbuf st))) n); [lia|reflexivity].
Qed.

Lemma read_short (st : istream) (n : Z) :
  Str.size (rdbuf st) < n -> operator_not (read st n).2 = true.
Proof.
  intros Hn. unfold read, Str.size in *. destruct (good st); [|reflexivity].
  destruct (Z.ltb_spec (Z.of_nat (String.length (rdbuf st))) n); [reflexivity|lia].
Qed.

Lemma good_failbit (st : istream) : good st = true -> failbit st = false.
Proof. unfold good. destruct (eofbit st), (failbit st); simpl; congruence. Qed.

Lemma foldr_add_from (a : Z) (l : list Z) :
  foldr Z.add a l = foldr Z.add 0 l + a.
Proof. induction l as [|x l IH]; simpl; lia. Qed.

(** With enough bytes in a good stream the loop collects exactly the bytes
    it still needs, by reads of at most [POST_READ_SIZE] bytes. *)
Lemma read_loop_complete (k : nat) :
  forall (st : istream) (vch : string) (ptr nLen : Z),
    k = Z.to_nat (nLen - ptr) ->
    good st = true -> 0 <= ptr <= nLen -> nLen < 2 ^ 64 ->
    String.length vch = Z.to_nat ptr ->
    nLen - ptr <= Str.size (rdbuf st) ->
    exists log,
      read_loop st vch ptr nLen =
      (Some (vch +:+ Str.take (Z.to_nat (nLen - ptr)) (rdbuf st)),
       mkIstream (Str.drop (Z.to_nat (nLen - ptr)) (rdbuf st)) (eofbit st) (failbit st)
         (log ++ read_log st))
      /\ Forall (fun n => 0 < n <= POST_READ_SIZE) log
      /\ foldr Z.add 0 log = nLen - ptr.
Proof.
  induction k as [k IH] using lt_wf_ind.
  intros st vch ptr nLen Hk Hg Hptr Hmax Hvch Hbuf.
  rewrite read_loop_step. unfold size_t_of_int.
  rewrite (Z.mod_small nLen) by lia.
  destruct (Z.ltb_spec ptr nLen) as [Hlt|Hge].
  - set (btr := Z.min (nLen - ptr) POST_READ_SIZE).
    assert (Hbtr : 0 < btr <= POST_READ_SIZE /\ btr <= nLen - ptr)
      by (unfold btr, POST_READ_SIZE; lia).
    cbv zeta. rewrite (read_enough st btr Hg) by lia. cbn [fst snd].
    unfold operator_not. cbn [failbit]. rewrite (good_failbit st Hg).
    replace (Z.to_nat (ptr + btr))
      with (String.length vch + String.length (Str.take (Z.to_nat btr) (rdbuf st)))%nat
      by (rewrite length_take; unfold Str.size in Hbuf; lia).
    rewrite <- Hvch, store_resize.
    destruct (IH (Z.to_nat (nLen - (ptr + btr))) ltac:(lia)
                (mkIstream (Str.drop (Z.to_nat btr) (rdbuf st)) (eofbit st) (failbit st)
                   (btr :: read_log st))
                (vch +:+ Str.take (Z.to_nat btr) (rdbuf st)) (ptr + btr) nLen
                eq_refl)
      as (log & Heq & Hall & Hsum).
    + exact Hg.
    + lia.
    + exact Hmax.
    + rewrite length_app_s, length_take. unfold Str.size in Hbuf. lia.
    + cbn [rdbuf]. unfold Str.size in *. rewrite length_drop. lia.
    + exists (log ++ [btr]). cbn [rdbuf eofbit failbit read_log] in Heq.
      rewrite (good_failbit st Hg) in Heq. rewrite Heq. split; [|split].
      * f_equal.
        -- f_equal. rewrite app_assoc_s. f_equal.
           replace (Z.to_nat (nLen - ptr))
             with (Z.to_nat btr + Z.to_nat (nLen - (ptr + btr)))%nat by lia.
           now rewrite take_add.
        -- f_equal.
           ++ rewrite drop_drop. f_equal. lia.
           ++ now rewrite <- app_assoc.
      * apply Forall_app. split; [exact Hall|]. constructor; [exact (proj1 Hbtr)|constructor].
      * rewrite foldr_app, foldr_add_from, Hsum. simpl. lia.
  - assert (ptr = nLen) by lia. subst ptr.
    exists []. rewrite Z.sub_diag.
    change (Z.to_nat 0) with 0%nat. rewrite take_0, drop_0, app_nil_r_s.
    split; [|split]; [|constructor|reflexivity].
    now destruct st.
Qed.

(** With too few bytes the loop takes the early return. *)
Lemma read_loop_short (k : nat) :
  forall (st : istream) (vch : string) (ptr nLen : Z),
    k = Z.to_nat (nLen - ptr) ->
    0 <= ptr -> nLen < 2 ^ 64 ->
    Str.size (rdbuf st) < nLen - ptr ->
    (read_loop st vch ptr nLen).1 = None.
Proof.
  induction k as [k IH] using lt_wf_ind.
  intros st vch ptr nLen Hk Hptr Hmax Hbuf.
  assert (Hsz : 0 <= Str.size (rdbuf st)) by (unfold Str.size; lia).
  rewrite read_loop_step. unfold size_t_of_int.
  rewrite (Z.mod_small nLen) by lia.
  destruct (Z.ltb_spec ptr nLen) as [Hlt|Hge]; [|lia].
  set (btr := Z.min (nLen - ptr) POST_READ_SIZE).
  assert (Hbtr : 0 < btr <= POST_READ_SIZE /\ btr <= nLen - ptr)
    by (unfold btr, POST_READ_SIZE; lia).
  cbv zeta.
  destruct (operator_not (read st btr).2) eqn:Hfail; [reflexivity|].
  destruct (Z.lt_ge_cases (Str.size (rdbuf st)) btr) as [Hs|Hs].
  { rewrite (read_short st btr Hs) in Hfail. discriminate. }
  destruct (good st) eqn:Hg.
  2:{ unfold read in Hfail. rewrite Hg in Hfail. discriminate. }
  rewrite (read_enough st btr Hg) by lia. cbn [fst snd].
  apply (IH (Z.to_nat (nLen - (ptr + btr)))); try lia.
  cbn [rdbuf]. unfold Str.size in *. rewrite length_drop. lia.
Qed.

(** A stream that is not good yields an empty line and keeps its bytes. *)
Lemma ReadHTTPHeaders_loop_not_good (st : istream) (m : gmap string string) (n : Z) :
  good st = false ->
  ReadHTTPHeaders_loop st m n =
  (n, m, mkIstream (rdbuf st) (eofbit st) true (read_log st)).
Proof.
  intros Hg. rewrite ReadHTTPHeaders_loop_step. unfold getline. now rewrite Hg.
Qed.

(** After the headers the stream is good, or has no byte left, or was not
    good to begin with, and then no line was seen. *)
Lemma ReadHTTPHeaders_loop_stream (k : nat) :
  forall (st : istream) (m : gmap string string) (n : Z),
    k = String.length (rdbuf st) ->
    good (ReadHTTPHeaders_loop st m n).2 = true
    \/ rdbuf (ReadHTTPHeaders_loop st m n).2 = EmptyString
    \/ (ReadHTTPHeaders_loop st m n).1.1 = n /\ good st = false.
Proof.
  induction k as [k IH] using lt_wf_ind. intros st m n Hk.
  destruct (good st) eqn:Hg.
  2:{ right. right. rewrite ReadHTTPHeaders_loop_not_good by assumption. now split. }
  rewrite ReadHTTPHeaders_loop_step.
  destruct (getline st) as [str st'] eqn:Hget. cbn [fst snd].
  assert (Hst' : good st' = true \/ rdbuf st' = EmptyString).
  { unfold getline in Hget. rewrite Hg in Hget.
    destruct (break_line (rdbuf st)) as [[l r]|].
    - injection Hget as <- <-. left. exact Hg.
    - injection Hget as <- <-. now right. }
  destruct (Str.empty str) eqn:He.
  - destruct Hst' as [H|H]; [now left | right; now left].
  - destruct (IH (String.length (rdbuf st'))
                ltac:(subst k; eapply getline_shrinks; eauto)
                st' (header_line str m n).1 (header_line str m n).2 eq_refl)
      as [H|[H|[_ H]]]; [now left | right; now left |].
    right. left. rewrite ReadHTTPHeaders_loop_not_good by assumption.
    destruct Hst' as [Hst'|Hst']; [congruence | exact Hst'].
Qed.

Lemma ReadHTTPHeaders_stream_good (stream : istream) (m : gmap string string) :
  0 < (ReadHTTPHeaders stream m).1.1 <= Str.size (rdbuf (ReadHTTPHeaders stream m).2) ->
  good (ReadHTTPHeaders stream m).2 = true.
Proof.
  unfold ReadHTTPHeaders. intros H.
  destruct (ReadHTTPHeaders_loop_stream _ stream m 0 eq_refl) as [Hg|[He|[Hn _]]].
  - exact Hg.
  - rewrite He in H. unfold Str.size in H. simpl in H. lia.
  - lia.
Qed.

(** With a declared length that passes the checks and enough bytes in
    the stream, the message is the bytes that follow the headers. *)
Lemma ReadHTTPMessage_complete (stream : istream) (m0 : gmap string string)
  (msg0 : string) (nProto max_size nLen : Z) (hdrs : gmap string string)
  (st : istream) :
  ReadHTTPHeaders stream ∅ = (nLen, hdrs, st) ->
  0 <= nLen <= max_size ->
  nLen <= Str.size (rdbuf st) ->
  exists (st' : istream) (log : list Z),
    ReadHTTPMessage stream m0 msg0 nProto max_size =
    (HTTP_OK, normalize_connection hdrs nProto,
     Str.take (Z.to_nat nLen) (rdbuf st), st')
    /\ Str.size (Str.take (Z.to_nat nLen) (rdbuf st)) = nLen
    /\ rdbuf st' = Str.drop (Z.to_nat nLen) (rdbuf st)
    /\ read_log st' = log ++ read_log st
    /\ Forall (fun n => 0 < n <= POST_READ_SIZE) log
    /\ foldr Z.add 0 log = nLen.
Proof.
  intros Hhdr Hlen Hbuf.
  pose proof (ReadHTTPHeaders_range stream ∅) as Hrange.
  pose proof (ReadHTTPHeaders_stream_good stream ∅) as Hgood.
  unfold ReadHTTPMessage. rewrite Hhdr in *. cbn [fst snd] in *.
  assert (Hsz : Str.size (Str.take (Z.to_nat nLen) (rdbuf st)) = nLen)
    by (unfold Str.size in *; rewrite length_take; lia).
  unfold size_t_of_int. rewrite (Z.mod_small nLen) by lia.
  destruct (Z.ltb_spec nLen 0); [lia|].
  destruct (Z.ltb_spec max_size nLen); [lia|]. cbn [orb].
  destruct (Z.ltb_spec 0 nLen) as [Hpos|Hzero].
  - destruct (read_loop_complete _ st EmptyString 0 nLen eq_refl)
      as (log & Heq & Hall & Hsum); try lia.
    { apply Hgood. lia. }
    { reflexivity. }
    rewrite Z.sub_0_r in *. rewrite Heq. cbn [String.append].
    unfold normalize_connection.
    destruct (map_index hdrs "connection") as [v m'].
    eexists _, log. split; [reflexivity|]. cbn [rdbuf read_log]. auto.
  - assert (nLen = 0) by lia. subst nLen.
    change (Z.to_nat 0) with 0%nat. rewrite take_0, drop_0.
    unfold normalize_connection.
    destruct (map_index hdrs "connection") as [v m'].
    exists st, []. repeat split; auto.
Qed.

(** C4. When the declared length [nLen] is between 0 and [max_size] and
    the stream holds at least [nLen] bytes after the headers,
    [ReadHTTPMessage] returns [HTTP_OK] and a body of exactly [nLen]
    bytes, namely the first [nLen] bytes the stream held; they are
    consumed by reads of at most [POST_READ_SIZE] bytes each. *)
Theorem ReadHTTPMessage_body (stream : istream) (m0 : gmap string string)
  (msg0 : string) (nProto max_size nLen : Z) (hdrs : gmap string string)
  (st : istream) :
  ReadHTTPHeaders stream ∅ = (nLen, hdrs, st) ->
  0 <= nLen <= max_size ->
  nLen <= Str.size (rdbuf st) ->
  exists (st' : istream) (log : list Z),
    ReadHTTPMessage stream m0 msg0 nProto max_size =
    (HTTP_OK, normalize_connection hdrs nProto,
     Str.take (Z.to_nat nLen) (rdbuf st), st')
    /\ Str.size (Str.take (Z.to_nat nLen) (rdbuf st)) = nLen
    /\ rdbuf st' = Str.drop (Z.to_nat nLen) (rdbuf st)
    /\ read_log st' = log ++ read_log st
    /\ Forall (fun n => 0 < n <= POST_READ_SIZE) log
    /\ foldr Z.add 0 log = nLen.
Proof. apply ReadHTTPMessage_complete. Qed.

(** C5. When the declared length is negative, or exceeds [max_size], or
    exceeds the number of bytes the stream still holds, [ReadHTTPMessage]
    returns [HTTP_INTERNAL_SERVER_ERROR] and leaves the message empty; and
    these are its only failures: any status other than [HTTP_OK] is
    [HTTP_INTERNAL_SERVER_ERROR], with an empty message. *)
Theorem ReadHTTPMessage_failure (stream : istream) (m0 : gmap string string)
  (msg0 : string) (nProto max_size nLen : Z) (hdrs : gmap string string)
  (st : istream) (status : Z) (hdrs' : gmap string string) (msg : string)
  (st' : istream) :
  ReadHTTPHeaders stream ∅ = (nLen, hdrs, st) ->
  ReadHTTPMessage stream m0 msg0 nProto max_size = (status, hdrs', msg, st') ->
  (nLen < 0 \/ max_size < nLen \/ Str.size (rdbuf st) < nLen ->
   status = HTTP_INTERNAL_SERVER_ERROR /\ msg = EmptyString) /\
  (status <> HTTP_OK ->
   status = HTTP_INTERNAL_SERVER_ERROR /\ msg = EmptyString
   /\ (nLen < 0 \/ max_size < nLen \/ Str.size (rdbuf st) < nLen)).
Proof.
  intros Hhdr Hmsg.
  pose proof (ReadHTTPHeaders_range stream ∅) as Hrange.
  assert (Hsz : 0 <= Str.size (rdbuf st)) by (unfold Str.size; lia).
  destruct (Z.lt_ge_cases nLen 0) as [Hneg|Hnn].
  { unfold ReadHTTPMessage in Hmsg. rewrite Hhdr in *. cbn [fst snd] in *.
    destruct (Z.ltb_spec nLen 0); [|lia]. cbn [orb] in Hmsg.
    injection Hmsg as <- <- <- <-. split; intros; auto. }
  destruct (Z.lt_ge_cases max_size nLen) as [Hbig|Hfit].
  { unfold ReadHTTPMessage in Hmsg. rewrite Hhdr in *. cbn [fst snd] in *.
    unfold size_t_of_int in Hmsg. rewrite (Z.mod_small nLen) in Hmsg by lia.
    destruct (Z.ltb_spec max_size nLen); [|lia].
    rewrite orb_true_r in Hmsg.
    injection Hmsg as <- <- <- <-. split; intros; auto. }
  destruct (Z.lt_ge_cases (Str.size (rdbuf st)) nLen) as [Hshort|Henough].
  - unfold ReadHTTPMessage in Hmsg. rewrite Hhdr in *. cbn [fst snd] in *.
    unfold size_t_of_int in Hmsg. rewrite (Z.mod_small nLen) in Hmsg by lia.
    destruct (Z.ltb_spec nLen 0); [lia|].
    destruct (Z.ltb_spec max_size nLen); [lia|]. cbn [orb] in Hmsg.
    destruct (Z.ltb_spec 0 nLen); [|lia].
    pose proof (read_loop_short _ st EmptyString 0 nLen eq_refl
                  ltac:(lia) ltac:(lia) ltac:(lia)) as Hnone.
    destruct (read_loop st EmptyString 0 nLen) as [[body|] st2];
      [discriminate Hnone|].
    injection Hmsg as <- <- <- <-. split; intros; auto.
  - destruct (ReadHTTPMessage_complete stream m0 msg0 nProto max_size nLen hdrs st
                Hhdr ltac:(lia) ltac:(lia)) as (st2 & log & Heq & _).
    rewrite Heq in Hmsg. injection Hmsg as <- <- <- <-.
    split; [intros; lia | intros; congruence].
Qed.

Lemma ReadHTTPMessage_body_witness :
  exists (st' : istream) (log : list Z),
    ReadHTTPMessage (istream_of ("Content-Length: 5" +:+ nl +:+ nl +:+ "hello world"))
      ∅ "" 0 100 =
    (HTTP_OK,
     normalize_connection
       (ReadHTTPHeaders
          (istream_of ("Content-Length: 5" +:+ nl +:+ nl +:+ "hello world")) ∅).1.2 0,
     "hello", st')
    /\ Str.size "hello" = 5
    /\ rdbuf st' = " world"
    /\ read_log st' = log ++ []
    /\ Forall (fun n => 0 < n <= POST_READ_SIZE) log
    /\ foldr Z.add 0 log = 5.
Proof.
  apply (ReadHTTPMessage_body
           (istream_of ("Content-Length: 5" +:+ nl +:+ nl +:+ "hello world")) ∅ "" 0 100 5
           (ReadHTTPHeaders
              (istream_of ("Content-Length: 5" +:+ nl +:+ nl +:+ "hello world")) ∅).1.2
           (istream_of "hello world")).
  - vm_compute. reflexivity.
  - lia.
  - vm_compute. discriminate.
Defined.

Lemma ReadHTTPMessage_failure_witness :
  (ReadHTTPMessage (istream_of ("Content-Length: 5" +:+ nl +:+ nl +:+ "hi")) ∅ "" 0 100).1.1.1
  = HTTP_INTERNAL_SERVER_ERROR
  /\ (ReadHTTPMessage (istream_of ("Content-Length: 5" +:+ nl +:+ nl +:+ "hi")) ∅ "" 0 100).1.2
     = EmptyString.
Proof.
  apply (proj1 (ReadHTTPMessage_failure
           (istream_of ("Content-Length: 5" +:+ nl +:+ nl +:+ "hi")) ∅ "" 0 100 5
           (ReadHTTPHeaders
              (istream_of ("Content-Length: 5" +:+ nl +:+ nl +:+ "hi")) ∅).1.2
           (istream_of "hi") _ _ _ _ eq_refl eq_refl)).
  right. right. vm_compute. reflexivity.
Defined.

Example ReadHTTPMessage_oversize :
  (ReadHTTPMessage (istream_of ("Content-Length: 11" +:+ nl +:+ nl +:+ "hello world"))
     ∅ "" 0 10).1.1.1 = HTTP_INTERNAL_SERVER_ERROR.
Proof. vm_compute. reflexivity. Qed.

Example ReadHTTPMessage_negative_length :
  (ReadHTTPMessage (istream_of ("Content-Length: -1" +:+ nl +:+ nl +:+ "hello world"))
     ∅ "" 0 10).1.1.1 = HTTP_INTERNAL_SERVER_ERROR.
Proof. vm_compute. reflexivity. Qed.

(** ** Decimal text *)

Lemma digit_char (d : Z) :
  0 <= d < 10 ->
  Str.isdigit (ascii_of_N (Z.to_N (48 + d))) = true
  /\ Z.of_N (N_of_ascii (ascii_of_N (Z.to_N (48 + d)))) - 48 = d.
Proof.
  intros H.
  assert (Hd : d = 0 \/ d = 1 \/ d = 2 \/ d = 3 \/ d = 4 \/ d = 5 \/ d = 6
               \/ d = 7 \/ d = 8 \/ d = 9) by lia.
  repeat destruct Hd as [->|Hd]; try subst d; split; reflexivity.
Qed.

Lemma isdigit_facts (c : ascii) :
  Str.isdigit c = true ->
  Str.isspace c = false /\ Ascii.eqb c Str.NUL = false
  /\ Ascii.eqb c "-" = false /\ Ascii.eqb c "+" = false.
Proof.
  destruct c as [[] [] [] [] [] [] [] []]; intros H; try discriminate H;
    repeat split; reflexivity.
Qed.

Lemma decimal_digits_all (fuel : nat) (n : Z) (acc : string) :
  0 <= n -> all_chars Str.isdigit acc = true ->
  all_chars Str.isdigit (Str.decimal_digits fuel n acc) = true.
Proof.
  revert n acc. induction fuel as [|fuel IH]; intros n acc Hn Hacc; simpl; [exact Hacc|].
  assert (Hd : all_chars Str.isdigit
                 (String (ascii_of_N (Z.to_N (48 + n mod 10))) acc) = true).
  { simpl. rewrite Hacc.
    destruct (digit_char (n mod 10) ltac:(apply Z.mod_pos_bound; lia)) as [-> _].
    reflexivity. }
  destruct (n <? 10); [exact Hd|].
  apply IH; [apply Z.div_pos; lia | exact Hd].
Qed.

Lemma decimal_digits_nonempty (fuel : nat) (n : Z) (acc : string) :
  Str.empty (Str.decimal_digits (S fuel) n acc) = false.
Proof.
  revert n acc. induction fuel as [|fuel IH]; intros n acc.
  - simpl. now destruct (n <? 10).
  - change (Str.decimal_digits (S (S fuel)) n acc)
      with (let acc' := String (ascii_of_N (Z.to_N (48 + n mod 10))) acc in
            if n <? 10 then acc' else Str.decimal_digits (S fuel) (n / 10) acc').
    cbv zeta. destruct (n <? 10); [reflexivity | apply IH].
Qed.

(** Reading back the digits that were written. *)
Lemma digits_decimal_digits (fuel : nat) :
  forall (n a : Z) (acc : string),
    0 <= n < 10 ^ Z.of_nat fuel ->
    exists k, 0 <= k /\
      Str.digits a (Str.decimal_digits fuel n acc) = Str.digits (a * 10 ^ k + n) acc.
Proof.
  induction fuel as [|fuel IH]; intros n a acc Hn.
  - exists 0. split; [lia|]. simpl in *. f_equal. lia.
  - simpl Str.decimal_digits.
    destruct (digit_char (n mod 10) ltac:(apply Z.mod_pos_bound; lia)) as [Hd Hv].
    destruct (Z.ltb_spec n 10) as [Hlt|Hge].
    + exists 1. split; [lia|]. simpl Str.digits. rewrite Hd, Hv.
      rewrite Z.mod_small by lia. f_equal.
    + assert (Hq : 0 <= n / 10 < 10 ^ Z.of_nat fuel).
      { split; [apply Z.div_pos; lia|].
        apply Z.div_lt_upper_bound; [lia|].
        replace (Z.of_nat (S fuel)) with (Z.of_nat fuel + 1) in Hn by lia.
        rewrite Z.pow_add_r in Hn by lia. lia. }
      destruct (IH (n / 10) a (String (ascii_of_N (Z.to_N (48 + n mod 10))) acc) Hq)
        as (k & Hk & Heq).
      exists (k + 1). split; [lia|]. rewrite Heq. simpl Str.digits. rewrite Hd, Hv.
      f_equal. rewrite Z.pow_add_r by lia.
      pose proof (Z.div_mod n 10 ltac:(lia)). lia.
Qed.

Lemma decimal_fuel (n : Z) : 0 <= n -> n < 10 ^ Z.of_nat (S (Z.to_nat (Z.log2 n))).
Proof.
  intros Hn. destruct (Z.eq_dec n 0) as [->|Hz]; [reflexivity|].
  pose proof (Z.log2_nonneg n).
  replace (Z.of_nat (S (Z.to_nat (Z.log2 n)))) with (Z.succ (Z.log2 n)) by lia.
  pose proof (Z.log2_spec n ltac:(lia)) as [_ Hup].
  eapply Z.lt_le_trans; [exact Hup|].
  apply Z.pow_le_mono_l. lia.
Qed.

Lemma digits_decimal (n : Z) : 0 <= n -> Str.digits 0 (Str.decimal n) = n.
Proof.
  intros Hn. unfold Str.decimal.
  destruct (digits_decimal_digits _ n 0 EmptyString (conj Hn (decimal_fuel n Hn)))
    as (k & _ & ->).
  simpl. lia.
Qed.

Lemma all_digits_no_LF (s : string) :
  all_chars Str.isdigit s = true -> Str.mem Str.LF s = false.
Proof.
  induction s as [|c s IH]; simpl; [reflexivity|].
  intros H. apply andb_true_iff in H as [Hc Hs]. rewrite (IH Hs).
  destruct c as [[] [] [] [] [] [] [] []]; try discriminate Hc; reflexivity.
Qed.

Lemma all_digits_c_str (s : string) :
  all_chars Str.isdigit s = true -> Str.c_str s = s.
Proof.
  induction s as [|c s IH]; simpl; [reflexivity|].
  intros H. apply andb_true_iff in H as [Hc Hs].
  destruct (isdigit_facts c Hc) as (_ & -> & _). now rewrite (IH Hs).
Qed.

Lemma all_digits_trim_right (s : string) :
  all_chars Str.isdigit s = true -> Str.trim_right s = s.
Proof.
  induction s as [|c s IH]; simpl; [reflexivity|].
  intros H. apply andb_true_iff in H as [Hc Hs].
  destruct (isdigit_facts c Hc) as (-> & _). now rewrite (IH Hs).
Qed.

Lemma all_digits_trim (s : string) :
  all_chars Str.isdigit s = true -> Str.trim s = s.
Proof.
  intros H. unfold Str.trim. rewrite (all_digits_trim_right s H).
  destruct s as [|c s]; simpl in *; [reflexivity|].
  apply andb_true_iff in H as [Hc _].
  now destruct (isdigit_facts c Hc) as (-> & _).
Qed.

Lemma all_digits_scan_int (s : string) :
  all_chars Str.isdigit s = true -> Str.empty s = false ->
  Str.scan_int s = Some (Str.digits 0 s).
Proof.
  destruct s as [|c s]; [discriminate|]. intros H _.
  simpl in H. apply andb_true_iff in H as [Hc _].
  unfold Str.scan_int. simpl Str.trim_left.
  destruct (isdigit_facts c Hc) as (-> & _).
  destruct c as [[] [] [] [] [] [] [] []]; try discriminate Hc; reflexivity.
Qed.

(** [atoi] reads back what was printed, for the values of an [int]. *)
Lemma atoi_decimal (n : Z) :
  0 <= n < 2 ^ 31 -> Str.atoi (Str.decimal n) = n.
Proof.
  intros Hn. unfold Str.atoi, Str.strtol.
  rewrite all_digits_scan_int.
  - rewrite digits_decimal by lia.
    unfold Str.LONG_MIN, Str.LONG_MAX, Str.int_of_long.
    rewrite Z.min_r, Z.max_r by lia.
    rewrite Z.mod_small by lia. lia.
  - apply decimal_digits_all; [lia|reflexivity].
  - apply decimal_digits_nonempty.
Qed.

(** ** Round trip of a posted request *)

(** A line that leaves the declared length alone is passed over. *)
Lemma ReadHTTPHeaders_loop_skip (l rest : string) (m : gmap string string) (n : Z) :
  Str.mem Str.LF l = false -> Str.empty l = false ->
  (forall m n, (header_line l m n).2 = n) ->
  exists m', ReadHTTPHeaders_loop (istream_of (l +:+ nl +:+ rest)) m n
             = ReadHTTPHeaders_loop (istream_of rest) m' n.
Proof.
  intros Hl He Hn. rewrite (ReadHTTPHeaders_loop_line_of l rest m n Hl), He, Hn.
  now eexists.
Qed.

Lemma ReadHTTPHeaders_loop_skip_colon (name value rest : string)
  (m : gmap string string) (n : Z) :
  Str.mem ":" name = false -> Str.mem Str.LF name = false ->
  Str.mem Str.LF value = false ->
  Str.to_lower (Str.trim name) <> "content-length" ->
  exists m', ReadHTTPHeaders_loop
               (istream_of (name +:+ String ":" value +:+ nl +:+ rest)) m n
             = ReadHTTPHeaders_loop (istream_of rest) m' n.
Proof.
  intros Hc Hl Hv Hne.
  replace (name +:+ String ":" value +:+ nl +:+ rest)
    with ((name +:+ String ":" value) +:+ nl +:+ rest)
    by (rewrite app_assoc_s; reflexivity).
  apply ReadHTTPHeaders_loop_skip.
  - rewrite mem_app. simpl. now rewrite Hl, Hv.
  - now destruct name.
  - intros m1 n1. rewrite header_line_colon by assumption. simpl.
    now destruct (String.eqb_spec (Str.to_lower (Str.trim name)) "content-length").
Qed.

(** The [Content-Length] line [HTTPPost] writes sets the declared length
    to the size it was given. *)
Lemma ReadHTTPHeaders_loop_content_length (sz : Z) (rest : string)
  (m : gmap string string) (n : Z) :
  0 <= sz < 2 ^ 31 ->
  exists m', ReadHTTPHeaders_loop
               (istream_of ("Content-Length: " +:+ Str.decimal sz +:+ nl +:+ rest)) m n
             = ReadHTTPHeaders_loop (istream_of rest) m' sz.
Proof.
  intros Hsz.
  assert (Hd : all_chars Str.isdigit (Str.decimal sz) = true)
    by (apply decimal_digits_all; [lia|reflexivity]).
  replace ("Content-Length: " +:+ Str.decimal sz +:+ nl +:+ rest)
    with (("Content-Length" +:+ String ":" (" " +:+ Str.decimal sz)) +:+ nl +:+ rest)
    by (rewrite app_assoc_s; reflexivity).
  rewrite ReadHTTPHeaders_loop_line_of.
  2:{ rewrite mem_app. simpl. now rewrite (all_digits_no_LF _ Hd). }
  change (Str.empty ("Content-Length" +:+ String ":" (" " +:+ Str.decimal sz))) with false.
  cbv iota. rewrite header_line_colon by reflexivity.
  change (Str.to_lower (Str.trim "Content-Length")) with "content-length".
  change (String.eqb "content-length" "content-length") with true. cbv iota.
  cbn [fst snd].
  replace (Str.trim (" " +:+ Str.decimal sz)) with (Str.decimal sz).
  - rewrite (all_digits_c_str _ Hd), (atoi_decimal sz Hsz). now eexists.
  - unfold Str.trim. rewrite (trim_left_trim_right_padding " ") by reflexivity.
    symmetry. apply (all_digits_trim _ Hd).
Qed.

(** The request headers of the caller and the blank line. *)
Lemma ReadHTTPHeaders_loop_request_headers (strMsg : string)
  (mapRequestHeaders : list (string * string)) :
  Forall plain_header mapRequestHeaders ->
  forall (m : gmap string string) (n : Z),
  exists m',
    ReadHTTPHeaders_loop
      (istream_of (fold_right (fun item s => item.1 +:+ ": " +:+ item.2 +:+ nl +:+ s)
                     (nl +:+ strMsg) mapRequestHeaders)) m n
    = (n, m', istream_of strMsg).
Proof.
  induction 1 as [|[k v] hs (Hc & Hl & Hv & Hne) Hhs IH]; intros m n; cbn [fold_right].
  - exists m. exact (ReadHTTPHeaders_loop_line_of EmptyString strMsg m n eq_refl).
  - cbn [fst snd] in *.
    change (k +:+ ": " +:+ v +:+ nl +:+ ?r) with (k +:+ String ":" (" " +:+ v) +:+ nl +:+ r).
    replace (k +:+ String ":" (" " +:+ v +:+ nl +:+
               fold_right (fun item s => item.1 +:+ ": " +:+ item.2 +:+ nl +:+ s)
                 (nl +:+ strMsg) hs))
      with (k +:+ String ":" (" " +:+ v) +:+ nl +:+
              fold_right (fun item s => item.1 +:+ ": " +:+ item.2 +:+ nl +:+ s)
                (nl +:+ strMsg) hs) by reflexivity.
    destruct (ReadHTTPHeaders_loop_skip_colon k (" " +:+ v)
                (fold_right (fun item s => item.1 +:+ ": " +:+ item.2 +:+ nl +:+ s)
                   (nl +:+ strMsg) hs) m n Hc Hl Hv Hne) as [m1 ->].
    apply IH.
Qed.

Lemma ReadHTTPRequestLine_POST (rest : string) (proto : Z) (http_method http_uri : string) :
  ReadHTTPRequestLine (istream_of ("POST / HTTP/1.1" +:+ nl +:+ rest))
    proto http_method http_uri
  = (true, 1, "POST", "/", istream_of rest).
Proof.
  unfold ReadHTTPRequestLine.
  rewrite (getline_line (istream_of ("POST / HTTP/1.1" +:+ nl +:+ rest))
             "POST / HTTP/1.1" rest eq_refl eq_refl eq_refl).
  reflexivity.
Qed.

(** What [HTTPPost] writes after the request line is read back as the
    size of the message, with the message left in the stream. *)
Lemma HTTPPost_headers (env : Env) (strMsg : string)
  (mapRequestHeaders : list (string * string)) (proto : Z)
  (http_method http_uri : string) :
  Str.mem Str.LF (FormatFullVersion env) = false ->
  Forall plain_header mapRequestHeaders ->
  Str.size strMsg < 2 ^ 31 ->
  exists stream m',
    ReadHTTPRequestLine (istream_of (HTTPPost env strMsg mapRequestHeaders))
      proto http_method http_uri = (true, 1, "POST", "/", stream)
    /\ ReadHTTPHeaders stream ∅ = (Str.size strMsg, m', istream_of strMsg).
Proof.
  intros Hver Hhdrs Hsz. unfold HTTPPost.
  assert (Hpos : 0 <= Str.size strMsg < 2 ^ 31) by (unfold Str.size in *; lia).
  set (tail := fold_right _ _ _).
  destruct (ReadHTTPHeaders_loop_skip_colon "User-Agent"
              (" nodex-json-rpc/" +:+ FormatFullVersion env)
              ("Host: 127.0.0.1" +:+ nl +:+ "Content-Type: application/json" +:+ nl
               +:+ "Content-Length: " +:+ Str.decimal (Str.size strMsg) +:+ nl
               +:+ "Connection: close" +:+ nl +:+ "Accept: application/json" +:+ nl
               +:+ tail) ∅ 0 eq_refl eq_refl Hver ltac:(discriminate)) as [m1 H1].
  destruct (ReadHTTPHeaders_loop_skip_colon "Host" " 127.0.0.1"
              ("Content-Type: application/json" +:+ nl
               +:+ "Content-Length: " +:+ Str.decimal (Str.size strMsg) +:+ nl
               +:+ "Connection: close" +:+ nl +:+ "Accept: application/json" +:+ nl
               +:+ tail) m1 0 eq_refl eq_refl eq_refl ltac:(discriminate)) as [m2 H2].
  destruct (ReadHTTPHeaders_loop_skip_colon "Content-Type" " application/json"
              ("Content-Length: " +:+ Str.decimal (Str.size strMsg) +:+ nl
               +:+ "Connection: close" +:+ nl +:+ "Accept: application/json" +:+ nl
               +:+ tail) m2 0 eq_refl eq_refl eq_refl ltac:(discriminate)) as [m3 H3].
  destruct (ReadHTTPHeaders_loop_content_length (Str.size strMsg)
              ("Connection: close" +:+ nl +:+ "Accept: application/json" +:+ nl
               +:+ tail) m3 0 Hpos) as [m4 H4].
  destruct (ReadHTTPHeaders_loop_skip_colon "Connection" " close"
              ("Accept: application/json" +:+ nl +:+ tail) m4 (Str.size strMsg)
              eq_refl eq_refl eq_refl ltac:(discriminate)) as [m5 H5].
  destruct (ReadHTTPHeaders_loop_skip_colon "Accept" " application/json"
              tail m5 (Str.size strMsg)
              eq_refl eq_refl eq_refl ltac:(discriminate)) as [m6 H6].
  destruct (ReadHTTPHeaders_loop_request_headers strMsg mapRequestHeaders Hhdrs
              m6 (Str.size strMsg)) as [m7 H7].
  eexists _, m7. split; [apply ReadHTTPRequestLine_POST|].
  unfold ReadHTTPHeaders.
  etransitivity; [exact H1|]. etransitivity; [exact H2|].
  etransitivity; [exact H3|]. etransitivity; [exact H4|].
  etransitivity; [exact H5|]. etransitivity; [exact H6|].
  exact H7.
Qed.

Lemma take_all (s : string) : Str.take (String.length s) s = s.
Proof. induction s as [|c s IH]; simpl; [reflexivity | now rewrite IH]. Qed.

(** Any message that [HTTPPost] renders is recovered by the reader, as
    long as it fits the maximum and its size fits an [int]. *)
Lemma HTTPPost_roundtrip (env : Env) (strMsg : string)
  (mapRequestHeaders : list (string * string)) (max_size proto : Z)
  (http_method http_uri : string) (mapHeadersRet : gmap string string)
  (strMessageRet : string) :
  Str.mem Str.LF (FormatFullVersion env) = false ->
  Forall plain_header mapRequestHeaders ->
  Str.size strMsg < 2 ^ 31 ->
  Str.size strMsg <= max_size ->
  exists stream hdrs st',
    ReadHTTPRequestLine (istream_of (HTTPPost env strMsg mapRequestHeaders))
      proto http_method http_uri = (true, 1, "POST", "/", stream)
    /\ ReadHTTPMessage stream mapHeadersRet strMessageRet 1 max_size
       = (HTTP_OK, hdrs, strMsg, st')
    /\ rdbuf st' = EmptyString.
Proof.
  intros Hver Hhdrs Hint Hmax.
  destruct (HTTPPost_headers env strMsg mapRequestHeaders proto http_method http_uri
              Hver Hhdrs Hint) as (stream & m' & Hline & Hheaders).
  assert (Hpos : 0 <= Str.size strMsg) by (unfold Str.size; lia).
  destruct (ReadHTTPMessage_complete stream mapHeadersRet strMessageRet 1 max_size
              (Str.size strMsg) m' (istream_of strMsg) Hheaders
              ltac:(lia) ltac:(cbn [rdbuf istream_of]; lia))
    as (st' & log & Hmsg & _ & Hbuf & _).
  cbn [rdbuf istream_of] in Hmsg, Hbuf.
  unfold Str.size in Hmsg, Hbuf. rewrite Nat2Z.id in Hmsg, Hbuf.
  rewrite take_all in Hmsg. rewrite drop_all in Hbuf.
  exists stream, (normalize_connection m' 1), st'. auto.
Qed.

Example JSONRPCRequest_getinfo (write_real : spec_float -> string) :
  JSONRPCRequest write_real "getinfo" [] (int_v 1)
  = "{" +:+ dq +:+ "method" +:+ dq +:+ ":" +:+ dq +:+ "getinfo" +:+ dq +:+ ","
    +:+ dq +:+ "params" +:+ dq +:+ ":[]," +:+ dq +:+ "id" +:+ dq +:+ ":1}" +:+ nl.
Proof. reflexivity. Qed.

(** C3. The request for method ["getinfo"] with no parameters and id 1,
    rendered by [HTTPPost] and read back by [ReadHTTPRequestLine] and
    [ReadHTTPMessage], gives [HTTP_OK] and a message equal to the request
    text, with nothing left in the stream; this for a version string
    without a line feed, request headers that are plain, and a maximum
    size the request fits in. *)
Theorem JSONRPCRequest_HTTPPost_roundtrip (write_real : spec_float -> string)
  (env : Env) (mapRequestHeaders : list (string * string)) (max_size proto : Z)
  (http_method http_uri : string) (mapHeadersRet : gmap string string)
  (strMessageRet : string) :
  Str.mem Str.LF (FormatFullVersion env) = false ->
  Forall plain_header mapRequestHeaders ->
  Str.size (JSONRPCRequest write_real "getinfo" [] (int_v 1)) <= max_size ->
  exists stream hdrs st',
    ReadHTTPRequestLine
      (istream_of (HTTPPost env (JSONRPCRequest write_real "getinfo" [] (int_v 1))
                     mapRequestHeaders))
      proto http_method http_uri = (true, 1, "POST", "/", stream)
    /\ ReadHTTPMessage stream mapHeadersRet strMessageRet 1 max_size
       = (HTTP_OK, hdrs, JSONRPCRequest write_real "getinfo" [] (int_v 1), st')
    /\ rdbuf st' = EmptyString.
Proof.
  intros Hver Hhdrs Hmax.
  apply HTTPPost_roundtrip; try assumption.
  rewrite JSONRPCRequest_getinfo. vm_compute. reflexivity.
Qed.

Lemma JSONRPCRequest_HTTPPost_roundtrip_witness :
  exists stream hdrs st',
    ReadHTTPRequestLine
      (istream_of (HTTPPost (mkEnv 0 "v1.0.0")
                     (JSONRPCRequest (fun _ => EmptyString) "getinfo" [] (int_v 1))
                     [("Authorization", "Basic dXNlcjpwYXNz")]))
      0 "" "" = (true, 1, "POST", "/", stream)
    /\ ReadHTTPMessage stream ∅ "" 1 1000
       = (HTTP_OK, hdrs, JSONRPCRequest (fun _ => EmptyString) "getinfo" [] (int_v 1), st')
    /\ rdbuf st' = EmptyString.
Proof.
  apply (JSONRPCRequest_HTTPPost_roundtrip (fun _ => EmptyString) (mkEnv 0 "v1.0.0")
           [("Authorization", "Basic dXNlcjpwYXNz")] 1000 0 "" "" ∅ "").
  - reflexivity.
  - repeat constructor. discriminate.
  - vm_compute. discriminate.
Defined.

Example HTTPPost_getinfo_size :
  Str.size (JSONRPCRequest (fun _ => EmptyString) "getinfo" [] (int_v 1)) = 40.
Proof. reflexivity. Qed.

(** A body larger than the maximum is refused, whatever was posted. *)
Example HTTPPost_over_maximum :
  (ReadHTTPMessage
     (ReadHTTPRequestLine
        (istream_of (HTTPPost (mkEnv 0 "v1.0.0")
                       (JSONRPCRequest (fun _ => EmptyString) "getinfo" [] (int_v 1)) []))
        0 "" "").2
     ∅ "" 1 39).1
  = (HTTP_INTERNAL_SERVER_ERROR,
     (ReadHTTPHeaders
        (ReadHTTPRequestLine
           (istream_of (HTTPPost (mkEnv 0 "v1.0.0")
                          (JSONRPCRequest (fun _ => EmptyString) "getinfo" [] (int_v 1)) []))
           0 "" "").2 ∅).1.2,
     EmptyString).
Proof. vm_compute. reflexivity. Qed.

(** * Further properties *)

(** ** Canonical keys and values *)

Lemma tolower_idem (c : ascii) : Str.tolower (Str.tolower c) = Str.tolower c.
Proof. destruct c as [[] [] [] [] [] [] [] []]; reflexivity. Qed.

Lemma to_lower_idem (s : string) : Str.to_lower (Str.to_lower s) = Str.to_lower s.
Proof. induction s as [|c s IH]; simpl; [reflexivity | now rewrite tolower_idem, IH]. Qed.

Lemma trim_left_idem (s : string) : Str.trim_left (Str.trim_left s) = Str.trim_left s.
Proof.
  induction s as [|c s IH]; simpl; [reflexivity|].
  destruct (Str.isspace c) eqn:E; [exact IH | simpl; now rewrite E].
Qed.

Lemma trim_right_idem (s : string) : Str.trim_right (Str.trim_right s) = Str.trim_right s.
Proof.
  induction s as [|c s IH]; simpl; [reflexivity|].
  destruct (Str.isspace c && Str.empty (Str.trim_right s)) eqn:E; [reflexivity|].
  simpl. now rewrite IH, E.
Qed.

Lemma trim_right_trim_left (t : string) :
  Str.trim_right t = t -> Str.trim_right (Str.trim_left t) = Str.trim_left t.
Proof.
  induction t as [|c t IH]; simpl; [reflexivity|].
  destruct (Str.isspace c) eqn:Ec; simpl.
  - destruct (Str.empty (Str.trim_right t)); [discriminate|].
    intros [= H]. now apply IH.
  - intros H. rewrite Ec. simpl. exact H.
Qed.

Lemma trim_idem (s : string) : Str.trim (Str.trim s) = Str.trim s.
Proof.
  unfold Str.trim.
  rewrite (trim_right_trim_left (Str.trim_right s) (trim_right_idem s)).
  apply trim_left_idem.
Qed.

Lemma canonical_name (s : string) :
  Str.to_lower (Str.to_lower (Str.trim s)) = Str.to_lower (Str.trim s)
  /\ Str.trim (Str.to_lower (Str.trim s)) = Str.to_lower (Str.trim s).
Proof.
  split; [apply to_lower_idem|]. now rewrite trim_to_lower, trim_idem.
Qed.

Lemma canonical_map_insert (m : gmap string string) (k v : string) :
  canonical_map m -> Str.to_lower k = k -> Str.trim k = k -> Str.trim v = v ->
  canonical_map (<[k := v]> m).
Proof.
  intros Hm Hk1 Hk2 Hv k' v' H.
  destruct (decide (k = k')) as [<-|Hne].
  - rewrite lookup_insert_eq in H. injection H as <-. auto.
  - rewrite lookup_insert_ne in H by assumption. eauto.
Qed.

Lemma canonical_map_header_line (str : string) (m : gmap string string) (n : Z) :
  canonical_map m -> canonical_map (header_line str m n).1.
Proof.
  intros Hm. unfold header_line, map_assign.
  destruct (Str.find ":" str) as [i|]; [|exact Hm].
  destruct (canonical_name (Str.take i str)) as [H1 H2].
  destruct (String.eqb _ _); cbn [fst];
    apply canonical_map_insert; auto using trim_idem.
Qed.

Lemma canonical_map_normalize (m : gmap string string) (nProto : Z) :
  canonical_map m -> canonical_map (normalize_connection m nProto).
Proof.
  intros Hm. unfold normalize_connection, map_index, map_assign.
  assert (Hins : forall v : string, Str.trim v = v ->
                   canonical_map (<["connection" := v]> m))
    by (intros v Hv; now apply canonical_map_insert).
  destruct (m !! "connection") as [v|] eqn:E.
  - destruct (negb (String.eqb v "close") && negb (String.eqb v "keep-alive"));
      [|exact Hm].
    destruct (1 <=? nProto); now apply Hins.
  - cbn [negb andb String.eqb].
    destruct (1 <=? nProto); apply canonical_map_insert; auto.
Qed.

Lemma ReadHTTPHeaders_canonical (stream : istream) (m : gmap string string) :
  canonical_map m -> canonical_map (ReadHTTPHeaders stream m).1.2.
Proof.
  intros Hm. unfold ReadHTTPHeaders.
  apply (ReadHTTPHeaders_loop_invariant (fun m _ => canonical_map m)); [|exact Hm].
  intros str m' n. apply canonical_map_header_line.
Qed.

(** The map [ReadHTTPMessage] hands back is the collected one, normalized
    or not. *)
Lemma ReadHTTPMessage_headers stream m0 msg0 nProto max_size status
  (hdrs : gmap string string) msg st' :
  ReadHTTPMessage stream m0 msg0 nProto max_size = (status, hdrs, msg, st') ->
  hdrs = (ReadHTTPHeaders stream ∅).1.2
  \/ hdrs = normalize_connection (ReadHTTPHeaders stream ∅).1.2 nProto.
Proof.
  unfold ReadHTTPMessage, normalize_connection.
  destruct (ReadHTTPHeaders stream ∅) as [[nLen m] st]. simpl.
  destruct ((nLen <? 0) || (max_size <? size_t_of_int nLen)).
  { intros [= <- <- <- <-]. now left. }
  destruct (if 0 <? nLen then _ else _) as [[body|] st2].
  2:{ intros [= <- <- <- <-]. now left. }
  destruct (map_index m "connection") as [v m'].
  intros [= <- <- <- <-]. now right.
Qed.

(** X1. Whatever the peer sent and whatever the status returned, every
    key of the map [ReadHTTPMessage] hands back is lowercase and has no
    blanks around it, and every value has no blanks around it. *)
Theorem ReadHTTPMessage_canonical_headers (stream : istream)
  (m0 : gmap string string) (msg0 : string) (nProto max_size status : Z)
  (hdrs : gmap string string) (msg : string) (st' : istream) (k v : string) :
  ReadHTTPMessage stream m0 msg0 nProto max_size = (status, hdrs, msg, st') ->
  hdrs !! k = Some v ->
  Str.to_lower k = k /\ Str.trim k = k /\ Str.trim v = v.
Proof.
  intros H Hk.
  assert (Hc : canonical_map (ReadHTTPHeaders stream ∅).1.2)
    by (apply ReadHTTPHeaders_canonical; intros ? ? E; now rewrite lookup_empty in E).
  destruct (ReadHTTPMessage_headers _ _ _ _ _ _ _ _ _ H) as [->| ->].
  - exact (Hc k v Hk).
  - exact (canonical_map_normalize _ nProto Hc k v Hk).
Qed.

Lemma ReadHTTPMessage_canonical_headers_witness :
  Str.to_lower "x-custom" = "x-custom" /\ Str.trim "x-custom" = "x-custom"
  /\ Str.trim "some  value" = "some  value".
Proof.
  apply (ReadHTTPMessage_canonical_headers
           (istream_of ("  X-Custom :  some  value " +:+ nl +:+ nl)) ∅ "" 1 0
           HTTP_OK
           (ReadHTTPMessage
              (istream_of ("  X-Custom :  some  value " +:+ nl +:+ nl)) ∅ "" 1 0).1.1.2
           ""
           (ReadHTTPMessage
              (istream_of ("  X-Custom :  some  value " +:+ nl +:+ nl)) ∅ "" 1 0).2
           "x-custom" "some  value").
  - vm_compute. reflexivity.
  - vm_compute. reflexivity.
Defined.

(** ** The header collector as a fold over lines *)

Lemma header_lines_app (ls1 ls2 : list string) (m : gmap string string) (n : Z) :
  header_lines (ls1 ++ ls2) m n =
  header_lines ls2 (header_lines ls1 m n).1 (header_lines ls1 m n).2.
Proof.
  unfold header_lines. rewrite fold_left_app.
  now destruct (fold_left _ ls1 (m, n)).
Qed.

Lemma header_lines_cons (l : string) (ls : list string)
  (m : gmap string string) (n : Z) :
  header_lines (l :: ls) m n =
  header_lines ls (header_line l m n).1 (header_line l m n).2.
Proof. unfold header_lines. cbn [fold_left fst snd]. now destruct (header_line l m n). Qed.

Lemma header_lines_one (l : string) (m : gmap string string) (n : Z) :
  header_lines [l] m n = header_line l m n.
Proof. rewrite header_lines_cons. unfold header_lines. simpl. now destruct (header_line l m n). Qed.

Lemma ReadHTTPHeaders_loop_lines (ls : list string) (rest : string) :
  Forall header_line_ok ls ->
  forall (m : gmap string string) (n : Z),
    ReadHTTPHeaders_loop (istream_of (lines_text ls +:+ nl +:+ rest)) m n =
    ((header_lines ls m n).2, (header_lines ls m n).1, istream_of rest).
Proof.
  induction 1 as [|l ls [Hl He] Hls IH]; intros m n.
  - exact (ReadHTTPHeaders_loop_line_of EmptyString rest m n eq_refl).
  - rewrite lines_text_cons_app, (ReadHTTPHeaders_loop_line_of _ _ _ _ Hl), He, IH.
    now rewrite header_lines_cons.
Qed.

(** X2. On a stream that holds header lines, a blank line and then
    anything, [ReadHTTPHeaders] is the loop body folded over the lines in
    order, and it leaves the stream right after the blank line. *)
Theorem ReadHTTPHeaders_fold (ls : list string) (rest : string)
  (m : gmap string string) :
  Forall header_line_ok ls ->
  ReadHTTPHeaders (istream_of (lines_text ls +:+ nl +:+ rest)) m =
  ((header_lines ls m 0).2, (header_lines ls m 0).1, istream_of rest).
Proof. intros H. unfold ReadHTTPHeaders. now apply ReadHTTPHeaders_loop_lines. Qed.

Lemma ReadHTTPHeaders_fold_witness :
  ReadHTTPHeaders
    (istream_of (lines_text ["Host: x"; "Content-Length: 3"] +:+ nl +:+ "abcdef")) ∅
  = ((header_lines ["Host: x"; "Content-Length: 3"] ∅ 0).2,
     (header_lines ["Host: x"; "Content-Length: 3"] ∅ 0).1, istream_of "abcdef").
Proof.
  apply (ReadHTTPHeaders_fold ["Host: x"; "Content-Length: 3"] "abcdef" ∅).
  repeat constructor.
Defined.

(** X3. Last write wins: the header on the last line before the blank
    line is the one the map holds under its canonical name, whatever
    lines came before, an earlier header of the same name included; when
    that name is [content-length], its value is the declared length. *)
Theorem ReadHTTPHeaders_last_write (pre : list string) (name value rest : string)
  (m : gmap string string) :
  Forall header_line_ok pre ->
  Str.mem ":" name = false -> Str.mem Str.LF name = false ->
  Str.mem Str.LF value = false ->
  (ReadHTTPHeaders
     (istream_of (lines_text (pre ++ [name +:+ String ":" value]) +:+ nl +:+ rest)) m).1.2
    !! Str.to_lower (Str.trim name) = Some (Str.trim value)
  /\ (Str.to_lower (Str.trim name) = "content-length" ->
      (ReadHTTPHeaders
         (istream_of (lines_text (pre ++ [name +:+ String ":" value]) +:+ nl +:+ rest))
         m).1.1 = Str.atoi (Str.c_str (Str.trim value))).
Proof.
  intros Hpre Hc Hl Hv. unfold ReadHTTPHeaders.
  rewrite ReadHTTPHeaders_loop_lines.
  2:{ apply Forall_app. split; [exact Hpre|]. constructor; [|constructor].
      split; [rewrite mem_app; simpl; now rewrite Hl, Hv | now destruct name]. }
  cbn [fst snd]. rewrite header_lines_app, header_lines_one.
  rewrite header_line_colon by assumption. cbn [fst snd].
  split; [apply lookup_insert_eq|].
  intros ->. reflexivity.
Qed.

Lemma ReadHTTPHeaders_last_write_witness :
  (ReadHTTPHeaders
     (istream_of (lines_text (["Content-Length: 10"] ++ ["content-length" +:+ String ":" " 4"])
                  +:+ nl +:+ "abcdef")) ∅).1.2
    !! Str.to_lower (Str.trim "content-length") = Some (Str.trim " 4")
  /\ (Str.to_lower (Str.trim "content-length") = "content-length" ->
      (ReadHTTPHeaders
         (istream_of (lines_text (["Content-Length: 10"]
                                  ++ ["content-length" +:+ String ":" " 4"])
                      +:+ nl +:+ "abcdef")) ∅).1.1
      = Str.atoi (Str.c_str (Str.trim " 4"))).
Proof.
  apply (ReadHTTPHeaders_last_write ["Content-Length: 10"] "content-length" " 4"
           "abcdef" ∅); try reflexivity.
  repeat constructor.
Defined.

(** X4. A line without a colon is passed over: the collector returns what
    it returns without that line. *)
Theorem ReadHTTPHeaders_skips_colonless (ls1 ls2 : list string) (l rest : string)
  (m : gmap string string) :
  Forall header_line_ok ls1 -> header_line_ok l -> Forall header_line_ok ls2 ->
  Str.find ":" l = None ->
  ReadHTTPHeaders (istream_of (lines_text (ls1 ++ l :: ls2) +:+ nl +:+ rest)) m =
  ReadHTTPHeaders (istream_of (lines_text (ls1 ++ ls2) +:+ nl +:+ rest)) m.
Proof.
  intros H1 Hl H2 Hfind. unfold ReadHTTPHeaders.
  rewrite !ReadHTTPHeaders_loop_lines
    by (apply Forall_app; split; [assumption|]; try constructor; assumption).
  rewrite !header_lines_app, header_lines_cons.
  assert (E : forall m' n', header_line l m' n' = (m', n'))
    by (intros; unfold header_line; now rewrite Hfind).
  now rewrite E.
Qed.

Lemma ReadHTTPHeaders_skips_colonless_witness :
  ReadHTTPHeaders
    (istream_of (lines_text (["Host: x"] ++ "garbage" :: ["Content-Length: 3"])
                 +:+ nl +:+ "abc")) ∅
  = ReadHTTPHeaders
      (istream_of (lines_text (["Host: x"] ++ ["Content-Length: 3"]) +:+ nl +:+ "abc")) ∅.
Proof.
  apply (ReadHTTPHeaders_skips_colonless ["Host: x"] ["Content-Length: 3"] "garbage"
           "abc" ∅); try reflexivity; repeat constructor.
Defined.

(** ** Streams that have ended *)

Lemma getline_exhausted (st : istream) :
  exhausted st -> (getline st).1 = EmptyString /\ failbit (getline st).2 = true.
Proof.
  intros [Hg|Hb]; unfold getline.
  - rewrite Hg. now split.
  - destruct (good st); [|now split]. rewrite Hb. now split.
Qed.

(** X5. On a stream that has already failed or ended, [ReadHTTPMessage]
    does not report an error: it returns [HTTP_OK] with an empty message
    and a map that holds nothing but the [connection] entry the protocol
    version gives. *)
Theorem ReadHTTPMessage_exhausted (st : istream) (m0 : gmap string string)
  (msg0 : string) (nProto max_size : Z) :
  exhausted st -> 0 <= max_size ->
  exists st',
    ReadHTTPMessage st m0 msg0 nProto max_size =
    (HTTP_OK,
     {[ "connection" := if 1 <=? nProto then "keep-alive" else "close" ]},
     EmptyString, st')
    /\ failbit st' = true.
Proof.
  intros Hex Hmax. destruct (getline_exhausted st Hex) as [Hline Hfail].
  unfold ReadHTTPMessage, ReadHTTPHeaders. rewrite ReadHTTPHeaders_loop_step.
  destruct (getline st) as [str st1]. cbn [fst snd] in *. subst str.
  cbn [Str.empty]. change (size_t_of_int 0) with 0.
  destruct (Z.ltb_spec max_size 0); [lia|]. cbn [Z.ltb Z.compare orb].
  exists st1. split; [|exact Hfail].
  unfold map_index, map_assign. rewrite lookup_empty. cbn [String.eqb negb andb].
  destruct (1 <=? nProto); now rewrite insert_insert_eq, insert_empty.
Qed.

Lemma ReadHTTPMessage_exhausted_witness :
  exists st',
    ReadHTTPMessage (istream_of "") ∅ "" 1 100 =
    (HTTP_OK, {[ "connection" := if 1 <=? 1 then "keep-alive" else "close" ]},
     EmptyString, st')
    /\ failbit st' = true.
Proof.
  apply (ReadHTTPMessage_exhausted (istream_of "") ∅ "" 1 100).
  - right. reflexivity.
  - lia.
Defined.

(** X6. On a stream that has already failed or ended,
    [ReadHTTPRequestLine] fails and [ReadHTTPStatus] returns
    [HTTP_INTERNAL_SERVER_ERROR]; both leave the caller's [proto] (and
    method and URI) as they were. *)
Theorem first_line_exhausted (st : istream) (proto : Z) (http_method http_uri : string) :
  exhausted st ->
  ReadHTTPRequestLine st proto http_method http_uri
  = (false, proto, http_method, http_uri, (getline st).2)
  /\ ReadHTTPStatus st proto = (HTTP_INTERNAL_SERVER_ERROR, proto, (getline st).2).
Proof.
  intros Hex. destruct (getline_exhausted st Hex) as [Hline _].
  unfold ReadHTTPRequestLine, ReadHTTPStatus.
  destruct (getline st) as [str st1]. cbn [fst snd] in *. subst str.
  now split.
Qed.

Lemma first_line_exhausted_witness :
  ReadHTTPRequestLine (istream_of "") 7 "m" "u"
  = (false, 7, "m", "u", (getline (istream_of "")).2)
  /\ ReadHTTPStatus (istream_of "") 7
     = (HTTP_INTERNAL_SERVER_ERROR, 7, (getline (istream_of "")).2).
Proof.
  apply (first_line_exhausted (istream_of "") 7 "m" "u").
  right. reflexivity.
Defined.

(** ** What [HTTP_OK] guarantees *)

Lemma ReadHTTPMessage_refuses (stream : istream) (m0 : gmap string string)
  (msg0 : string) (nProto max_size nLen : Z) (hdrs : gmap string string)
  (st : istream) :
  ReadHTTPHeaders stream ∅ = (nLen, hdrs, st) ->
  nLen < 0 \/ max_size < nLen \/ Str.size (rdbuf st) < nLen ->
  exists st',
    ReadHTTPMessage stream m0 msg0 nProto max_size
    = (HTTP_INTERNAL_SERVER_ERROR, hdrs, EmptyString, st').
Proof.
  intros Hhdr Hbad.
  pose proof (ReadHTTPHeaders_range stream ∅) as Hrange.
  assert (Hsz : 0 <= Str.size (rdbuf st)) by (unfold Str.size; lia).
  unfold ReadHTTPMessage. rewrite Hhdr in *. cbn [fst snd] in *.
  destruct (Z.ltb_spec nLen 0) as [Hneg|Hnn]; cbn [orb]; [now eexists|].
  unfold size_t_of_int. rewrite (Z.mod_small nLen) by lia.
  destruct (Z.ltb_spec max_size nLen) as [Hbig|Hfit]; [now eexists|].
  destruct (Z.ltb_spec 0 nLen); [|lia].
  pose proof (read_loop_short _ st EmptyString 0 nLen eq_refl
                ltac:(lia) ltac:(lia) ltac:(lia)) as Hnone.
  destruct (read_loop st EmptyString 0 nLen) as [[body|] st2];
    [discriminate Hnone|].
  now eexists.
Qed.

(** X7. When [ReadHTTPMessage] returns [HTTP_OK], the declared length
    was between 0 and [max_size], the message is exactly the bytes that
    followed the headers, as many as declared and never more than
    [max_size], and the stream is left right after them. *)
Theorem ReadHTTPMessage_OK_bounds (stream : istream) (m0 : gmap string string)
  (msg0 : string) (nProto max_size nLen : Z) (hdrs0 : gmap string string)
  (st : istream) (hdrs : gmap string string) (msg : string) (st' : istream) :
  ReadHTTPHeaders stream ∅ = (nLen, hdrs0, st) ->
  ReadHTTPMessage stream m0 msg0 nProto max_size = (HTTP_OK, hdrs, msg, st') ->
  0 <= nLen <= max_size
  /\ msg = Str.take (Z.to_nat nLen) (rdbuf st)
  /\ Str.size msg = nLen
  /\ Str.size msg <= max_size
  /\ rdbuf st' = Str.drop (Z.to_nat nLen) (rdbuf st).
Proof.
  intros Hhdr Hmsg.
  assert (Hok : 0 <= nLen <= max_size /\ nLen <= Str.size (rdbuf st)).
  { destruct (Z.lt_ge_cases nLen 0) as [H1|H1];
      [|destruct (Z.lt_ge_cases max_size nLen) as [H2|H2];
        [|destruct (Z.lt_ge_cases (Str.size (rdbuf st)) nLen) as [H3|H3]]];
      try lia;
      edestruct (ReadHTTPMessage_refuses stream m0 msg0 nProto max_size nLen hdrs0 st
                   Hhdr) as [st2 Hbad]; eauto;
      rewrite Hbad in Hmsg; discriminate Hmsg. }
  destruct Hok as [Hlen Hbuf].
  destruct (ReadHTTPMessage_complete stream m0 msg0 nProto max_size nLen hdrs0 st
              Hhdr Hlen Hbuf) as (st2 & log & Heq & Hsz & Hrest & _).
  rewrite Heq in Hmsg. injection Hmsg as <- <- <-.
  repeat split; try lia; auto.
Qed.

Lemma ReadHTTPMessage_OK_bounds_witness :
  0 <= 5 <= 100
  /\ "hello" = Str.take (Z.to_nat 5) "hello world"
  /\ Str.size "hello" = 5
  /\ Str.size "hello" <= 100
  /\ rdbuf (ReadHTTPMessage
              (istream_of ("Content-Length: 5" +:+ nl +:+ nl +:+ "hello world"))
              ∅ "" 0 100).2
     = Str.drop (Z.to_nat 5) "hello world".
Proof.
  apply (ReadHTTPMessage_OK_bounds
           (istream_of ("Content-Length: 5" +:+ nl +:+ nl +:+ "hello world")) ∅ "" 0 100 5
           (ReadHTTPHeaders
              (istream_of ("Content-Length: 5" +:+ nl +:+ nl +:+ "hello world")) ∅).1.2
           (istream_of "hello world")
           (ReadHTTPMessage
              (istream_of ("Content-Length: 5" +:+ nl +:+ nl +:+ "hello world"))
              ∅ "" 0 100).1.1.2
           "hello"
           (ReadHTTPMessage
              (istream_of ("Content-Length: 5" +:+ nl +:+ nl +:+ "hello world"))
              ∅ "" 0 100).2).
  - vm_compute. reflexivity.
  - vm_compute. reflexivity.
Defined.

(** ** Replies read back *)

Lemma decimal_digits_all_digits (fuel : nat) (n : Z) (acc : string) :
  all_chars Str.isdigit acc = true ->
  all_chars Str.isdigit (Str.decimal_digits fuel n acc) = true.
Proof.
  revert n acc. induction fuel as [|fuel IH]; intros n acc Hacc; simpl; [exact Hacc|].
  assert (Hd : all_chars Str.isdigit
                 (String (ascii_of_N (Z.to_N (48 + n mod 10))) acc) = true).
  { simpl. rewrite Hacc.
    destruct (digit_char (n mod 10) ltac:(apply Z.mod_pos_bound; lia)) as [-> _].
    reflexivity. }
  destruct (n <? 10); [exact Hd | now apply IH].
Qed.

Lemma decimal_all_digits (n : Z) : all_chars Str.isdigit (Str.decimal n) = true.
Proof. now apply decimal_digits_all_digits. Qed.

Lemma decimal_no_LF (n : Z) : Str.mem Str.LF (Str.decimal n) = false.
Proof. apply all_digits_no_LF, decimal_all_digits. Qed.

Lemma decimal_int_no_LF (n : Z) : Str.mem Str.LF (decimal_int n) = false.
Proof.
  unfold decimal_int. destruct (n <? 0); [|apply decimal_no_LF].
  simpl. apply decimal_no_LF.
Qed.

Lemma all_digits_no_space (s : string) :
  all_chars Str.isdigit s = true -> Str.mem " " s = false.
Proof.
  induction s as [|c s IH]; simpl; [reflexivity|].
  intros H. apply andb_true_iff in H as [Hc Hs]. rewrite (IH Hs).
  destruct c as [[] [] [] [] [] [] [] []]; try discriminate Hc; reflexivity.
Qed.

Lemma two_digits_no_LF (n : Z) : Str.mem Str.LF (DateTime.two_digits n) = false.
Proof.
  apply all_digits_no_LF. unfold DateTime.two_digits. simpl.
  destruct (digit_char (n / 10 mod 10) ltac:(apply Z.mod_pos_bound; lia)) as [-> _].
  destruct (digit_char (n mod 10) ltac:(apply Z.mod_pos_bound; lia)) as [-> _].
  reflexivity.
Qed.

Lemma day_name_no_LF (d : Z) : Str.mem Str.LF (DateTime.day_name d) = false.
Proof.
  unfold DateTime.day_name.
  destruct (Z.to_nat d) as [|[|[|[|[|[|[|[|k]]]]]]]]; reflexivity.
Qed.

Lemma month_name_no_LF (m : Z) : Str.mem Str.LF (DateTime.month_name m) = false.
Proof.
  unfold DateTime.month_name.
  destruct (Z.to_nat (m - 1)) as [|[|[|[|[|[|[|[|[|[|[|[|[|k]]]]]]]]]]]]]; reflexivity.
Qed.

(** The [Date] text never holds a line feed. *)
Lemma rfc1123Time_no_LF (env : Env) : Str.mem Str.LF (rfc1123Time env) = false.
Proof.
  unfold rfc1123Time, DateTime.DateTimeStrFormat_rfc1123.
  destruct (DateTime.civil_from_days _) as [[y m] d].
  rewrite !mem_app, day_name_no_LF, month_name_no_LF, decimal_no_LF, !two_digits_no_LF.
  reflexivity.
Qed.

Lemma httpStatusDescription_no_LF (nStatus : Z) :
  Str.mem Str.LF (httpStatusDescription nStatus) = false.
Proof.
  unfold httpStatusDescription.
  repeat match goal with |- context [if ?b then _ else _] => destruct b end;
    reflexivity.
Qed.

Lemma split_cons (a b : string) :
  Str.mem " " a = false ->
  Str.split " " (a +:+ String " " b) = a :: Str.split " " b.
Proof.
  induction a as [|c a IH]; simpl.
  - reflexivity.
  - intros H. apply orb_false_iff in H as [Hc Ha]. now rewrite Hc, (IH Ha).
Qed.

Lemma split_one (a : string) :
  Str.mem " " a = false -> Str.split " " a = [a].
Proof.
  induction a as [|c a IH]; simpl; [reflexivity|].
  intros H. apply orb_false_iff in H as [Hc Ha]. now rewrite Hc, (IH Ha).
Qed.

Lemma split_length (s : string) : (1 <= length (Str.split " " s))%nat.
Proof.
  induction s as [|c s IH]; simpl; [lia|].
  destruct (Ascii.eqb c " "); simpl; [lia|].
  destruct (Str.split " " s); simpl in *; lia.
Qed.

Lemma atoi_trim_decimal (sz : Z) :
  0 <= sz < 2 ^ 31 ->
  Str.atoi (Str.c_str (Str.trim (" " +:+ Str.decimal sz))) = sz.
Proof.
  intros Hsz. pose proof (decimal_all_digits sz) as Hd.
  replace (Str.trim (" " +:+ Str.decimal sz)) with (Str.decimal sz).
  - now rewrite (all_digits_c_str _ Hd), atoi_decimal.
  - unfold Str.trim. rewrite (trim_left_trim_right_padding " ") by reflexivity.
    symmetry. apply (all_digits_trim _ Hd).
Qed.

(** One turn of the header loop on a line [name: value], with the map it
    leaves. *)
Lemma ReadHTTPHeaders_loop_header (name value rest key : string)
  (m : gmap string string) (n : Z) :
  Str.mem ":" name = false -> Str.mem Str.LF name = false ->
  Str.mem Str.LF value = false ->
  key = Str.to_lower (Str.trim name) ->
  ReadHTTPHeaders_loop (istream_of (name +:+ String ":" value +:+ nl +:+ rest)) m n
  = ReadHTTPHeaders_loop (istream_of rest) (<[key := Str.trim value]> m)
      (if String.eqb key "content-length"
       then Str.atoi (Str.c_str (Str.trim value)) else n).
Proof.
  intros Hc Hl Hv ->.
  replace (name +:+ String ":" value +:+ nl +:+ rest)
    with ((name +:+ String ":" value) +:+ nl +:+ rest)
    by (rewrite app_assoc_s; reflexivity).
  rewrite ReadHTTPHeaders_loop_line_of
    by (rewrite mem_app; simpl; now rewrite Hl, Hv).
  replace (Str.empty (name +:+ String ":" value)) with false by (now destruct name).
  now rewrite header_line_colon.
Qed.

Lemma normalize_connection_exact (m : gmap string string) (nProto : Z) (v : string) :
  m !! "connection" = Some v -> v = "close" \/ v = "keep-alive" ->
  normalize_connection m nProto = m.
Proof.
  intros Hm Hv. unfold normalize_connection, map_index. rewrite Hm.
  destruct Hv as [-> | ->]; reflexivity.
Qed.

Lemma version_of_HTTP11 (tail : string) (proto : Z) :
  match Str.strstr ("HTTP/1.1 " +:+ tail) "HTTP/1." with
  | Some ver => Str.atoi (Str.drop 7 ver)
  | None => proto
  end = 1.
Proof. reflexivity. Qed.

(** The status line [HTTPReplyHeader] writes, read by [ReadHTTPStatus]. *)
Lemma ReadHTTPStatus_line (nStatus : Z) (desc rest : string) (proto : Z) :
  0 <= nStatus < 2 ^ 31 -> Str.mem Str.LF desc = false ->
  ReadHTTPStatus
    (istream_of ("HTTP/1.1 " +:+ decimal_int nStatus +:+ " " +:+ desc +:+ nl +:+ rest))
    proto
  = (nStatus, 1, istream_of rest).
Proof.
  intros Hn Hdesc. unfold ReadHTTPStatus, decimal_int.
  destruct (Z.ltb_spec nStatus 0); [lia|].
  pose proof (decimal_all_digits nStatus) as Hd.
  replace ("HTTP/1.1 " +:+ Str.decimal nStatus +:+ " " +:+ desc +:+ nl +:+ rest)
    with (("HTTP/1.1 " +:+ Str.decimal nStatus +:+ " " +:+ desc) +:+ nl +:+ rest)
    by (rewrite !app_assoc_s; reflexivity).
  rewrite (getline_line
             (istream_of (("HTTP/1.1 " +:+ Str.decimal nStatus +:+ " " +:+ desc)
                          +:+ nl +:+ rest))
             ("HTTP/1.1 " +:+ Str.decimal nStatus +:+ " " +:+ desc) rest
             eq_refl).
  2:{ rewrite !mem_app, (all_digits_no_LF _ Hd), Hdesc. reflexivity. }
  2:{ reflexivity. }
  assert (Hsplit : Str.split " " ("HTTP/1.1 " +:+ Str.decimal nStatus +:+ " " +:+ desc)
                   = "HTTP/1.1" :: Str.decimal nStatus :: Str.split " " desc).
  { change ("HTTP/1.1 " +:+ Str.decimal nStatus +:+ " " +:+ desc)
      with ("HTTP/1.1" +:+ String " " (Str.decimal nStatus +:+ String " " desc)).
    rewrite (split_cons "HTTP/1.1") by reflexivity.
    now rewrite split_cons by (now apply all_digits_no_space). }
  rewrite !Hsplit. cbn [length Nat.ltb Nat.leb nth].
  change (Str.c_str ("HTTP/1.1 " +:+ Str.decimal nStatus +:+ " " +:+ desc))
    with ("HTTP/1.1 " +:+ Str.c_str (Str.decimal nStatus +:+ " " +:+ desc)).
  rewrite version_of_HTTP11, (all_digits_c_str _ Hd), atoi_decimal by assumption.
  reflexivity.
Qed.

(** What [HTTPReplyHeader] writes, followed by anything, read back line
    by line: the status line first, then the five headers. *)
Lemma HTTPReplyHeader_read (env : Env) (nStatus : Z) (keepalive : bool)
  (contentLength : Z) (contentType tail : string) (proto : Z) :
  0 <= nStatus < 2 ^ 31 -> 0 <= contentLength < 2 ^ 31 ->
  Str.mem Str.LF (FormatFullVersion env) = false ->
  Str.mem Str.LF contentType = false ->
  exists stream,
    ReadHTTPStatus
      (istream_of (HTTPReplyHeader env nStatus keepalive contentLength contentType
                   +:+ tail)) proto
    = (nStatus, 1, stream)
    /\ ReadHTTPHeaders stream ∅ =
       (contentLength,
        <["server" := Str.trim (" nodex-json-rpc/" +:+ FormatFullVersion env)]>
          (<["content-type" := Str.trim contentType]>
             (<["content-length" := Str.decimal contentLength]>
                (<["connection" := if keepalive then "keep-alive" else "close"]>
                   (<["date" := Str.trim (" " +:+ rfc1123Time env)]> ∅)))),
        istream_of tail).
Proof.
  intros Hn Hcl Hver Hct. unfold HTTPReplyHeader. rewrite !app_assoc_s.
  eexists. split.
  { apply ReadHTTPStatus_line; [assumption | apply httpStatusDescription_no_LF]. }
  unfold ReadHTTPHeaders.
  set (ka := if keepalive then "keep-alive" else "close").
  assert (Hka : Str.mem Str.LF (" " +:+ ka) = false /\ Str.trim (" " +:+ ka) = ka)
    by (subst ka; destruct keepalive; split; reflexivity).
  destruct Hka as [Hka1 Hka2].
  etransitivity.
  { apply (ReadHTTPHeaders_loop_header "Date" (" " +:+ rfc1123Time env) _ "date");
      try reflexivity.
    simpl. apply rfc1123Time_no_LF. }
  etransitivity.
  { apply (ReadHTTPHeaders_loop_header "Connection" (" " +:+ ka) _ "connection");
      try reflexivity. exact Hka1. }
  etransitivity.
  { apply (ReadHTTPHeaders_loop_header "Content-Length"
             (" " +:+ Str.decimal contentLength) _ "content-length");
      try reflexivity.
    simpl. apply decimal_no_LF. }
  etransitivity.
  { apply (ReadHTTPHeaders_loop_header "Content-Type" (" " +:+ contentType) _
             "content-type"); try reflexivity.
    simpl. exact Hct. }
  etransitivity.
  { apply (ReadHTTPHeaders_loop_header "Server"
             (" nodex-json-rpc/" +:+ FormatFullVersion env) _ "server");
      try reflexivity.
    simpl. exact Hver. }
  etransitivity.
  { exact (ReadHTTPHeaders_loop_line_of EmptyString tail _ _ eq_refl). }
  cbn [Str.empty String.eqb Ascii.eqb Bool.eqb].
  rewrite Hka2, (atoi_trim_decimal contentLength Hcl).
  f_equal. f_equal. f_equal. f_equal.
  - unfold Str.trim. now rewrite (trim_left_trim_right_padding " ") by reflexivity.
  - f_equal. unfold Str.trim.
    rewrite (trim_left_trim_right_padding " ") by reflexivity.
    apply (all_digits_trim _ (decimal_all_digits contentLength)).
Qed.

(** X8. The status line of a reply is read back: [ReadHTTPStatus] on what
    [HTTPReply] writes returns the status code the reply was built with
    and protocol version 1. *)
Theorem ReadHTTPStatus_HTTPReply (env : Env) (nStatus : Z) (strMsg : string)
  (keepalive headersOnly : bool) (contentType rest : string) (proto : Z) :
  0 <= nStatus < 2 ^ 31 ->
  (ReadHTTPStatus
     (istream_of (HTTPReply env nStatus strMsg keepalive headersOnly contentType
                  +:+ rest)) proto).1
  = (nStatus, 1).
Proof.
  intros Hn. unfold HTTPReply, HTTPReplyHeader.
  destruct headersOnly; rewrite !app_assoc_s;
    now rewrite ReadHTTPStatus_line by (auto using httpStatusDescription_no_LF).
Qed.

Lemma ReadHTTPStatus_HTTPReply_witness :
  (ReadHTTPStatus
     (istream_of (HTTPReply (mkEnv 0 "v1") 404 "no such page" true false "text/plain"
                  +:+ "")) 7).1
  = (404, 1).
Proof.
  apply (ReadHTTPStatus_HTTPReply (mkEnv 0 "v1") 404 "no such page" true false
           "text/plain" "" 7).
  lia.
Defined.

Lemma HTTPReply_read (env : Env) (nStatus : Z) (strMsg : string)
  (keepalive headersOnly : bool) (contentType rest : string) (proto : Z)
  (mapHeadersRet : gmap string string) (strMessageRet : string)
  (nProto max_size : Z) :
  0 <= nStatus < 2 ^ 31 ->
  Str.size strMsg < 2 ^ 31 -> Str.size strMsg <= max_size ->
  Str.mem Str.LF (FormatFullVersion env) = false ->
  Str.mem Str.LF contentType = false ->
  exists stream hdrs st',
    ReadHTTPStatus
      (istream_of (HTTPReply env nStatus strMsg keepalive headersOnly contentType
                   +:+ rest)) proto
    = (nStatus, 1, stream)
    /\ ReadHTTPMessage stream mapHeadersRet strMessageRet nProto max_size
       = (HTTP_OK, hdrs, (if headersOnly then EmptyString else strMsg), st')
    /\ hdrs !! "connection" = Some (if keepalive then "keep-alive" else "close")
    /\ hdrs !! "content-type" = Some (Str.trim contentType)
    /\ hdrs !! "content-length"
       = Some (Str.decimal (if headersOnly then 0 else Str.size strMsg))
    /\ rdbuf st' = rest.
Proof.
  intros Hn Hint Hmax Hver Hct.
  assert (Hpos : 0 <= Str.size strMsg) by (unfold Str.size; lia).
  set (body := if headersOnly then EmptyString else strMsg).
  set (cl := if headersOnly then 0 else Str.size strMsg).
  assert (Hcl : cl = Str.size body) by (subst cl body; now destruct headersOnly).
  assert (Hcl2 : 0 <= cl < 2 ^ 31 /\ cl <= max_size)
    by (subst cl; destruct headersOnly; lia).
  assert (Htext : HTTPReply env nStatus strMsg keepalive headersOnly contentType +:+ rest
                  = HTTPReplyHeader env nStatus keepalive cl contentType
                    +:+ (body +:+ rest)).
  { unfold HTTPReply. subst cl body. destruct headersOnly; [reflexivity|].
    now rewrite app_assoc_s. }
  rewrite Htext.
  destruct (HTTPReplyHeader_read env nStatus keepalive cl contentType (body +:+ rest)
              proto Hn (proj1 Hcl2) Hver Hct) as (stream & Hstatus & Hheaders).
  destruct (ReadHTTPMessage_complete stream mapHeadersRet strMessageRet nProto max_size
              cl _ _ Hheaders)
    as (st' & log & Hmsg & _ & Hrest & _).
  { lia. }
  { cbn [rdbuf istream_of]. rewrite Hcl. unfold Str.size.
    rewrite length_app_s. lia. }
  cbn [rdbuf istream_of] in Hmsg, Hrest.
  replace (Z.to_nat cl) with (String.length body) in Hmsg, Hrest
    by (rewrite Hcl; unfold Str.size; lia).
  rewrite take_app in Hmsg. rewrite drop_app in Hrest.
  erewrite normalize_connection_exact in Hmsg.
  2:{ rewrite !lookup_insert_ne by discriminate. apply lookup_insert_eq. }
  2:{ destruct keepalive; auto. }
  eexists stream, _, st'. split; [exact Hstatus|]. split; [exact Hmsg|].
  repeat split. exact Hrest.
Qed.

(** X9. A reply is read back whole: after the status line,
    [ReadHTTPMessage] on what [HTTPReply] writes returns [HTTP_OK] and the
    message the reply was built with (no byte at all when the reply is
    headers-only); the [connection] entry is the keep-alive flag, the
    [content-type] entry is the content type, and whatever follows the
    reply is left in the stream. *)
Theorem HTTPReply_roundtrip (env : Env) (nStatus : Z) (strMsg : string)
  (keepalive headersOnly : bool) (contentType rest : string) (proto : Z)
  (mapHeadersRet : gmap string string) (strMessageRet : string)
  (nProto max_size : Z) :
  0 <= nStatus < 2 ^ 31 ->
  Str.size strMsg < 2 ^ 31 -> Str.size strMsg <= max_size ->
  Str.mem Str.LF (FormatFullVersion env) = false ->
  Str.mem Str.LF contentType = false ->
  exists stream hdrs st',
    ReadHTTPStatus
      (istream_of (HTTPReply env nStatus strMsg keepalive headersOnly contentType
                   +:+ rest)) proto
    = (nStatus, 1, stream)
    /\ ReadHTTPMessage stream mapHeadersRet strMessageRet nProto max_size
       = (HTTP_OK, hdrs, (if headersOnly then EmptyString else strMsg), st')
    /\ hdrs !! "connection" = Some (if keepalive then "keep-alive" else "close")
    /\ hdrs !! "content-type" = Some (Str.trim contentType)
    /\ hdrs !! "content-length"
       = Some (Str.decimal (if headersOnly then 0 else Str.size strMsg))
    /\ rdbuf st' = rest.
Proof. apply HTTPReply_read. Qed.

Lemma HTTPReply_roundtrip_witness :
  exists stream hdrs st',
    ReadHTTPStatus
      (istream_of (HTTPReply (mkEnv 0 "v1") 200 "abc" false false "text/plain"
                   +:+ "HTTP/1.1 200 OK")) 7
    = (200, 1, stream)
    /\ ReadHTTPMessage stream ∅ "" 0 100
       = (HTTP_OK, hdrs, (if false then EmptyString else "abc"), st')
    /\ hdrs !! "connection" = Some (if false then "keep-alive" else "close")
    /\ hdrs !! "content-type" = Some (Str.trim "text/plain")
    /\ hdrs !! "content-length"
       = Some (Str.decimal (if false then 0 else Str.size "abc"))
    /\ rdbuf st' = "HTTP/1.1 200 OK".
Proof.
  apply (HTTPReply_roundtrip (mkEnv 0 "v1") 200 "abc" false false "text/plain"
           "HTTP/1.1 200 OK" 7 ∅ "" 0 100).
  - lia.
  - reflexivity.
  - vm_compute. discriminate.
  - reflexivity.
  - reflexivity.
Defined.

(** ** Error replies read back *)

Lemma httpStatusDescription_size (nStatus : Z) :
  0 <= Str.size (httpStatusDescription nStatus) <= 21.
Proof.
  unfold httpStatusDescription.
  repeat match goal with |- context [if ?b then _ else _] => destruct b end;
    vm_compute; split; discriminate.
Qed.

(** X10. An error reply other than the 401 one is read back whole: the
    status line gives the status code and version 1, and
    [ReadHTTPMessage] returns [HTTP_OK] with the reason phrase as the
    message (nothing when headers-only), content type [text/plain] and
    the [connection] entry of the keep-alive flag. *)
Theorem HTTPError_roundtrip (env : Env) (nStatus : Z) (keepalive headersOnly : bool)
  (rest : string) (proto : Z) (mapHeadersRet : gmap string string)
  (strMessageRet : string) (nProto max_size : Z) :
  0 <= nStatus < 2 ^ 31 -> nStatus <> HTTP_UNAUTHORIZED ->
  21 <= max_size ->
  Str.mem Str.LF (FormatFullVersion env) = false ->
  exists stream hdrs st',
    ReadHTTPStatus (istream_of (HTTPError env nStatus keepalive headersOnly +:+ rest))
      proto
    = (nStatus, 1, stream)
    /\ ReadHTTPMessage stream mapHeadersRet strMessageRet nProto max_size
       = (HTTP_OK, hdrs,
          (if headersOnly then EmptyString else httpStatusDescription nStatus), st')
    /\ hdrs !! "connection" = Some (if keepalive then "keep-alive" else "close")
    /\ hdrs !! "content-type" = Some "text/plain"
    /\ rdbuf st' = rest.
Proof.
  intros Hn Hne Hmax Hver. unfold HTTPError.
  destruct (Z.eqb_spec nStatus HTTP_UNAUTHORIZED) as [|_]; [contradiction|].
  pose proof (httpStatusDescription_size nStatus) as Hsz.
  destruct (HTTPReply_read env nStatus (httpStatusDescription nStatus) keepalive
              headersOnly "text/plain" rest proto mapHeadersRet strMessageRet
              nProto max_size Hn ltac:(lia) ltac:(lia) Hver eq_refl)
    as (stream & hdrs & st' & H1 & H2 & H3 & H4 & _ & H5).
  exists stream, hdrs, st'. auto.
Qed.

Lemma HTTPError_roundtrip_witness :
  exists stream hdrs st',
    ReadHTTPStatus (istream_of (HTTPError (mkEnv 0 "v1") 404 true false +:+ "")) 7
    = (404, 1, stream)
    /\ ReadHTTPMessage stream ∅ "" 0 100
       = (HTTP_OK, hdrs,
          (if false then EmptyString else httpStatusDescription 404), st')
    /\ hdrs !! "connection" = Some (if true then "keep-alive" else "close")
    /\ hdrs !! "content-type" = Some "text/plain"
    /\ rdbuf st' = "".
Proof.
  apply (HTTPError_roundtrip (mkEnv 0 "v1") 404 true false "" 7 ∅ "" 0 100).
  - lia.
  - discriminate.
  - lia.
  - reflexivity.
Defined.

Lemma ReadHTTPStatus_unauthorized_line (rest : string) (proto : Z) :
  ReadHTTPStatus
    (istream_of ("HTTP/1.0 401 Authorization Required" +:+ nl +:+ rest)) proto
  = (HTTP_UNAUTHORIZED, 0, istream_of rest).
Proof.
  unfold ReadHTTPStatus.
  rewrite (getline_line
             (istream_of ("HTTP/1.0 401 Authorization Required" +:+ nl +:+ rest))
             "HTTP/1.0 401 Authorization Required" rest eq_refl eq_refl eq_refl).
  reflexivity.
Qed.

(** X11. The 401 reply cannot be read back: its status line gives 401 and
    version 0, but it announces 296 bytes and carries 287, so
    [ReadHTTPMessage] on it returns [HTTP_INTERNAL_SERVER_ERROR] with an
    empty message, whatever the maximum size. *)
Theorem HTTPError_unauthorized_unreadable (env : Env) (keepalive headersOnly : bool)
  (proto : Z) (mapHeadersRet : gmap string string) (strMessageRet : string)
  (nProto max_size : Z) :
  Str.mem Str.LF (FormatFullVersion env) = false ->
  exists stream hdrs st',
    ReadHTTPStatus (istream_of (HTTPError env HTTP_UNAUTHORIZED keepalive headersOnly))
      proto
    = (HTTP_UNAUTHORIZED, 0, stream)
    /\ ReadHTTPMessage stream mapHeadersRet strMessageRet nProto max_size
       = (HTTP_INTERNAL_SERVER_ERROR, hdrs, EmptyString, st')
    /\ hdrs !! "content-length" = Some "296"
    /\ rdbuf (ReadHTTPHeaders stream ∅).2 = unauthorized_body
    /\ Str.size unauthorized_body = 287.
Proof.
  intros Hver. unfold HTTPError.
  change (HTTP_UNAUTHORIZED =? HTTP_UNAUTHORIZED) with true. cbv iota.
  assert (Hheaders :
            exists m,
              ReadHTTPHeaders
                (istream_of
                   ("Date: " +:+ rfc1123Time env +:+ nl
                    +:+ "Server: nodex-json-rpc/" +:+ FormatFullVersion env +:+ nl
                    +:+ "WWW-Authenticate: Basic realm=" +:+ dq +:+ "jsonrpc" +:+ dq +:+ nl
                    +:+ "Content-Type: text/html" +:+ nl
                    +:+ "Content-Length: 296" +:+ nl
                    +:+ nl
                    +:+ unauthorized_body)) ∅
              = (296, m, istream_of unauthorized_body)
              /\ m !! "content-length" = Some "296").
  { unfold ReadHTTPHeaders. eexists. split.
    - etransitivity.
      { apply (ReadHTTPHeaders_loop_header "Date" (" " +:+ rfc1123Time env) _ "date");
          try reflexivity.
        simpl. apply rfc1123Time_no_LF. }
      etransitivity.
      { apply (ReadHTTPHeaders_loop_header "Server"
                 (" nodex-json-rpc/" +:+ FormatFullVersion env) _ "server");
          try reflexivity.
        simpl. exact Hver. }
      etransitivity.
      { apply (ReadHTTPHeaders_loop_header "WWW-Authenticate"
                 (" Basic realm=" +:+ dq +:+ "jsonrpc" +:+ dq) _ "www-authenticate");
          reflexivity. }
      etransitivity.
      { apply (ReadHTTPHeaders_loop_header "Content-Type" " text/html" _ "content-type");
          reflexivity. }
      etransitivity.
      { apply (ReadHTTPHeaders_loop_header "Content-Length" " 296" _ "content-length");
          reflexivity. }
      exact (ReadHTTPHeaders_loop_line_of EmptyString unauthorized_body _ _ eq_refl).
    - reflexivity. }
  destruct Hheaders as (m & Hheaders & Hcl).
  destruct (ReadHTTPMessage_refuses _ mapHeadersRet strMessageRet nProto max_size
              296 m (istream_of unauthorized_body) Hheaders) as [st' Hmsg].
  { right. right. reflexivity. }
  eexists _, m, st'. split; [apply ReadHTTPStatus_unauthorized_line|].
  split; [exact Hmsg|]. split; [exact Hcl|]. split; [|reflexivity].
  now rewrite Hheaders.
Qed.

Lemma HTTPError_unauthorized_unreadable_witness :
  exists stream hdrs st',
    ReadHTTPStatus (istream_of (HTTPError (mkEnv 0 "v1") HTTP_UNAUTHORIZED true false)) 7
    = (HTTP_UNAUTHORIZED, 0, stream)
    /\ ReadHTTPMessage stream ∅ "" 0 100000
       = (HTTP_INTERNAL_SERVER_ERROR, hdrs, EmptyString, st')
    /\ hdrs !! "content-length" = Some "296"
    /\ rdbuf (ReadHTTPHeaders stream ∅).2 = unauthorized_body
    /\ Str.size unauthorized_body = 287.
Proof.
  apply (HTTPError_unauthorized_unreadable (mkEnv 0 "v1") true false 7 ∅ "" 0 100000).
  reflexivity.
Defined.

(** ** JSON-RPC replies *)

(** X12. The text of a reply whose error is not null does not depend on
    the result passed. *)
Theorem JSONRPCReply_error_hides_result (write_real : spec_float -> string)
  (result1 result2 error id : Value) :
  type error <> null_type ->
  JSONRPCReply write_real result1 error id = JSONRPCReply write_real result2 error id.
Proof.
  intros H. unfold JSONRPCReply, JSONRPCReplyObj.
  destruct error; try reflexivity. now contradiction H.
Qed.

Lemma JSONRPCReply_error_hides_result_witness :
  JSONRPCReply (fun _ => EmptyString) (int_v 3) (str_v "failed") (int_v 1)
  = JSONRPCReply (fun _ => EmptyString) (str_v "secret") (str_v "failed") (int_v 1).
Proof.
  apply (JSONRPCReply_error_hides_result (fun _ => EmptyString)
           (int_v 3) (str_v "secret") (str_v "failed") (int_v 1)).
  discriminate.
Defined.

(** An error object built by [JSONRPCError] holds the code and the
    message under [code] and [message], in that order, and a reply built
    with it has a null result whatever result is passed. *)
Theorem JSONRPCError_reply (code : Z) (message : string) (result id : Value) :
  JSONRPCError code message = [("code", int_v code); ("message", str_v message)]
  /\ find_value (JSONRPCError code message) "code" = Some (int_v code)
  /\ find_value (JSONRPCError code message) "message" = Some (str_v message)
  /\ JSONRPCReplyObj result (obj_v (JSONRPCError code message)) id
     = [("result", null_v); ("error", obj_v (JSONRPCError code message)); ("id", id)].
Proof. repeat split. Qed.

(** ** Request lines on the wire *)

Lemma request_line_shape (m p t r : string) :
  m +:+ " /" +:+ p +:+ " HTTP/1." +:+ t +:+ r
  = (m +:+ String " " (String "/" p +:+ String " " ("HTTP/1." +:+ t))) +:+ r.
Proof.
  rewrite app_assoc_s. f_equal. cbn [String.append]. f_equal. f_equal.
  rewrite app_assoc_s. cbn [String.append]. reflexivity.
Qed.

Lemma ReadHTTPRequestLine_three (http_method path d rest : string) (v : Z)
  (proto0 : Z) (method0 uri0 : string) :
  http_method = "GET" \/ http_method = "POST" ->
  Str.mem " " path = false -> Str.mem Str.LF path = false ->
  all_chars Str.isdigit d = true -> Str.atoi d = v ->
  ReadHTTPRequestLine
    (istream_of (http_method +:+ " /" +:+ path +:+ " HTTP/1." +:+ d +:+ nl +:+ rest))
    proto0 method0 uri0
  = (true, v, http_method, String "/" path, istream_of rest).
Proof.
  intros Hm Hsp Hlf Hd Hat.
  assert (Hver : match Str.strstr (Str.c_str ("HTTP/1." +:+ d)) "HTTP/1." with
                 | Some ver => Str.atoi (Str.drop 7 ver)
                 | None => 0
                 end = v).
  { change (Str.c_str ("HTTP/1." +:+ d)) with ("HTTP/1." +:+ Str.c_str d).
    rewrite (all_digits_c_str _ Hd), strstr_at_head by reflexivity.
    exact Hat. }
  assert (Htok : Str.mem " " ("HTTP/1." +:+ d) = false)
    by (rewrite mem_app, (all_digits_no_space _ Hd); reflexivity).
  assert (Hmsp : Str.mem " " http_method = false /\ Str.mem Str.LF http_method = false)
    by (destruct Hm as [-> | ->]; split; reflexivity).
  destruct Hmsp as [Hmsp Hmlf].
  unfold ReadHTTPRequestLine. rewrite request_line_shape.
  rewrite (getline_line
             (istream_of ((http_method +:+ String " "
                             (String "/" path +:+ String " " ("HTTP/1." +:+ d)))
                          +:+ nl +:+ rest))
             (http_method +:+ String " "
                (String "/" path +:+ String " " ("HTTP/1." +:+ d)))
             rest eq_refl).
  2:{ rewrite mem_app. cbn [Str.mem]. rewrite mem_app. cbn [Str.mem].
      rewrite Hmlf, Hlf, mem_app, (all_digits_no_LF _ Hd). reflexivity. }
  2:{ reflexivity. }
  rewrite (split_cons http_method) by exact Hmsp.
  rewrite (split_cons (String "/" path)) by (cbn [Str.mem]; rewrite Hsp; reflexivity).
  rewrite split_one by exact Htok.
  cbn [length Nat.ltb Nat.leb nth].
  change (Str.size (String "/" path) =? 0) with false.
  rewrite Hver.
  destruct Hm as [-> | ->]; reflexivity.
Qed.

(** X13. A request line [METHOD /path HTTP/1.v] with method [GET] or
    [POST] and a path without blanks is accepted: [ReadHTTPRequestLine]
    hands back the method, the path and the version [v], and leaves the
    stream right after the line. *)
Theorem ReadHTTPRequestLine_wire (http_method path rest : string) (v : Z)
  (proto0 : Z) (method0 uri0 : string) :
  http_method = "GET" \/ http_method = "POST" ->
  Str.mem " " path = false -> Str.mem Str.LF path = false ->
  0 <= v < 2 ^ 31 ->
  ReadHTTPRequestLine
    (istream_of (http_method +:+ " /" +:+ path +:+ " HTTP/1." +:+ Str.decimal v
                 +:+ nl +:+ rest)) proto0 method0 uri0
  = (true, v, http_method, String "/" path, istream_of rest).
Proof.
  intros Hm Hsp Hlf Hv.
  pose proof (decimal_all_digits v) as Hd.
  pose proof (atoi_decimal v Hv) as Hat.
  generalize dependent (Str.decimal v). intros d Hd Hat.
  apply (ReadHTTPRequestLine_three http_method path d rest v proto0 method0 uri0);
    assumption.
Qed.

Lemma ReadHTTPRequestLine_wire_witness :
  ReadHTTPRequestLine
    (istream_of ("GET" +:+ " /" +:+ "rest/tx?id=1" +:+ " HTTP/1." +:+ Str.decimal 10
                 +:+ nl +:+ "Host: x")) 7 "" ""
  = (true, 10, "GET", String "/" "rest/tx?id=1", istream_of "Host: x").
Proof.
  apply (ReadHTTPRequestLine_wire "GET" "rest/tx?id=1" "Host: x" 10 7 "" "");
    try reflexivity.
  - now left.
  - lia.
Defined.

(** ** Posted requests *)

(** X14. Any message rendered by [HTTPPost] is framed by its size: read
    back after the request line, it is recovered whole when it fits the
    maximum, and refused with [HTTP_INTERNAL_SERVER_ERROR] and an empty
    message when it does not. *)
Theorem HTTPPost_framing (env : Env) (strMsg : string)
  (mapRequestHeaders : list (string * string)) (max_size proto : Z)
  (http_method http_uri : string) (mapHeadersRet : gmap string string)
  (strMessageRet : string) :
  Str.mem Str.LF (FormatFullVersion env) = false ->
  Forall plain_header mapRequestHeaders ->
  Str.size strMsg < 2 ^ 31 ->
  exists stream hdrs st',
    ReadHTTPRequestLine (istream_of (HTTPPost env strMsg mapRequestHeaders))
      proto http_method http_uri = (true, 1, "POST", "/", stream)
    /\ (Str.size strMsg <= max_size ->
        ReadHTTPMessage stream mapHeadersRet strMessageRet 1 max_size
        = (HTTP_OK, normalize_connection hdrs 1, strMsg, st')
        /\ rdbuf st' = EmptyString)
    /\ (max_size < Str.size strMsg ->
        ReadHTTPMessage stream mapHeadersRet strMessageRet 1 max_size
        = (HTTP_INTERNAL_SERVER_ERROR, hdrs, EmptyString, istream_of strMsg)).
Proof.
  intros Hver Hhdrs Hint.
  destruct (HTTPPost_headers env strMsg mapRequestHeaders proto http_method http_uri
              Hver Hhdrs Hint) as (stream & m' & Hline & Hheaders).
  assert (Hpos : 0 <= Str.size strMsg) by (unfold Str.size; lia).
  destruct (Z.le_gt_cases (Str.size strMsg) max_size) as [Hfit|Hbig].
  - destruct (ReadHTTPMessage_complete stream mapHeadersRet strMessageRet 1 max_size
                (Str.size strMsg) m' (istream_of strMsg) Hheaders
                ltac:(lia) ltac:(cbn [rdbuf istream_of]; lia))
      as (st' & log & Hmsg & _ & Hbuf & _).
    cbn [rdbuf istream_of] in Hmsg, Hbuf.
    unfold Str.size in Hmsg, Hbuf. rewrite Nat2Z.id in Hmsg, Hbuf.
    rewrite take_all in Hmsg. rewrite drop_all in Hbuf.
    exists stream, m', st'. split; [exact Hline|]. split; [auto | intros; lia].
  - exists stream, m', (istream_of strMsg). split; [exact Hline|].
    split; [intros; lia|]. intros _.
    unfold ReadHTTPMessage. rewrite Hheaders.
    unfold size_t_of_int. rewrite Z.mod_small by lia.
    destruct (Z.ltb_spec (Str.size strMsg) 0); [lia|].
    destruct (Z.ltb_spec max_size (Str.size strMsg)); [reflexivity|lia].
Qed.

Lemma HTTPPost_framing_witness :
  exists stream hdrs st',
    ReadHTTPRequestLine (istream_of (HTTPPost (mkEnv 0 "v1") "{}" [("X-Trace", "1")]))
      7 "" "" = (true, 1, "POST", "/", stream)
    /\ (Str.size "{}" <= 1 ->
        ReadHTTPMessage stream ∅ "" 1 1
        = (HTTP_OK, normalize_connection hdrs 1, "{}", st')
        /\ rdbuf st' = EmptyString)
    /\ (1 < Str.size "{}" ->
        ReadHTTPMessage stream ∅ "" 1 1
        = (HTTP_INTERNAL_SERVER_ERROR, hdrs, EmptyString, istream_of "{}")).
Proof.
  apply (HTTPPost_framing (mkEnv 0 "v1") "{}" [("X-Trace", "1")] 1 7 "" "" ∅ "").
  - reflexivity.
  - repeat constructor. discriminate.
  - reflexivity.
Defined.

(** The lines [HTTPPost] writes between the request line and the blank
    line. *)
Lemma HTTPPost_lines (env : Env) (strMsg : string)
  (mapRequestHeaders : list (string * string)) :
  HTTPPost env strMsg mapRequestHeaders
  = "POST / HTTP/1.1" +:+ nl
    +:+ lines_text
          (["User-Agent: nodex-json-rpc/" +:+ FormatFullVersion env;
            "Host: 127.0.0.1";
            "Content-Type: application/json";
            "Content-Length: " +:+ Str.decimal (Str.size strMsg);
            "Connection: close";
            "Accept: application/json"]
           ++ map (fun item => item.1 +:+ String ":" (" " +:+ item.2)) mapRequestHeaders)
    +:+ nl +:+ strMsg.
Proof.
  assert (Htail : fold_right (fun item s => item.1 +:+ ": " +:+ item.2 +:+ nl +:+ s)
                    (nl +:+ strMsg) mapRequestHeaders
                  = lines_text
                      (map (fun item => item.1 +:+ String ":" (" " +:+ item.2))
                         mapRequestHeaders) +:+ nl +:+ strMsg).
  { induction mapRequestHeaders as [|[k v] hs IH]; [reflexivity|].
    cbn [fold_right map fst snd]. rewrite lines_text_cons_app, <- IH.
    rewrite !app_assoc_s. reflexivity. }
  unfold HTTPPost. rewrite Htail. cbn [app]. rewrite !lines_text_cons_app.
  rewrite !app_assoc_s. reflexivity.
Qed.

(** X15. The last request header the caller gives to [HTTPPost] is the
    one the reader sees under its canonical name, over the headers
    [HTTPPost] writes itself and any earlier header of the caller; named
    [Content-Length], its value replaces the size of the message as the
    declared length. *)
Theorem HTTPPost_last_header (env : Env) (strMsg : string)
  (pre : list (string * string)) (k v : string) (proto : Z)
  (http_method http_uri : string) :
  Str.mem Str.LF (FormatFullVersion env) = false ->
  Forall (fun item => Str.mem Str.LF item.1 = false /\ Str.mem Str.LF item.2 = false)
    pre ->
  Str.mem ":" k = false -> Str.mem Str.LF k = false -> Str.mem Str.LF v = false ->
  exists stream,
    ReadHTTPRequestLine (istream_of (HTTPPost env strMsg (pre ++ [(k, v)])))
      proto http_method http_uri = (true, 1, "POST", "/", stream)
    /\ (ReadHTTPHeaders stream ∅).1.2 !! Str.to_lower (Str.trim k) = Some (Str.trim v)
    /\ (Str.to_lower (Str.trim k) = "content-length" ->
        (ReadHTTPHeaders stream ∅).1.1 = Str.atoi (Str.c_str (Str.trim v)))
    /\ (ReadHTTPHeaders stream ∅).2 = istream_of strMsg.
Proof.
  intros Hver Hpre Hc Hl Hv. rewrite HTTPPost_lines.
  eexists. split; [apply ReadHTTPRequestLine_POST|].
  unfold ReadHTTPHeaders. rewrite ReadHTTPHeaders_loop_lines.
  2:{ apply Forall_app. split.
      - repeat constructor.
        rewrite mem_app. cbn [Str.mem]. rewrite Hver. reflexivity.
        rewrite mem_app. apply orb_false_iff. split; [reflexivity|apply decimal_no_LF].
      - rewrite map_app. apply Forall_app. split.
        + apply Forall_map. eapply Forall_impl; [exact Hpre|].
          intros [a b] [Ha Hb]. cbn [fst snd] in *. split.
          * rewrite mem_app. simpl. rewrite Ha, Hb. reflexivity.
          * now destruct a.
        + repeat constructor.
          * cbn [fst snd]. rewrite mem_app. simpl. rewrite Hl, Hv. reflexivity.
          * now destruct k. }
  cbn [fst snd]. rewrite map_app, app_assoc, header_lines_app.
  cbn [map fst snd]. rewrite header_lines_one, header_line_colon by assumption.
  cbn [fst snd].
  assert (Htrim : Str.trim (" " +:+ v) = Str.trim v)
    by (unfold Str.trim; now rewrite (trim_left_trim_right_padding " ") by reflexivity).
  rewrite Htrim. split; [apply lookup_insert_eq|]. split; [|reflexivity].
  intros ->. reflexivity.
Qed.

Lemma HTTPPost_last_header_witness :
  exists stream,
    ReadHTTPRequestLine
      (istream_of (HTTPPost (mkEnv 0 "v1") "{}" ([("Accept", "*/*")] ++ [("content-length", "1")])))
      7 "" "" = (true, 1, "POST", "/", stream)
    /\ (ReadHTTPHeaders stream ∅).1.2 !! Str.to_lower (Str.trim "content-length")
       = Some (Str.trim "1")
    /\ (Str.to_lower (Str.trim "content-length") = "content-length" ->
        (ReadHTTPHeaders stream ∅).1.1 = Str.atoi (Str.c_str (Str.trim "1")))
    /\ (ReadHTTPHeaders stream ∅).2 = istream_of "{}".
Proof.
  apply (HTTPPost_last_header (mkEnv 0 "v1") "{}" [("Accept", "*/*")]
           "content-length" "1" 7 "" ""); try reflexivity.
  repeat constructor.
Defined.

(** ** Header blocks cut short *)

Lemma ReadHTTPHeaders_loop_last_line (l : string) (m : gmap string string) (n : Z) :
  header_line_ok l ->
  ReadHTTPHeaders_loop (istream_of l) m n =
  ((header_line l m n).2, (header_line l m n).1, mkIstream EmptyString true true []).
Proof.
  intros [Hl He]. rewrite ReadHTTPHeaders_loop_step. unfold getline.
  cbn [good istream_of eofbit failbit rdbuf negb andb]. rewrite (break_line_None l Hl).
  cbn [fst snd read_log]. rewrite He.
  rewrite ReadHTTPHeaders_loop_not_good by reflexivity. reflexivity.
Qed.

Lemma ReadHTTPHeaders_loop_truncated (ls : list string) (l : string) :
  Forall header_line_ok ls -> header_line_ok l ->
  forall (m : gmap string string) (n : Z),
    ReadHTTPHeaders_loop (istream_of (lines_text ls +:+ l)) m n =
    ((header_lines (ls ++ [l]) m n).2, (header_lines (ls ++ [l]) m n).1,
     mkIstream EmptyString true true []).
Proof.
  intros Hls Hl. induction Hls as [|l0 ls [Hl0 He0] Hls IH]; intros m n.
  - cbn [lines_text app]. rewrite app_nil_l_s, header_lines_one.
    now apply ReadHTTPHeaders_loop_last_line.
  - rewrite lines_text_cons_app, (ReadHTTPHeaders_loop_line_of _ _ _ _ Hl0), He0, IH.
    cbn [app]. now rewrite header_lines_cons.
Qed.

(** X16. A header block cut off before its blank line is not reported:
    the lines received are collected, the last unfinished one included,
    and when they declare no body [ReadHTTPMessage] returns [HTTP_OK] with
    an empty message, on a stream left failed. *)
Theorem ReadHTTPMessage_truncated_headers (ls : list string) (l : string)
  (m0 : gmap string string) (msg0 : string) (nProto max_size : Z) :
  Forall header_line_ok ls -> header_line_ok l ->
  (header_lines (ls ++ [l]) ∅ 0).2 = 0 ->
  0 <= max_size ->
  ReadHTTPHeaders (istream_of (lines_text ls +:+ l)) ∅
  = (0, (header_lines (ls ++ [l]) ∅ 0).1, mkIstream EmptyString true true [])
  /\ ReadHTTPMessage (istream_of (lines_text ls +:+ l)) m0 msg0 nProto max_size
     = (HTTP_OK, normalize_connection (header_lines (ls ++ [l]) ∅ 0).1 nProto,
        EmptyString, mkIstream EmptyString true true []).
Proof.
  intros Hls Hl Hzero Hmax.
  assert (Hheaders : ReadHTTPHeaders (istream_of (lines_text ls +:+ l)) ∅
                     = (0, (header_lines (ls ++ [l]) ∅ 0).1,
                        mkIstream EmptyString true true [])).
  { unfold ReadHTTPHeaders. rewrite (ReadHTTPHeaders_loop_truncated ls l Hls Hl).
    now rewrite Hzero. }
  split; [exact Hheaders|].
  unfold ReadHTTPMessage. rewrite Hheaders.
  change (size_t_of_int 0) with 0.
  destruct (Z.ltb_spec max_size 0); [lia|]. cbn [Z.ltb Z.compare orb].
  unfold normalize_connection.
  now destruct (map_index _ "connection").
Qed.

Lemma ReadHTTPMessage_truncated_headers_witness :
  ReadHTTPHeaders (istream_of (lines_text ["Host: x"] +:+ "Accept: text/pl")) ∅
  = (0, (header_lines (["Host: x"] ++ ["Accept: text/pl"]) ∅ 0).1,
     mkIstream EmptyString true true [])
  /\ ReadHTTPMessage (istream_of (lines_text ["Host: x"] +:+ "Accept: text/pl")) ∅ "" 1 100
     = (HTTP_OK,
        normalize_connection (header_lines (["Host: x"] ++ ["Accept: text/pl"]) ∅ 0).1 1,
        EmptyString, mkIstream EmptyString true true []).
Proof.
  apply (ReadHTTPMessage_truncated_headers ["Host: x"] "Accept: text/pl" ∅ "" 1 100).
  - repeat constructor.
  - split; reflexivity.
  - reflexivity.
  - lia.
Defined.

(** ** The unauthorized response, byte for byte *)

Lemma app_inv_head_s (a x y : string) : a +:+ x = a +:+ y -> x = y.
Proof. induction a as [|c a IH]; simpl; [auto|]. intros [= H]. auto. Qed.

Lemma app_inj_length (a b x y : string) :
  String.length a = String.length b -> a +:+ x = b +:+ y -> a = b /\ x = y.
Proof.
  revert b. induction a as [|c a IH]; intros [|d b]; simpl; try discriminate.
  - auto.
  - intros [= Hlen] [= -> H]. destruct (IH b Hlen H) as [-> ->]. auto.
Qed.

Lemma app_cancel_r (a b t : string) : a +:+ t = b +:+ t -> a = b.
Proof.
  intros H. apply (app_inj_length a b t t); [|exact H].
  apply (f_equal String.length) in H. rewrite !length_app_s in H. lia.
Qed.

(** Two texts that agree agree on their first line. *)
Lemma first_line_inj (a b x y : string) :
  Str.mem Str.LF a = false -> Str.mem Str.LF b = false ->
  a +:+ nl +:+ x = b +:+ nl +:+ y -> a = b /\ x = y.
Proof.
  intros Ha Hb H.
  pose proof (break_line_app a x Ha) as H1.
  pose proof (break_line_app b y Hb) as H2.
  change (a +:+ String Str.LF x) with (a +:+ nl +:+ x) in H1.
  change (b +:+ String Str.LF y) with (b +:+ nl +:+ y) in H2.
  rewrite H in H1. rewrite H1 in H2. injection H2 as -> ->. auto.
Qed.

(** C1, as amended. The 401 response does not depend on the keep-alive
    and headers-only flags.  It is not a fixed text: after the status
    line it carries the [Date] text of the call and the version string of
    the build, and two calls return the same bytes exactly when they see
    the same [Date] text and the same version string. *)
Theorem HTTPError_unauthorized_flags (env1 env2 : Env)
  (keepalive1 headersOnly1 keepalive2 headersOnly2 : bool) :
  (HTTPError env1 HTTP_UNAUTHORIZED keepalive1 headersOnly1
   = HTTPError env2 HTTP_UNAUTHORIZED keepalive2 headersOnly2
   <-> rfc1123Time env1 = rfc1123Time env2
       /\ FormatFullVersion env1 = FormatFullVersion env2)
  /\ HTTPError env1 HTTP_UNAUTHORIZED keepalive1 headersOnly1
     = HTTPError env1 HTTP_UNAUTHORIZED keepalive2 headersOnly2
  /\ exists rest,
       HTTPError env1 HTTP_UNAUTHORIZED keepalive1 headersOnly1
       = "HTTP/1.0 401 Authorization Required" +:+ nl
         +:+ "Date: " +:+ rfc1123Time env1 +:+ nl
         +:+ "Server: nodex-json-rpc/" +:+ FormatFullVersion env1 +:+ nl
         +:+ rest.
Proof.
  unfold HTTPError. change (HTTP_UNAUTHORIZED =? HTTP_UNAUTHORIZED) with true.
  cbv iota. split; [|split; [reflexivity | eexists; reflexivity]].
  split.
  - intros H. do 3 apply app_inv_head_s in H.
    apply first_line_inj in H; try apply rfc1123Time_no_LF.
    destruct H as [Ht H]. split; [exact Ht|].
    apply app_inv_head_s in H. now apply app_cancel_r in H.
  - intros [-> ->]. reflexivity.
Qed.

Lemma HTTPError_unauthorized_flags_witness :
  HTTPError (mkEnv 1793595600 "v1.0.0") HTTP_UNAUTHORIZED true false =
  HTTPError (mkEnv 1793595600 "v1.0.0") HTTP_UNAUTHORIZED false true.
Proof.
  apply (proj2 (proj1 (HTTPError_unauthorized_flags (mkEnv 1793595600 "v1.0.0")
                         (mkEnv 1793595600 "v1.0.0") true false false true))).
  split; reflexivity.
Defined.

(** ** The protocol version of a request line *)

Lemma is_prefix_self_app (needle post : string) :
  Str.is_prefix needle (needle +:+ post) = true.
Proof.
  induction needle as [|c needle IH]; simpl; [reflexivity|].
  now rewrite Ascii.eqb_refl, IH.
Qed.

(** [strstr] finds the first occurrence. *)
Lemma strstr_first (needle pre post hay : string) :
  first_occurrence needle pre post hay ->
  Str.strstr hay needle = Some (needle +:+ post).
Proof.
  revert hay. induction pre as [|c pre IH]; intros hay [-> Hmin].
  - exact (strstr_at_head (needle +:+ post) needle (is_prefix_self_app needle post)).
  - cbn [String.append Str.strstr].
    destruct (Str.is_prefix needle (String c (pre +:+ needle +:+ post))) eqn:E.
    + destruct (is_prefix_app _ _ E) as [post' Hpost'].
      specialize (Hmin EmptyString post' Hpost'). simpl in Hmin. lia.
    + apply IH. split; [reflexivity|].
      intros pre' post' H'.
      specialize (Hmin (String c pre') post'). simpl in Hmin.
      rewrite H' in Hmin. specialize (Hmin eq_refl). lia.
Qed.

Lemma strstr_Some (needle hay suf : string) :
  Str.strstr hay needle = Some suf ->
  exists pre post, first_occurrence needle pre post hay /\ suf = needle +:+ post.
Proof.
  revert suf. induction hay as [|c hay IH]; intros suf; simpl.
  - destruct (Str.is_prefix needle EmptyString) eqn:E; [|discriminate].
    intros [= <-]. destruct (is_prefix_app _ _ E) as [post Hpost].
    exists EmptyString, post. repeat split; auto. intros; simpl; lia.
  - destruct (Str.is_prefix needle (String c hay)) eqn:E.
    + intros [= <-]. destruct (is_prefix_app _ _ E) as [post Hpost].
      exists EmptyString, post. repeat split; auto. intros; simpl; lia.
    + intros H. destruct (IH _ H) as (pre & post & [Hhay Hmin] & Hsuf).
      exists (String c pre), post. split; [|exact Hsuf]. split.
      * simpl. now rewrite <- Hhay.
      * intros [|c' pre'] post' H'.
        -- simpl in H'. rewrite H', is_prefix_self_app in E. discriminate.
        -- simpl in H'. injection H' as _ H'.
           specialize (Hmin pre' post' H'). simpl. lia.
Qed.

Lemma strstr_contains (needle hay : string) :
  contains needle hay -> Str.strstr hay needle <> None.
Proof.
  intros (pre & post & ->). induction pre as [|c pre IH].
  - change (EmptyString +:+ needle +:+ post) with (needle +:+ post).
    rewrite (strstr_at_head (needle +:+ post) needle (is_prefix_self_app needle post)).
    discriminate.
  - cbn [String.append Str.strstr].
    destruct (Str.is_prefix needle _); [discriminate | exact IH].
Qed.

(** The version an accepted request line is given. *)
Lemma ReadHTTPRequestLine_version (stream : istream) (proto0 : Z)
  (method0 uri0 : string) (proto : Z) (http_method http_uri : string)
  (stream' : istream) :
  ReadHTTPRequestLine stream proto0 method0 uri0
  = (true, proto, http_method, http_uri, stream') ->
  proto =
  match Str.strstr
          (Str.c_str
             (if (2 <? length (Str.split " " (getline stream).1))%nat
              then nth 2 (Str.split " " (getline stream).1) EmptyString
              else EmptyString)) "HTTP/1." with
  | Some ver => Str.atoi (Str.drop 7 ver)
  | None => 0
  end.
Proof.
  unfold ReadHTTPRequestLine. destruct (getline stream) as [str st]. cbn [fst snd].
  destruct (length (Str.split " " str) <? 2)%nat; [discriminate|].
  destruct (negb _ && negb _); [discriminate|].
  destruct (_ || _); [discriminate|].
  now intros [= <- _ _ _].
Qed.

(** C8. [ReadHTTPRequestLine] fails when the line splits into fewer than
    two tokens, when the first token is neither [GET] nor [POST], and when
    the second token is empty or does not begin with [/].  Otherwise it
    succeeds and hands back the two tokens, and the protocol version is
    settled for every such line: it is the integer that follows the first
    ["HTTP/1."] in the third token (the digit [X] of ["HTTP/1.X"]), and 0
    when there is no third token or the third token has no ["HTTP/1."]. *)
Theorem ReadHTTPRequestLine_accepts (stream : istream) (proto0 : Z) (method0 uri0 : string)
  (vWords : list string) (ok : bool) (proto : Z) (http_method http_uri : string)
  (stream' : istream) :
  vWords = Str.split " " (getline stream).1 ->
  ReadHTTPRequestLine stream proto0 method0 uri0
  = (ok, proto, http_method, http_uri, stream') ->
  ((length vWords < 2)%nat -> ok = false) /\
  (nth 0 vWords EmptyString <> "GET" -> nth 0 vWords EmptyString <> "POST" ->
   ok = false) /\
  (nth 1 vWords EmptyString = EmptyString -> ok = false) /\
  ((forall rest, nth 1 vWords EmptyString <> String "/" rest) -> ok = false) /\
  ((2 <= length vWords)%nat ->
   nth 0 vWords EmptyString = "GET" \/ nth 0 vWords EmptyString = "POST" ->
   (exists rest, nth 1 vWords EmptyString = String "/" rest) ->
   ok = true /\ http_method = nth 0 vWords EmptyString
   /\ http_uri = nth 1 vWords EmptyString
   /\ (forall d, (2 < length vWords)%nat ->
                 nth 2 vWords EmptyString = "HTTP/1." +:+ String d EmptyString ->
                 Str.isdigit d = true -> proto = Z.of_N (N_of_ascii d) - 48)
   /\ (forall pre post,
         (2 < length vWords)%nat ->
         first_occurrence "HTTP/1." pre post (Str.c_str (nth 2 vWords EmptyString)) ->
         proto = Str.atoi post)
   /\ ((2 < length vWords)%nat ->
       contains "HTTP/1." (Str.c_str (nth 2 vWords EmptyString)) ->
       exists pre post,
         first_occurrence "HTTP/1." pre post (Str.c_str (nth 2 vWords EmptyString))
         /\ proto = Str.atoi post)
   /\ (length vWords = 2%nat
       \/ ~ contains "HTTP/1." (Str.c_str (nth 2 vWords EmptyString)) ->
       proto = 0)
   /\ (length vWords = 2%nat \/ ~ contains "HTTP/1." (nth 2 vWords EmptyString) ->
       proto = 0)).
Proof.
  intros Hw H.
  destruct (ReadHTTPRequestLine_tokens stream proto0 method0 uri0 vWords ok proto
              http_method http_uri stream' Hw H) as (H1 & H2 & H3 & H4 & H5).
  split; [exact H1|]. split; [exact H2|]. split; [exact H3|]. split; [exact H4|].
  intros Hlen Hmeth Huri.
  destruct (H5 Hlen Hmeth Huri) as (Hok & Hm & Hu & Hdigit & Hzero).
  subst ok. pose proof (ReadHTTPRequestLine_version _ _ _ _ _ _ _ _ H) as Hp.
  rewrite <- Hw in Hp.
  split; [reflexivity|]. split; [exact Hm|]. split; [exact Hu|].
  split; [exact Hdigit|].
  split; [|split; [|split; [|exact Hzero]]].
  - intros pre post Hthree Hfirst. apply Nat.ltb_lt in Hthree.
    rewrite Hthree, (strstr_first _ _ _ _ Hfirst) in Hp. exact Hp.
  - intros Hthree Hcont. apply Nat.ltb_lt in Hthree. rewrite Hthree in Hp.
    destruct (Str.strstr (Str.c_str (nth 2 vWords EmptyString)) "HTTP/1.")
      as [suf|] eqn:E; [|now apply strstr_contains in Hcont].
    destruct (strstr_Some _ _ _ E) as (pre & post & Hfirst & ->).
    exists pre, post. split; [exact Hfirst | exact Hp].
  - intros [Htwo|Hno].
    + rewrite Htwo in Hp. exact Hp.
    + destruct (2 <? length vWords)%nat; [|exact Hp].
      now rewrite (strstr_absent _ _ Hno) in Hp.
Qed.

Lemma ReadHTTPRequestLine_accepts_witness :
  (2 <= length (Str.split " " (getline (istream_of ("POST / xHTTP/1.10" +:+ nl))).1))%nat
  /\ (ReadHTTPRequestLine (istream_of ("POST / xHTTP/1.10" +:+ nl)) 7 "" "").1.1.1.1 = true
  /\ (ReadHTTPRequestLine (istream_of ("POST / xHTTP/1.10" +:+ nl)) 7 "" "").1.1.1.2
     = Str.atoi "10".
Proof.
  assert (Hlen : (2 <= length (Str.split " "
                       (getline (istream_of ("POST / xHTTP/1.10" +:+ nl))).1))%nat)
    by (vm_compute; lia).
  split; [exact Hlen|].
  destruct (ReadHTTPRequestLine_accepts (istream_of ("POST / xHTTP/1.10" +:+ nl)) 7 "" ""
              (Str.split " " (getline (istream_of ("POST / xHTTP/1.10" +:+ nl))).1)
              (ReadHTTPRequestLine (istream_of ("POST / xHTTP/1.10" +:+ nl)) 7 "" "").1.1.1.1
              (ReadHTTPRequestLine (istream_of ("POST / xHTTP/1.10" +:+ nl)) 7 "" "").1.1.1.2
              (ReadHTTPRequestLine (istream_of ("POST / xHTTP/1.10" +:+ nl)) 7 "" "").1.1.2
              (ReadHTTPRequestLine (istream_of ("POST / xHTTP/1.10" +:+ nl)) 7 "" "").1.2
              (ReadHTTPRequestLine (istream_of ("POST / xHTTP/1.10" +:+ nl)) 7 "" "").2
              eq_refl eq_refl) as (_ & _ & _ & _ & H).
  destruct (H Hlen) as (Hok & _ & _ & _ & Hver & _).
  - right. reflexivity.
  - exists EmptyString. reflexivity.
  - split; [exact Hok|].
    apply (Hver "x" "10"); [vm_compute; lia|].
    split; [reflexivity|].
    intros [|c pre'] post' Hocc; [discriminate Hocc | simpl; lia].
Defined.

Example ReadHTTPRequestLine_version_two_digits :
  (ReadHTTPRequestLine (istream_of ("GET / HTTP/1.10" +:+ nl)) 7 "" "").1.1.1.2 = 10.
Proof. vm_compute. reflexivity. Qed.

Example ReadHTTPRequestLine_version_before_CR :
  (ReadHTTPRequestLine
     (istream_of ("GET / HTTP/1.1" +:+ String (ascii_of_N 13) EmptyString +:+ nl))
     7 "" "").1.1.1.2 = 1.
Proof. vm_compute. reflexivity. Qed.

Example ReadHTTPRequestLine_version_no_digit :
  (ReadHTTPRequestLine (istream_of ("GET / HTTP/1.x" +:+ nl)) 7 "" "").1.1.1.2 = 0.
Proof. vm_compute. reflexivity. Qed.

(** ** The declared length and the header map *)

(** From a map without a [content-length] entry, the declared length
    follows the entry: 0 while there is none, the conversion of its value
    once there is one. *)
Lemma ReadHTTPHeaders_declared_exact (stream : istream) (m0 : gmap string string) :
  m0 !! "content-length" = None ->
  match (ReadHTTPHeaders stream m0).1.2 !! "content-length" with
  | Some v => (ReadHTTPHeaders stream m0).1.1 = Str.atoi (Str.c_str v)
  | None => (ReadHTTPHeaders stream m0).1.1 = 0
  end.
Proof.
  intros H0. unfold ReadHTTPHeaders.
  apply (ReadHTTPHeaders_loop_invariant
           (fun (m : gmap string string) n =>
              match m !! "content-length" with
              | Some v => n = Str.atoi (Str.c_str v)
              | None => n = 0
              end)); [|now rewrite H0].
  intros str m n Hn. unfold header_line, map_assign.
  destruct (Str.find ":" str) as [i|]; [|exact Hn].
  destruct (String.eqb_spec (Str.to_lower (Str.trim (Str.take i str))) "content-length")
    as [->|Hne]; cbn [fst snd].
  - now rewrite lookup_insert_eq.
  - now rewrite lookup_insert_ne.
Qed.

(** C7, as amended. The header collector returns the same declared
    length and the same map whatever the letter case of a header name and
    the blanks around it, the name [Content-Length] included: a header is
    stored under its lowercased, trimmed name with its trimmed value, and
    the last one of a name wins.  The declared length is [atoi] of the
    value stored under [content-length]: 0 when there is no such entry or
    when the value does not start with an integer, and otherwise the
    integer the value starts with. *)
Theorem ReadHTTPHeaders_content_length
  (pre : list string) (ws1 n1 ws2 ws3 n2 ws4 v post : string)
  (stream : istream) (m0 : gmap string string) (value : string) :
  (Forall (fun l => Str.mem Str.LF l = false) pre ->
   padding ws1 -> padding ws2 -> padding ws3 -> padding ws4 ->
   Str.to_lower n1 = Str.to_lower n2 ->
   Str.mem ":" n1 = false -> Str.mem Str.LF n1 = false ->
   Str.mem Str.LF v = false ->
   (ReadHTTPHeaders
      (istream_of (lines_text pre +:+ ((ws1 +:+ n1 +:+ ws2) +:+ String ":" v)
                   +:+ nl +:+ post)) m0).1
   = (ReadHTTPHeaders
        (istream_of (lines_text pre +:+ ((ws3 +:+ n2 +:+ ws4) +:+ String ":" v)
                     +:+ nl +:+ post)) m0).1) /\
  (Forall header_line_ok pre ->
   padding ws1 -> padding ws2 ->
   Str.mem ":" n1 = false -> Str.mem Str.LF n1 = false ->
   Str.mem Str.LF v = false ->
   (ReadHTTPHeaders
      (istream_of (lines_text (pre ++ [(ws1 +:+ n1 +:+ ws2) +:+ String ":" v])
                   +:+ nl +:+ post)) m0).1.2
     !! Str.to_lower (Str.trim n1) = Some (Str.trim v)
   /\ (Str.to_lower (Str.trim n1) = "content-length" ->
       (ReadHTTPHeaders
          (istream_of (lines_text (pre ++ [(ws1 +:+ n1 +:+ ws2) +:+ String ":" v])
                       +:+ nl +:+ post)) m0).1.1
       = Str.atoi (Str.c_str (Str.trim v)))
   /\ (ReadHTTPHeaders
         (istream_of (lines_text (pre ++ [(ws1 +:+ n1 +:+ ws2) +:+ String ":" v])
                      +:+ nl +:+ post)) m0).2
      = istream_of post) /\
  ((ReadHTTPHeaders stream m0).1.2 !! "content-length" = None ->
   (ReadHTTPHeaders stream m0).1.1 = 0) /\
  ((ReadHTTPHeaders stream m0).1.2 !! "content-length" = Some value ->
   Str.scan_int (Str.c_str value) = None ->
   (ReadHTTPHeaders stream m0).1.1 = 0) /\
  (m0 !! "content-length" = None ->
   (ReadHTTPHeaders stream m0).1.2 !! "content-length" = Some value ->
   (ReadHTTPHeaders stream m0).1.1 = Str.atoi (Str.c_str value)).
Proof.
  split; [|split; [|split; [|split]]].
  - intros. unfold ReadHTTPHeaders. now apply ReadHTTPHeaders_loop_variant.
  - intros Hpre [P1 Q1] [P2 Q2] Hc Hl Hv.
    assert (Hname : Str.mem ":" (ws1 +:+ n1 +:+ ws2) = false
                    /\ Str.mem Str.LF (ws1 +:+ n1 +:+ ws2) = false).
    { rewrite !mem_app, Hc, Hl, Q1, Q2, !mem_colon_padding by assumption. now split. }
    destruct Hname as [Hnc Hnl].
    unfold ReadHTTPHeaders. rewrite ReadHTTPHeaders_loop_lines.
    2:{ apply Forall_app. split; [exact Hpre|]. constructor; [|constructor].
        split; [rewrite mem_app; simpl; now rewrite Hnl, Hv|].
        now destruct (ws1 +:+ n1 +:+ ws2). }
    cbn [fst snd]. rewrite header_lines_app, header_lines_one.
    rewrite header_line_colon by assumption. cbn [fst snd].
    rewrite (trim_padding ws1 n1 ws2 P1 P2).
    split; [apply lookup_insert_eq|]. split; [|reflexivity].
    intros ->. reflexivity.
  - intros Hnone. destruct (ReadHTTPHeaders_declared stream m0) as [H|(x & Hx & _)];
      [exact H | congruence].
  - intros Hsome Hscan.
    destruct (ReadHTTPHeaders_declared stream m0) as [H|(x & Hx & Hlen)]; [exact H|].
    rewrite Hlen. apply atoi_unparsable. congruence.
  - intros H0 Hsome. pose proof (ReadHTTPHeaders_declared_exact stream m0 H0) as H.
    now rewrite Hsome in H.
Qed.

Lemma ReadHTTPHeaders_content_length_witness :
  (ReadHTTPHeaders
     (istream_of (lines_text ["Host: x"] +:+ ((" " +:+ "Content-Length" +:+ " ")
                  +:+ String ":" " 10") +:+ nl +:+ nl +:+ "0123456789")) ∅).1
  = (ReadHTTPHeaders
       (istream_of (lines_text ["Host: x"] +:+ (("" +:+ "content-length" +:+ "")
                    +:+ String ":" " 10") +:+ nl +:+ nl +:+ "0123456789")) ∅).1
  /\ (ReadHTTPHeaders
        (istream_of (lines_text (["content-length: 7"]
                                 ++ [(" " +:+ "Content-Length" +:+ " ") +:+ String ":" " 10"])
                     +:+ nl +:+ "0123456789")) ∅).1.1
     = Str.atoi (Str.c_str (Str.trim " 10"))
  /\ (ReadHTTPHeaders (istream_of ("Host: x" +:+ nl +:+ nl)) ∅).1.1 = 0
  /\ (ReadHTTPHeaders (istream_of ("Content-Length: ten" +:+ nl +:+ nl)) ∅).1.1 = 0
  /\ (ReadHTTPHeaders (istream_of ("Content-Length: 12abc" +:+ nl +:+ nl)) ∅).1.1
     = Str.atoi (Str.c_str "12abc").
Proof.
  split; [|split; [|split; [|split]]].
  - apply (proj1 (ReadHTTPHeaders_content_length ["Host: x"]
                    " " "Content-Length" " " "" "content-length" "" " 10"
                    (nl +:+ "0123456789") (istream_of "") ∅ ""));
      try (split; reflexivity); try reflexivity.
    repeat constructor.
  - apply (proj1 (proj2 (ReadHTTPHeaders_content_length ["content-length: 7"]
                    " " "Content-Length" " " "" "" "" " 10"
                    "0123456789" (istream_of "") ∅ "")));
      try (split; reflexivity); try reflexivity.
    repeat constructor.
  - apply (proj1 (proj2 (proj2 (ReadHTTPHeaders_content_length []
                    "" "" "" "" "" "" "" ""
                    (istream_of ("Host: x" +:+ nl +:+ nl)) ∅ "")))).
    vm_compute. reflexivity.
  - apply (proj1 (proj2 (proj2 (proj2 (ReadHTTPHeaders_content_length []
                    "" "" "" "" "" "" "" ""
                    (istream_of ("Content-Length: ten" +:+ nl +:+ nl)) ∅ "ten"))))).
    + vm_compute. reflexivity.
    + reflexivity.
  - apply (proj2 (proj2 (proj2 (proj2 (ReadHTTPHeaders_content_length []
                    "" "" "" "" "" "" "" ""
                    (istream_of ("Content-Length: 12abc" +:+ nl +:+ nl)) ∅ "12abc"))))).
    + reflexivity.
    + vm_compute. reflexivity.
Defined.

(** C7, as the spec words it, fails: the value [12abc] is not the text of
    an integer, and yet the declared length is 12, not 0. *)
Lemma ReadHTTPHeaders_partial_integer :
  integer_text "12abc" = false
  /\ (ReadHTTPHeaders (istream_of ("Content-Length: 12abc" +:+ nl +:+ nl)) ∅).1.2
       !! "content-length" = Some "12abc"
  /\ (ReadHTTPHeaders (istream_of ("Content-Length: 12abc" +:+ nl +:+ nl)) ∅).1.1 = 12
  /\ (ReadHTTPHeaders (istream_of ("Content-Length: 12abc" +:+ nl +:+ nl)) ∅).1.1 <> 0.
Proof.
  repeat split; try (vm_compute; reflexivity).
  vm_compute. discriminate.
Qed.
